(** * The message-step processor of the journey engine

    A shallow embedding of [MessageStepProcessor.process]
    (the worker of the [{message.step}] queue) and of the parts of the
    JavaScript platform it relies on: [Date] arithmetic, the [HH:MM]
    clock strings, [String.prototype.split] and [parseInt].

    The processor is effectful: it reads the clock, consults and updates
    the rate-limit store, talks to the message sender, the telemetry sink,
    the location lock and the step queues, and it may throw.  It is written
    here in a small state-and-exception monad over a [State] made of the
    job payload (which the source mutates in place) and a [World] that
    holds the external stores, the oracles for the collaborators and the
    chronological trace of every side effect. *)

From Stdlib Require Import ZArith String Ascii List Bool Lia.
Import ListNotations.
Local Open Scope string_scope.
Local Open Scope Z_scope.

(** ** ECMAScript time values *)

Module JSDate.

Definition msPerDay : Z := 86400000.
Definition msPerHour : Z := 3600000.
Definition msPerMinute : Z := 60000.
Definition msPerSecond : Z := 1000.

(** The largest magnitude of a time value (ECMA-262, TimeClip). *)
Definition maxTime : Z := 8640000000000000.

(** A [Date] object holds a time value in milliseconds since the epoch,
    or NaN (an "Invalid Date"). *)
Inductive t : Type :=
| Instant (ms : Z)
| Invalid.

Definition Day (tv : Z) : Z := tv / msPerDay.
Definition TimeWithinDay (tv : Z) : Z := tv mod msPerDay.
Definition HourFromTime (tv : Z) : Z := (tv / msPerHour) mod 24.
Definition MinFromTime (tv : Z) : Z := (tv / msPerMinute) mod 60.
Definition SecFromTime (tv : Z) : Z := (tv / msPerSecond) mod 60.
Definition msFromTime (tv : Z) : Z := tv mod msPerSecond.

Definition MakeTime (hour min sec ms : Z) : Z :=
  hour * msPerHour + min * msPerMinute + sec * msPerSecond + ms.
Definition MakeDate (day time : Z) : Z := day * msPerDay + time.

Definition TimeClip (tv : Z) : t :=
  if Z.abs tv <=? maxTime then Instant tv else Invalid.

(** The time zone of the server process, as ECMA-262 consults it
    (LocalTZA): [offsetAt t] is the offset from UTC, in milliseconds, in
    force at the instant [t]; [offsetOfLocal tl] is the offset under which
    the zone reads the local time value [tl].  Where a local time is
    skipped or repeated by a transition, it is read with the offset in
    force before the transition. *)
Record Zone : Type := {
  offsetAt : Z -> Z;
  offsetOfLocal : Z -> Z
}.

Definition LocalTime (zone : Zone) (tv : Z) : Z := tv + offsetAt zone tv.
Definition UTC (zone : Zone) (tl : Z) : Z := tl - offsetOfLocal zone tl.

(** A zone without transitions, [tza] milliseconds east of UTC. *)
Definition fixedZone (tza : Z) : Zone :=
  {| offsetAt := fun _ => tza; offsetOfLocal := fun _ => tza |}.

(** A zone on the offset [dst] from the instant [start] to the instant
    [stop] and on the offset [std] otherwise, with [std < dst].  The local
    times from [start + std] to [start + dst] are skipped and read with
    [std]; those from [stop + std] to [stop + dst] occur twice and are
    read with [dst]. *)
Definition dstZone (std dst start stop : Z) : Zone :=
  {| offsetAt := fun tv => if (start <=? tv) && (tv <? stop) then dst else std;
     offsetOfLocal :=
       fun tl => if (start + dst <=? tl) && (tl <? stop + dst) then dst else std |}.

(** The instant at which the local clock shows what it shows at [tv],
    moved on by [d] milliseconds. *)
Definition localShift (zone : Zone) (tv d : Z) : Z :=
  UTC zone (LocalTime zone tv + d).

(** The local time [d] milliseconds after that of [tv] is read with the
    offset in force at [tv]: no transition of the zone lies between. *)
Definition steady (zone : Zone) (tv d : Z) : Prop :=
  offsetOfLocal zone (LocalTime zone tv + d) = offsetAt zone tv.

(** [new Date(d)] *)
Definition copy (d : t) : t := d.

(** [d.setUTCHours(hour, min, 0, 0)]; a NaN argument is [None]. *)
Definition setUTCHours (d : t) (hour min : option Z) : t :=
  match d, hour, min with
  | Instant tv, Some h, Some m =>
      TimeClip (MakeDate (Day tv) (MakeTime h m 0 0))
  | _, _, _ => Invalid
  end.

(** [d.getMinutes()], in local time. *)
Definition getMinutes (zone : Zone) (d : t) : option Z :=
  match d with
  | Instant tv => Some (MinFromTime (LocalTime zone tv))
  | Invalid => None
  end.

(** [d.setMinutes(min)], in local time. *)
Definition setMinutes (zone : Zone) (d : t) (min : option Z) : t :=
  match d, min with
  | Instant tv, Some m =>
      let tl := LocalTime zone tv in
      TimeClip (UTC zone (MakeDate (Day tl)
                  (MakeTime (HourFromTime tl) m (SecFromTime tl) (msFromTime tl))))
  | _, _ => Invalid
  end.

(** [d.setDate(d.getDate() + 1)], in local time.  ECMA-262 computes
    [MakeDay(YearFromTime(tl), MonthFromTime(tl), DateFromTime(tl) + 1)],
    which is the day number after [Day(tl)]: [MakeDay] counts days from
    the first of the month, and day-of-month overflow rolls over into the
    next month or year.  The result is the same local time of day on the
    next local date, read back to UTC by the rules of the zone. *)
Definition setDate_nextDay (zone : Zone) (d : t) : t :=
  match d with
  | Instant tv =>
      let tl := LocalTime zone tv in
      TimeClip (UTC zone (MakeDate (Day tl + 1) (TimeWithinDay tl)))
  | Invalid => Invalid
  end.

(** [a < b] on two dates: the comparison of the time values, false as
    soon as one of them is NaN. *)
Definition lt (a b : t) : bool :=
  match a, b with
  | Instant x, Instant y => x <? y
  | _, _ => false
  end.

End JSDate.

(** ** Clock strings *)

Module JSString.

Definition colon : ascii := ":"%char.

(** [s.split(':')]: the pieces between the separators; never empty. *)
Fixpoint split_colon_aux (acc : string) (s : string) : list string :=
  match s with
  | EmptyString => [acc]
  | String c rest =>
      if Ascii.eqb c colon
      then acc :: split_colon_aux EmptyString rest
      else split_colon_aux (acc ++ String c EmptyString) rest
  end.

Definition split_colon (s : string) : list string :=
  split_colon_aux EmptyString s.

Definition is_space (c : ascii) : bool :=
  let n := nat_of_ascii c in
  (Nat.eqb n 32 || (Nat.leb 9 n && Nat.leb n 13))%bool.

Fixpoint skip_space (s : string) : string :=
  match s with
  | String c rest => if is_space c then skip_space rest else s
  | EmptyString => s
  end.

(** The value of a digit in the given radix, if it is one. *)
Definition digit_value (radix : Z) (c : ascii) : option Z :=
  let n := Z.of_nat (nat_of_ascii c) in
  let v :=
    if (48 <=? n) && (n <=? 57) then Some (n - 48)
    else if (97 <=? n) && (n <=? 122) then Some (n - 87)
    else if (65 <=? n) && (n <=? 90) then Some (n - 55)
    else None in
  match v with
  | Some d => if d <? radix then Some d else None
  | None => None
  end.

(** The longest prefix of digits, read as a number; [None] when the
    prefix is empty. *)
Fixpoint digits (radix : Z) (acc : option Z) (s : string) : option Z :=
  match s with
  | EmptyString => acc
  | String c rest =>
      match digit_value radix c with
      | Some d =>
          digits radix
            (Some (match acc with Some a => a * radix + d | None => d end))
            rest
      | None => acc
      end
  end.

Definition strip_hex_prefix (s : string) : option string :=
  match s with
  | String "0" (String "x" rest) => Some rest
  | String "0" (String "X" rest) => Some rest
  | _ => None
  end.

Definition parse_unsigned (s : string) : option Z :=
  match strip_hex_prefix s with
  | Some rest => digits 16 None rest
  | None => digits 10 None s
  end.

(** [parseInt(s)] with no radix argument: leading white space, a sign,
    an optional [0x] prefix, then the longest run of digits.  [None] is
    NaN.  Numbers are exact integers here, as JavaScript's are below
    2^53. *)
Definition parseInt (s : string) : option Z :=
  match skip_space s with
  | String "-" rest => option_map Z.opp (parse_unsigned rest)
  | String "+" rest => parse_unsigned rest
  | rest => parse_unsigned rest
  end.

(** [parseInt(s.split(':')[i])]; a missing piece is [undefined], which
    parses to NaN. *)
Definition parseInt_piece (s : string) (i : nat) : option Z :=
  match nth_error (split_colon s) i with
  | Some piece => parseInt piece
  | None => None
  end.

Definition digit_char (d : Z) : ascii := ascii_of_nat (Z.to_nat (48 + d)).

(** A number below 100 printed with two digits. *)
Definition two_digits (n : Z) : string :=
  String (digit_char (n / 10)) (String (digit_char (n mod 10)) EmptyString).

Definition hhmm (h m : Z) : string :=
  two_digits h ++ String colon (two_digits m).

(** Whether [hhmm a b] parses back to [a] and [b]. *)
Definition reads_back (a b : nat) : bool :=
  let s := hhmm (Z.of_nat a) (Z.of_nat b) in
  match parseInt_piece s 0, parseInt_piece s 1 with
  | Some x, Some y => (x =? Z.of_nat a) && (y =? Z.of_nat b)
  | _, _ => false
  end.

End JSString.

(** [Intl.DateTimeFormat(undefined, {hour: '2-digit', minute: '2-digit',
    hourCycle: 'h24', timeZone: 'UTC'}).format(now)]: the UTC time of day
    as [HH:MM], in a locale that prints Latin digits around a colon.  The
    hour cycle [h24] numbers the hours 1 to 24, so the hour after midnight
    prints as 24. *)
Definition formatUTC (now : Z) : string :=
  let h := JSDate.HourFromTime now in
  JSString.hhmm (if h =? 0 then 24 else h) (JSDate.MinFromTime now).

(** ** The job payload *)

(** [StepType], with every key of the processor map. *)
Inductive StepType : Type :=
| START | EXPERIMENT | LOOP | EXIT | MULTISPLIT | MESSAGE
| TIME_WINDOW | TIME_DELAY | WAIT_UNTIL_BRANCH
| AB_TEST | RANDOM_COHORT_BRANCH | TRACKER | ATTRIBUTE_BRANCH.

(** The value of the [type] of a template at run time: a string, or
    [None] for [undefined].  The column is declared of the enumeration
    [TemplateType], which the platform does not enforce. *)
Definition TemplateType : Type := option string.

(** The members of the enumeration [TemplateType] of the template
    entity. *)
Definition EMAIL : TemplateType := Some "email".
Definition SLACK : TemplateType := Some "slack".
Definition SMS : TemplateType := Some "sms".
Definition FIREBASE : TemplateType := Some "firebase".
Definition WEBHOOK : TemplateType := Some "webhook".

(** The expression [TemplateType.PUSH], a label of the processor's
    [switch]: the enumeration has no member of that name, so it evaluates
    to [undefined]. *)
Definition TemplateType_PUSH : TemplateType := None.

(** [a === b] on two such values. *)
Definition strictEq (a b : TemplateType) : bool :=
  match a, b with
  | Some x, Some y => String.eqb x y
  | None, None => true
  | _, _ => false
  end.

(** [JourneySettingsQuietFallbackBehavior] *)
Inductive JourneySettingsQuietFallbackBehavior : Type :=
| NextAvailableTime
| Abort.

Record Template : Type := {
  template_id : string;
  template_type : TemplateType;
  (** the [url] of [webhookData], when the column is set *)
  webhookData : option string
}.

Record StepMetadata : Type := {
  template : string;
  destination : string;
  humanReadableName : string;
  selectedPlatform : string
}.

Record Step : Type := {
  step_id : string;
  step_type : StepType;
  metadata : StepMetadata
}.

Record QuietHours : Type := {
  enabled : bool;
  startTime : string;
  endTime : string;
  (** [None]: the field is absent or holds no member of the enumeration *)
  fallbackBehavior : option JourneySettingsQuietFallbackBehavior
}.

(** A rate-limit configuration [{enabled, max}]. *)
Record RateLimit : Type := {
  limit_enabled : bool;
  limit_max : Z
}.

Record JourneySettings : Type := {
  quietHours : option QuietHours;
  customersMessagedLimit : RateLimit;
  perMinuteLimit : RateLimit
}.

Record Journey : Type := {
  journey_id : string;
  journeySettings : option JourneySettings
}.

(** The first workspace of the owner's organization.  The processor
    dereferences it unguarded on every branch that uses it. *)
Record Workspace : Type := {
  workspace_id : string;
  timezoneUTCOffset : Z;
  emailProvider : string;
  freeEmailsCount : Z
}.

Record Account : Type := {
  account_id : string;
  email : string;
  workspace : Workspace
}.

Record Customer : Type := {
  customer_id : string
}.

Record JourneyLocation : Type := {
  location_journey : string;
  location_customer : string;
  messageSent : bool
}.

(** [job.data] *)
Record JobData : Type := {
  step : Step;
  owner : Account;
  journey : Journey;
  customer : Customer;
  location : JourneyLocation;
  session : string;
  event : option string;
  branch : option Z
}.

(** The payload handed to the queue of the next step. *)
Record NextJob : Type := {
  next_owner : Account;
  next_journey : Journey;
  next_step : Step;
  next_session : string;
  next_customer : Customer;
  next_location : JourneyLocation;
  next_event : option string
}.

(** The helpers of [@/common/helper/timing], whose file is not part of the
    sources at hand: the processor is defined over any implementation, and
    [specTiming] below gives the one the specification describes. *)
Class Timing : Type := {
  convertTimeToUTC : string -> Z -> string;
  isWithinInterval : string -> string -> string -> bool
}.

(** ** Faults, effects and the world *)

Inductive Fault : Type :=
| TypeError
| HttpException (status : Z) (message : string)
| Error (message : string)
| SenderFault.

Definition PAYMENT_REQUIRED : Z := 402.

(** The [name] of a request to [MessageSender.process]. *)
Inductive SenderName : Type :=
| SendEmail | SendAndroid | SendIos | SendSms.

Inductive QueueName : Type :=
| startStepQueue | waitUntilStepQueue | messageStepQueue | jumpToStepQueue
| timeDelayStepQueue | timeWindowStepQueue | multisplitStepQueue
| experimentStepQueue | exitStepQueue.

(** A row written by the processor itself to the message-status table. *)
Record StatusRow : Type := {
  row_stepId : string;
  row_createdAt : Z;
  row_customerId : string;
  row_event : string;
  row_messageId : string;
  row_templateId : string;
  row_workspaceId : string
}.

(** The calls the processor makes to its collaborators, one constructor
    per call site.  The sender may throw, as the world says; the other
    collaborators are taken to return. *)
Inductive Effect : Type :=
| RateLimitByCustomersMessaged
| RateLimitByMinute
| RateLimitByMinuteIncrement
| TemplateLookup (id : string)
| SenderProcess (name : SenderName) (stepID customerID templateID : string)
| InsertDeliveryStatus (name : SenderName)
| InsertStatusRow (row : StatusRow)
| SaveOwner
| SaveWorkspace
| WebhooksQueueAdd (stepId customerId accountId : string)
| HttpGet (url : string)
| HttpsGet (url : string)
| LogError (e : Fault)
| Unlock (loc : JourneyLocation) (stepId : string)
| RequeueMessage (stepId customerId : string) (requeueTime : option JSDate.t)
                 (session : string)
| StepLookup (id : string)
| QueueAdd (queue : QueueName) (type : StepType) (job : NextJob).

(** Everything outside the job: the clock, the time zone and environment of
    the process, the rate-limit counters, the oracles that answer for the
    collaborators, and the trace of the calls made so far. *)
Record World : Type := {
  (** the successive readings of [new Date()] and the number taken *)
  clock : nat -> Z;
  clock_reads : nat;
  (** the time zone of the server process *)
  zone : JSDate.Zone;
  MOCK_MESSAGE_SEND : option string;
  MOCK_MESSAGE_SEND_URL : option string;
  (** rate-limit counters of the journey *)
  minuteCount : Z;
  customersMessaged : Z;
  (** what the cache or the repository returns for an id *)
  templates : string -> option Template;
  steps : string -> option Step;
  (** whether [MessageSender.process] resolves for a request *)
  senderResolves : SenderName -> bool;
  (** the [protocol] of [new URL(s)], [None] when the constructor throws *)
  urlProtocol : string -> option string;
  (** whether the request [http.get] / [https.get] starts for an address
      later emits ['error'] (a refused connection, an unknown host) *)
  requestFails : string -> bool;
  trace : list Effect
}.

Record State : Type := {
  job : JobData;
  world : World
}.

(** ** The monad of the processor *)

Inductive Res (A : Type) : Type :=
| Ok (a : A)
| Throw (e : Fault).
Arguments Ok {A} a.
Arguments Throw {A} e.

Definition M (A : Type) : Type := State -> Res A * State.

Definition ret {A} (a : A) : M A := fun s => (Ok a, s).

Definition bind {A B} (m : M A) (k : A -> M B) : M B :=
  fun s =>
    match m s with
    | (Ok a, s') => k a s'
    | (Throw e, s') => (Throw e, s')
    end.

Definition throw {A} (e : Fault) : M A := fun s => (Throw e, s).

(** [try { m } catch (e) { h(e) }] *)
Definition try_catch (m : M unit) (h : Fault -> M unit) : M unit :=
  fun s =>
    match m s with
    | (Ok a, s') => (Ok a, s')
    | (Throw e, s') => h e s'
    end.

Declare Scope proc_scope.
Delimit Scope proc_scope with proc.
Notation "x <- m ;; k" := (bind m (fun x => k))
  (at level 100, m at next level, right associativity) : proc_scope.
Notation "m ;; k" := (bind m (fun _ => k))
  (at level 100, right associativity) : proc_scope.
Local Open Scope proc_scope.

Definition getJob : M JobData := fun s => (Ok (job s), s).
Definition getWorld : M World := fun s => (Ok (world s), s).

Definition with_trace (w : World) (tr : list Effect) : World :=
  {| clock := clock w; clock_reads := clock_reads w; zone := zone w;
     MOCK_MESSAGE_SEND := MOCK_MESSAGE_SEND w;
     MOCK_MESSAGE_SEND_URL := MOCK_MESSAGE_SEND_URL w;
     minuteCount := minuteCount w; customersMessaged := customersMessaged w;
     templates := templates w; steps := steps w;
     senderResolves := senderResolves w; urlProtocol := urlProtocol w;
     requestFails := requestFails w; trace := tr |}.

Definition with_clock_reads (w : World) (n : nat) : World :=
  {| clock := clock w; clock_reads := n; zone := zone w;
     MOCK_MESSAGE_SEND := MOCK_MESSAGE_SEND w;
     MOCK_MESSAGE_SEND_URL := MOCK_MESSAGE_SEND_URL w;
     minuteCount := minuteCount w; customersMessaged := customersMessaged w;
     templates := templates w; steps := steps w;
     senderResolves := senderResolves w; urlProtocol := urlProtocol w;
     requestFails := requestFails w; trace := trace w |}.

Definition with_minuteCount (w : World) (n : Z) : World :=
  {| clock := clock w; clock_reads := clock_reads w; zone := zone w;
     MOCK_MESSAGE_SEND := MOCK_MESSAGE_SEND w;
     MOCK_MESSAGE_SEND_URL := MOCK_MESSAGE_SEND_URL w;
     minuteCount := n; customersMessaged := customersMessaged w;
     templates := templates w; steps := steps w;
     senderResolves := senderResolves w; urlProtocol := urlProtocol w;
     requestFails := requestFails w; trace := trace w |}.

(** A call to a collaborator, appended to the trace. *)
Definition emit (e : Effect) : M unit :=
  fun s =>
    (Ok tt, {| job := job s;
               world := with_trace (world s) (trace (world s) ++ [e]) |}).

(** [new Date()] *)
Definition newDate : M Z :=
  fun s =>
    let w := world s in
    (Ok (clock w (clock_reads w)),
     {| job := job s; world := with_clock_reads w (S (clock_reads w)) |}).

(** ** The rate-limit operations of [JourneysService] *)

Module JourneysService.

(** Modelled from the spec: [JourneysService] is not among the sources.
    [rateLimitByCustomersMessagedEnabled(journey)] returns a tuple whose
    first component says whether the distinct-customers limit of the
    journey settings is enabled. *)
Definition rateLimitByCustomersMessagedEnabled (j : Journey) : bool :=
  match journeySettings j with
  | Some settings => limit_enabled (customersMessagedLimit settings)
  | None => false
  end.

(** Modelled from the spec: the per-minute counterpart of
    [rateLimitByCustomersMessagedEnabled]. *)
Definition rateLimitByMinuteEnabled (j : Journey) : bool :=
  match journeySettings j with
  | Some settings => limit_enabled (perMinuteLimit settings)
  | None => false
  end.

Definition cap (pick : JourneySettings -> RateLimit) (j : Journey) : option Z :=
  match journeySettings j with
  | Some settings => Some (limit_max (pick settings))
  | None => None
  end.

Definition reached (count : Z) (c : option Z) : bool :=
  match c with
  | Some m => m <=? count
  | None => false
  end.

(** Modelled from the spec: [rateLimitByCustomersMessaged] is a look at
    the store; it answers true when the journey has already reached its
    cap of distinct customers messaged. *)
Definition rateLimitByCustomersMessaged : M bool :=
  j <- getJob ;;
  w <- getWorld ;;
  emit RateLimitByCustomersMessaged ;;
  ret (reached (customersMessaged w) (cap customersMessagedLimit (journey j))).

(** Modelled from the spec: [rateLimitByMinute] is a look at the store;
    it answers true when the send count of the current minute has
    reached its cap. *)
Definition rateLimitByMinute : M bool :=
  j <- getJob ;;
  w <- getWorld ;;
  emit RateLimitByMinute ;;
  ret (reached (minuteCount w) (cap perMinuteLimit (journey j))).

(** Modelled from the spec: [rateLimitByMinuteIncrement] adds one to the
    send count of the current minute. *)
Definition rateLimitByMinuteIncrement : M unit :=
  emit RateLimitByMinuteIncrement ;;
  fun s =>
    (Ok tt, {| job := job s;
               world := with_minuteCount (world s) (minuteCount (world s) + 1) |}).

End JourneysService.

(** ** The processor *)

Inductive MessageSendType : Type :=
| SEND            (* should send *)
| QUIET_REQUEUE   (* quiet hours, requeue message when quiet hours over *)
| QUIET_ABORT     (* quiet hours, abort message, move to next step *)
| LIMIT_REQUEUE   (* messages per minute rate limit hit, requeue for next minute *)
| LIMIT_HOLD      (* customers messaged per journey rate limit hit, hold at current *)
| MOCK_SEND.      (* mock message send, don't actually send message *)

Definition is_SEND (m : MessageSendType) : bool :=
  match m with SEND => true | _ => false end.

(** The two variables the checks assign: [messageSendType] and
    [requeueTime], the latter [undefined] until a check sets it. *)
Record Gate : Type := {
  messageSendType : MessageSendType;
  requeueTime : option JSDate.t
}.

Definition set_location (j : JobData) (l : JourneyLocation) : JobData :=
  {| step := step j; owner := owner j; journey := journey j;
     customer := customer j; location := l; session := session j;
     event := event j; branch := branch j |}.

Definition set_freeEmailsCount (j : JobData) (n : Z) : JobData :=
  let o := owner j in
  let ws := workspace o in
  {| step := step j;
     owner := {| account_id := account_id o; email := email o;
                 workspace := {| workspace_id := workspace_id ws;
                                 timezoneUTCOffset := timezoneUTCOffset ws;
                                 emailProvider := emailProvider ws;
                                 freeEmailsCount := n |} |};
     journey := journey j; customer := customer j; location := location j;
     session := session j; event := event j; branch := branch j |}.

(** [job.data.location = { ...job.data.location, messageSent: true }] *)
Definition markMessageSent : M unit :=
  fun s =>
    let l := location (job s) in
    (Ok tt,
     {| job := set_location (job s)
                 {| location_journey := location_journey l;
                    location_customer := location_customer l;
                    messageSent := true |};
        world := world s |}).

(** [workspace.freeEmailsCount--] *)
Definition decrementFreeEmails : M unit :=
  fun s =>
    (Ok tt,
     {| job := set_freeEmailsCount (job s)
                 (freeEmailsCount (workspace (owner (job s))) - 1);
        world := world s |}).

Section Processor.

Context {timing : Timing}.

(** The value of [isQuietHour] for a reading [now] of the clock. *)
Definition isQuietHour (qh : QuietHours) (ws : Workspace) (now : Z) : bool :=
  let utcNowString := formatUTC now in
  let utcStartTime := convertTimeToUTC (startTime qh) (timezoneUTCOffset ws) in
  let utcEndTime := convertTimeToUTC (endTime qh) (timezoneUTCOffset ws) in
  isWithinInterval utcStartTime utcEndTime utcNowString.

(** The [requeueTime] the quiet-hours check computes from [now]. *)
Definition quietRequeueTime (zone : JSDate.Zone) (qh : QuietHours) (ws : Workspace)
           (now : Z) : JSDate.t :=
  let utcEndTime := convertTimeToUTC (endTime qh) (timezoneUTCOffset ws) in
  let requeueTime := JSDate.copy (JSDate.Instant now) in
  let requeueTime :=
    JSDate.setUTCHours requeueTime
      (JSString.parseInt_piece utcEndTime 0)
      (JSString.parseInt_piece utcEndTime 1) in
  if JSDate.lt requeueTime (JSDate.Instant now)
  then JSDate.setDate_nextDay zone requeueTime
  else requeueTime.

(** The [switch] on [quietHours.fallbackBehavior]. *)
Definition quietFallback (qh : QuietHours) : MessageSendType :=
  match fallbackBehavior qh with
  | Some NextAvailableTime => QUIET_REQUEUE
  | Some Abort => QUIET_ABORT
  | None => QUIET_REQUEUE
  end.

(** The quiet-hours check, from the initial [SEND]. *)
Definition checkQuietHours : M Gate :=
  j <- getJob ;;
  let initial := {| messageSendType := SEND; requeueTime := None |} in
  match journeySettings (journey j) with
  | Some settings =>
      match quietHours settings with
      | Some qh =>
          if enabled qh then
            now <- newDate ;;
            w <- getWorld ;;
            let ws := workspace (owner j) in
            if isQuietHour qh ws now then
              ret {| messageSendType := quietFallback qh;
                     requeueTime := Some (quietRequeueTime (zone w) qh ws now) |}
            else ret initial
          else ret initial
      | None => ret initial
      end
  | None => ret initial
  end.

(** 1. Rate limiting by unique customers messaged. *)
Definition checkCustomersMessaged (g : Gate) : M Gate :=
  if is_SEND (messageSendType g) then
    j <- getJob ;;
    if JourneysService.rateLimitByCustomersMessagedEnabled (journey j) then
      doRateLimit <- JourneysService.rateLimitByCustomersMessaged ;;
      if doRateLimit : bool
      then ret {| messageSendType := LIMIT_HOLD; requeueTime := requeueTime g |}
      else ret g
    else ret g
  else ret g.

(** 2. Rate limiting by number of messages sent in the minute. *)
Definition checkPerMinute (g : Gate) : M Gate :=
  if is_SEND (messageSendType g) then
    j <- getJob ;;
    if JourneysService.rateLimitByMinuteEnabled (journey j) then
      doRateLimit <- JourneysService.rateLimitByMinute ;;
      if doRateLimit : bool then
        now <- newDate ;;
        w <- getWorld ;;
        let requeueTime := JSDate.Instant now in
        let requeueTime :=
          JSDate.setMinutes (zone w) requeueTime
            (option_map (fun m => m + 1) (JSDate.getMinutes (zone w) requeueTime)) in
        ret {| messageSendType := LIMIT_REQUEUE; requeueTime := Some requeueTime |}
      else ret g
    else ret g
  else ret g.

(** [cacheService.getIgnoreError(Template, id, ...)]: the template, or
    nothing. *)
Definition lookupTemplate : M (option Template) :=
  j <- getJob ;;
  w <- getWorld ;;
  let id := template (metadata (step j)) in
  emit (TemplateLookup id) ;;
  ret (templates w id).

Definition is_true_string (v : option string) : bool :=
  match v with
  | Some s => String.eqb s "true"
  | None => false
  end.

Definition no_webhookData (tpl : Template) : bool :=
  match webhookData tpl with
  | Some _ => false
  | None => true
  end.

(** 3. Whether the send should be mocked. *)
Definition checkMock (tpl : option Template) (g : Gate) : M Gate :=
  w <- getWorld ;;
  if is_SEND (messageSendType g)
     && is_true_string (MOCK_MESSAGE_SEND w)
     && match tpl with Some t => no_webhookData t | None => false end
  then ret {| messageSendType := MOCK_SEND; requeueTime := requeueTime g |}
  else ret g.

(** The Send Gate: the four checks in the order of the source, with the
    template fetched between the rate limits and the mock check. *)
Definition sendGate : M (Gate * option Template) :=
  g <- checkQuietHours ;;
  g <- checkCustomersMessaged g ;;
  g <- checkPerMinute g ;;
  tpl <- lookupTemplate ;;
  g <- checkMock tpl g ;;
  ret (g, tpl).

End Processor.

(** *** Handling the decision *)

(** [await sender.process({name, ...})] *)
Definition senderProcess (name : SenderName) (tpl : Template) : M unit :=
  j <- getJob ;;
  w <- getWorld ;;
  emit (SenderProcess name (step_id (step j)) (customer_id (customer j))
          (template_id tpl)) ;;
  if senderResolves w name then ret tt else throw SenderFault.

(** [insertMessageStatusToClickhouse(await sender.process({...}), session)] *)
Definition sendAndRecord (name : SenderName) (tpl : Template) : M unit :=
  senderProcess name tpl ;;
  emit (InsertDeliveryStatus name).

(** The [quietHours] field of a push request:
    [journeySettings.quietHours.enabled ? journeySettings?.quietHours : undefined],
    a [TypeError] when the settings or their quiet hours are missing. *)
Definition pushQuietHours : M (option QuietHours) :=
  j <- getJob ;;
  match journeySettings (journey j) with
  | Some settings =>
      match quietHours settings with
      | Some qh => ret (if enabled qh then Some qh else None)
      | None => throw TypeError
      end
  | None => throw TypeError
  end.

Definition sendPush (name : SenderName) (tpl : Template) : M unit :=
  pushQuietHours ;;
  sendAndRecord name tpl.

Definition is_free3 (ws : Workspace) : bool :=
  String.eqb (emailProvider ws) "free3".

(** [case TemplateType.EMAIL] *)
Definition sendEmail (tpl : Template) : M unit :=
  j <- getJob ;;
  let ws := workspace (owner j) in
  (if is_free3 ws then
     if freeEmailsCount ws =? 0
     then throw (HttpException PAYMENT_REQUIRED "You exceeded limit of 3 emails")
     else decrementFreeEmails
   else ret tt) ;;
  sendAndRecord SendEmail tpl ;;
  if is_free3 ws then emit SaveOwner ;; emit SaveWorkspace else ret tt.

(** [case TemplateType.PUSH] *)
Definition sendPushPlatforms (tpl : Template) : M unit :=
  j <- getJob ;;
  let platform := selectedPlatform (metadata (step j)) in
  if String.eqb platform "All" then
    sendPush SendAndroid tpl ;; sendPush SendIos tpl
  else if String.eqb platform "iOS" then sendPush SendIos tpl
  else if String.eqb platform "Android" then sendPush SendAndroid tpl
  else ret tt.

(** [case TemplateType.WEBHOOK] *)
Definition sendWebhook (tpl : Template) : M unit :=
  j <- getJob ;;
  match webhookData tpl with
  | Some _ =>
      emit (WebhooksQueueAdd (step_id (step j)) (customer_id (customer j))
              (account_id (owner j)))
  | None => ret tt
  end.

(** [switch (template.type)], whose labels are compared with [===] in
    the order of the source; a value that matches none does nothing.
    Reading [type] off a missing template is a [TypeError]. *)
Definition sendByTemplateType (tpl : option Template) : M unit :=
  match tpl with
  | None => throw TypeError
  | Some t =>
      let type := template_type t in
      if strictEq type EMAIL then sendEmail t
      else if strictEq type TemplateType_PUSH then sendPushPlatforms t
      else if strictEq type SMS then sendAndRecord SendSms t
      else if strictEq type WEBHOOK then sendWebhook t
      else ret tt
  end.

(** The branch of [SEND]. *)
Definition handleSend (tpl : option Template) : M unit :=
  sendByTemplateType tpl ;;
  (* After send, update rate limit stuff *)
  markMessageSent ;;
  JourneysService.rateLimitByMinuteIncrement.

(** The row the processor writes for its own [aborted] and [sent] events. *)
Definition insertTrackerRow (ev : string) : M unit :=
  j <- getJob ;;
  createdAt <- newDate ;;
  emit (InsertStatusRow
          {| row_stepId := step_id (step j);
             row_createdAt := createdAt;
             row_customerId := customer_id (customer j);
             row_event := ev;
             row_messageId := humanReadableName (metadata (step j));
             row_templateId := template (metadata (step j));
             row_workspaceId := workspace_id (workspace (owner j)) |}).

(** The branch of [QUIET_ABORT]. *)
Definition handleQuietAbort : M unit :=
  insertTrackerRow "aborted".

(** The body of the [try] of the mock send.  What can throw inside it is
    the constructor of the URL.  [http.get] and [https.get] return the
    request they have started, which is no promise: the [await] does not
    wait for a response, and a failure of the request is emitted later, as
    an ['error'] event on a request that has no listener, when the [try]
    has long been left. *)
Definition mockPing (url : string) : M unit :=
  w <- getWorld ;;
  match urlProtocol w url with
  | None => throw TypeError
  | Some protocol =>
      if String.eqb protocol "http:" then emit (HttpGet url)
      else if String.eqb protocol "https:" then emit (HttpsGet url)
      else ret tt
  end.

Definition truthy (v : option string) : option string :=
  match v with
  | Some EmptyString => None
  | other => other
  end.

(** The branch of [MOCK_SEND]. *)
Definition handleMockSend : M unit :=
  w <- getWorld ;;
  match truthy (MOCK_MESSAGE_SEND_URL w) with
  | Some url => try_catch (mockPing url) (fun e => emit (LogError e))
  | None => ret tt
  end ;;
  insertTrackerRow "sent" ;;
  (* After mock send, update rate limit stuff *)
  markMessageSent ;;
  JourneysService.rateLimitByMinuteIncrement.

(** [journeyLocationsService.unlock(job.data.location, step)] *)
Definition unlock (s : Step) : M unit :=
  j <- getJob ;;
  emit (Unlock (location j) (step_id s)).

(** The branch of [LIMIT_HOLD]. *)
Definition handleLimitHold : M unit :=
  j <- getJob ;;
  unlock (step j).

(** The branch of [QUIET_REQUEUE] and [LIMIT_REQUEUE]. *)
Definition handleRequeue (g : Gate) : M unit :=
  j <- getJob ;;
  emit (RequeueMessage (step_id (step j)) (customer_id (customer j))
          (requeueTime g) (session j)) ;;
  unlock (step j).

(** What the chain of branches leaves to do: fall through to the
    resolution of the next step, or [return]. *)
Inductive Flow : Type :=
| FallThrough
| Return.

Definition handleDecision (g : Gate) (tpl : option Template) : M Flow :=
  match messageSendType g with
  | SEND => handleSend tpl ;; ret FallThrough
  | QUIET_ABORT => handleQuietAbort ;; ret FallThrough
  | MOCK_SEND => handleMockSend ;; ret FallThrough
  | LIMIT_HOLD => handleLimitHold ;; ret Return
  | QUIET_REQUEUE | LIMIT_REQUEUE => handleRequeue g ;; ret Return
  end.

(** *** Resolving the next step *)

(** [processorMap]: the queue of each step type, or the fault of the types
    that have no processor. *)
Definition processorMap (type : StepType) : QueueName + Fault :=
  match type with
  | START => inl startStepQueue
  | EXPERIMENT => inl experimentStepQueue
  | LOOP => inl jumpToStepQueue
  | EXIT => inl exitStepQueue
  | MULTISPLIT => inl multisplitStepQueue
  | MESSAGE => inl messageStepQueue
  | TIME_WINDOW => inl timeWindowStepQueue
  | TIME_DELAY => inl timeDelayStepQueue
  | WAIT_UNTIL_BRANCH => inl waitUntilStepQueue
  | AB_TEST | RANDOM_COHORT_BRANCH | TRACKER | ATTRIBUTE_BRANCH =>
      inr (Error "Function not implemented.")
  end.

(** [processorMap[type](type, job)] *)
Definition runProcessor (type : StepType) (nextJob : NextJob) : M unit :=
  match processorMap type with
  | inl queue => emit (QueueAdd queue type nextJob)
  | inr e => throw e
  end.

Definition is_time_based (type : StepType) : bool :=
  match type with
  | TIME_DELAY | TIME_WINDOW | WAIT_UNTIL_BRANCH => true
  | _ => false
  end.

(** [cacheService.getIgnoreError(Step, destination, ...)] *)
Definition lookupNextStep : M (option Step) :=
  j <- getJob ;;
  w <- getWorld ;;
  let id := destination (metadata (step j)) in
  emit (StepLookup id) ;;
  ret (steps w id).

Definition makeNextJob (j : JobData) (nextStep : Step) : NextJob :=
  {| next_owner := owner j;
     next_journey := journey j;
     next_step := nextStep;
     next_session := session j;
     next_customer := customer j;
     next_location := location j;
     next_event := event j |}.

(** The tail of [process], from the lookup of the destination on. *)
Definition dispatchNext : M unit :=
  nextStep <- lookupNextStep ;;
  j <- getJob ;;
  nextJob <-
    match nextStep with
    | Some ns =>
        if negb (is_time_based (step_type ns))
        then ret (Some (makeNextJob j ns))
        else
          (* Destination is time based,
             customer has stopped moving so we can release lock *)
          unlock ns ;; ret None
    | None =>
        (* Destination does not exist,
           customer has stopped moving so we can release lock *)
        unlock (step j) ;; ret None
    end ;;
  match nextStep, nextJob with
  | Some ns, Some nj => runProcessor (step_type ns) nj
  | _, _ => ret tt
  end.

(** Everything after the Send Gate. *)
Definition afterGate (r : Gate * option Template) : M unit :=
  flow <- handleDecision (fst r) (snd r) ;;
  match flow with
  | FallThrough => dispatchNext
  | Return => ret tt
  end.

(** [MessageStepProcessor.process] *)
Definition process {timing : Timing} : M unit :=
  r <- sendGate ;;
  afterGate r.

(** ** The timing helpers of the specification *)

Module SpecTiming.

Definition minutesPerDay : Z := 1440.

(** The minute of the day an [HH:MM] string denotes. *)
Definition minuteOfDay (s : string) : option Z :=
  match JSString.parseInt_piece s 0, JSString.parseInt_piece s 1 with
  | Some h, Some m => Some ((h * 60 + m) mod minutesPerDay)
  | _, _ => None
  end.

(** Modelled from the spec: [convertTimeToUTC] is not among the sources.
    It converts the configured local [HH:MM] time to UTC using the stored
    offset, in minutes east of UTC. *)
Definition convertTimeToUTC (time : string) (offsetMinutes : Z) : string :=
  match minuteOfDay time with
  | Some local =>
      let utc := (local - offsetMinutes) mod minutesPerDay in
      JSString.hhmm (utc / 60) (utc mod 60)
  | None => time
  end.

(** Containment in the window from [s] to [e], [e] excluded, around
    midnight when the window wraps. *)
Definition inWindow (s e c : Z) : bool :=
  if s <=? e then (s <=? c) && (c <? e) else (s <=? c) || (c <? e).

(** Modelled from the spec: [isWithinInterval] is not among the sources.
    It compares the current UTC time of day, at minute resolution, with
    the window [[startTime, endTime)], wraparound-aware. *)
Definition isWithinInterval (startTime endTime checkTime : string) : bool :=
  match minuteOfDay startTime, minuteOfDay endTime, minuteOfDay checkTime with
  | Some s, Some e, Some c => inWindow s e c
  | _, _, _ => false
  end.

End SpecTiming.

#[export] Instance specTiming : Timing := {
  convertTimeToUTC := SpecTiming.convertTimeToUTC;
  isWithinInterval := SpecTiming.isWithinInterval
}.

(** ** A sample journey *)

Module Sample.

(** A quiet window from 22:00 to 06:00 in a workspace on UTC. *)
Definition quiet (fallback : option JourneySettingsQuietFallbackBehavior)
  : QuietHours :=
  {| enabled := true; startTime := "22:00"; endTime := "06:00";
     fallbackBehavior := fallback |}.

Definition unlimited : RateLimit := {| limit_enabled := false; limit_max := 0 |}.
Definition atMost (n : Z) : RateLimit := {| limit_enabled := true; limit_max := n |}.

Definition settings (qh : option QuietHours) (customers perMinute : RateLimit)
  : JourneySettings :=
  {| quietHours := qh; customersMessagedLimit := customers;
     perMinuteLimit := perMinute |}.

Definition theWorkspace (provider : string) (free : Z) : Workspace :=
  {| workspace_id := "workspace-1"; timezoneUTCOffset := 0;
     emailProvider := provider; freeEmailsCount := free |}.

Definition theOwner (provider : string) (free : Z) : Account :=
  {| account_id := "account-1"; email := "owner@example.com";
     workspace := theWorkspace provider free |}.

Definition messageStep : Step :=
  {| step_id := "step-message"; step_type := MESSAGE;
     metadata := {| template := "template-1"; destination := "step-next";
                    humanReadableName := "Welcome"; selectedPlatform := "All" |} |}.

Definition stepOf (type : StepType) : Step :=
  {| step_id := "step-next"; step_type := type;
     metadata := {| template := ""; destination := "";
                    humanReadableName := "Next"; selectedPlatform := "" |} |}.

Definition theLocation : JourneyLocation :=
  {| location_journey := "journey-1"; location_customer := "customer-1";
     messageSent := false |}.

Definition theJob (provider : string) (free : Z) (s : option JourneySettings)
  : JobData :=
  {| step := messageStep; owner := theOwner provider free;
     journey := {| journey_id := "journey-1"; journeySettings := s |};
     customer := {| customer_id := "customer-1" |};
     location := theLocation; session := "session-1";
     event := None; branch := None |}.

Definition emailTemplate : Template :=
  {| template_id := "template-1"; template_type := EMAIL; webhookData := None |}.

(** Day 19000 after the epoch, at the given UTC time of day. *)
Definition at_time (h m s : Z) : Z :=
  JSDate.MakeDate 19000 (JSDate.MakeTime h m s 0).

(** A world whose clock stands at [now], with the given counters, mock
    flag, ping address (which is no URL) and destination step. *)
Definition theWorld (now : Z) (perMinute customers : Z)
           (mock pingUrl : option string) (next : option Step) : World :=
  {| clock := fun _ => now; clock_reads := 0; zone := JSDate.fixedZone 0;
     MOCK_MESSAGE_SEND := mock; MOCK_MESSAGE_SEND_URL := pingUrl;
     minuteCount := perMinute; customersMessaged := customers;
     templates := fun _ => Some emailTemplate;
     steps := fun _ => next;
     senderResolves := fun _ => true;
     urlProtocol := fun _ => None;
     requestFails := fun _ => false;
     trace := [] |}.

Definition state (j : JobData) (w : World) : State := {| job := j; world := w |}.

(** 23:30 UTC inside the quiet window, the next step being an exit. *)
Definition lateEvening (fallback : option JourneySettingsQuietFallbackBehavior)
  : State :=
  state (theJob "mailgun" 3 (Some (settings (Some (quiet fallback)) unlimited unlimited)))
        (theWorld (at_time 23 30 0) 0 0 None None (Some (stepOf EXIT))).

(** 10:30:30 UTC, one message already sent this minute under a cap of
    one. *)
Definition busyMinute : State :=
  state (theJob "mailgun" 3 (Some (settings None unlimited (atMost 1))))
        (theWorld (at_time 10 30 30) 1 0 None None (Some (stepOf EXIT))).

(** No quiet hours and no limits; the destination is [next]. *)
Definition plainSend (next : option Step) : State :=
  state (theJob "mailgun" 3 (Some (settings None unlimited unlimited)))
        (theWorld (at_time 10 30 30) 0 0 None None next).

(** The free plan with no email left. *)
Definition quotaExhausted : State :=
  state (theJob "free3" 0 (Some (settings None unlimited unlimited)))
        (theWorld (at_time 10 30 30) 0 0 None None (Some (stepOf EXIT))).

(** Mock mode, with a ping address that fails to parse. *)
Definition mocked : State :=
  state (theJob "mailgun" 3 (Some (settings None unlimited unlimited)))
        (theWorld (at_time 10 30 30) 0 0 (Some "true") (Some "nowhere")
           (Some (stepOf EXIT))).

End Sample.

(** ** Observations on runs *)

(** The state [s] after the calls [l] have been made. *)
Definition logged (s : State) (l : list Effect) : State :=
  {| job := job s; world := with_trace (world s) (trace (world s) ++ l) |}.

(** The state [s] after one more reading of the clock. *)
Definition ticked (s : State) : State :=
  {| job := job s;
     world := with_clock_reads (world s) (S (clock_reads (world s))) |}.

(** The reading [new Date()] returns next. *)
Definition nextReading (s : State) : Z :=
  clock (world s) (clock_reads (world s)).

(** The calls that make up a real send. *)
Definition realSendEffect (e : Effect) : bool :=
  match e with
  | SenderProcess _ _ _ _ | InsertDeliveryStatus _ | WebhooksQueueAdd _ _ _
  | SaveOwner | SaveWorkspace => true
  | _ => false
  end.

(** The calls that make up a mock send. *)
Definition mockSendEffect (e : Effect) : bool :=
  match e with
  | HttpGet _ | HttpsGet _ => true
  | InsertStatusRow row => String.eqb (row_event row) "sent"
  | _ => false
  end.

(** The calls of the diagnostic ping of a mock send. *)
Definition pingEffect (e : Effect) : bool :=
  match e with
  | HttpGet _ | HttpsGet _ | LogError _ => true
  | _ => false
  end.

(** The calls of the diagnostic ping of a mock send in the world [w]:
    none when no address is configured; with an address, the fault of
    [new URL] as the [catch] logs it, or the request started on the
    protocol of the address. *)
Definition pingCalls (w : World) : list Effect :=
  match truthy (MOCK_MESSAGE_SEND_URL w) with
  | None => []
  | Some url =>
      match urlProtocol w url with
      | None => [LogError TypeError]
      | Some protocol =>
          if String.eqb protocol "http:" then [HttpGet url]
          else if String.eqb protocol "https:" then [HttpsGet url]
          else []
      end
  end.

(** A fault has been caught and logged. *)
Definition isLogError (e : Effect) : bool :=
  match e with
  | LogError _ => true
  | _ => false
  end.

Definition noSendEffect (e : Effect) : Prop :=
  realSendEffect e = false /\ mockSendEffect e = false /\
  e <> RateLimitByMinuteIncrement.

(** A computation leaves an observation of the state as it found it,
    whether it returns or throws. *)
Definition keeps {A X : Type} (f : State -> X) (m : M A) : Prop :=
  forall s, f (snd (m s)) = f s.

(** A computation only adds calls that satisfy [P] to the trace. *)
Definition logs {A : Type} (P : Effect -> Prop) (m : M A) : Prop :=
  forall s, exists l : list Effect,
    trace (world (snd (m s))) = (trace (world s) ++ l)%list /\ Forall P l.

Definition perMinuteCount (s : State) : Z := minuteCount (world s).
Definition distinctCustomers (s : State) : Z := customersMessaged (world s).
Definition sentFlag (s : State) : bool := messageSent (location (job s)).

(** The state after [messageSent] has been set on the location of the job. *)
Definition marked (s : State) : State := snd (markMessageSent s).

(** The state after the per-minute counter has been credited. *)
Definition credited (s : State) : State :=
  snd (JourneysService.rateLimitByMinuteIncrement s).

(** The row of a synthetic event recorded at [createdAt]. *)
Definition trackerRow (j : JobData) (ev : string) (createdAt : Z) : StatusRow :=
  {| row_stepId := step_id (step j);
     row_createdAt := createdAt;
     row_customerId := customer_id (customer j);
     row_event := ev;
     row_messageId := humanReadableName (metadata (step j));
     row_templateId := template (metadata (step j));
     row_workspaceId := workspace_id (workspace (owner j)) |}.

(** The wake time the specification gives for a per-minute requeue:
    [now + (60 - now.seconds)] seconds. *)
Definition startOfNextMinute (now : Z) : Z :=
  now + (60 - JSDate.SecFromTime now) * JSDate.msPerSecond.

(** The index of the minute an instant lies in. *)
Definition minuteIndex (tv : Z) : Z := tv / JSDate.msPerMinute.

(** The end of the quiet window on the UTC date of [now], for an end time
    of [h] hours and [m] minutes. *)
Definition windowEndOn (now h m : Z) : Z :=
  JSDate.MakeDate (JSDate.Day now) (JSDate.MakeTime h m 0 0).

(** The minute of the UTC day an instant lies in. *)
Definition utcMinuteOfDay (now : Z) : Z :=
  JSDate.HourFromTime now * 60 + JSDate.MinFromTime now.

(** The minute of the UTC day at which it is [h]:[m] in a workspace
    [offset] minutes east of UTC. *)
Definition utcMinuteOf (h m offset : Z) : Z := (h * 60 + m - offset) mod 1440.

(** The minute [c] of the day lies in the window from the minute [s] to
    the minute [e], the end excluded; a window whose end is not after its
    start runs through midnight. *)
Definition insideWindow (s e c : Z) : Prop :=
  (s <= e /\ s <= c < e) \/ (e < s /\ (s <= c \/ c < e)).

(** A timing helper that finds a time of day in the window it is in, as
    the specification asks: for a window from [sh]:[sm] to [eh]:[em] in a
    workspace [offset] minutes east of UTC and a clock string that
    denotes the minute [c] of the day, it answers true when [c] lies in
    the window as converted to UTC. *)
Definition FindsWindow (T : Timing) : Prop :=
  forall (sh sm eh em offset c : Z) (checkTime : string),
    0 <= sh < 24 -> 0 <= sm < 60 -> 0 <= eh < 24 -> 0 <= em < 60 ->
    SpecTiming.minuteOfDay checkTime = Some c ->
    insideWindow (utcMinuteOf sh sm offset) (utcMinuteOf eh em offset) c ->
    isWithinInterval (convertTimeToUTC (JSString.hhmm sh sm) offset)
      (convertTimeToUTC (JSString.hhmm eh em) offset) checkTime = true.

(** A timing helper whose window is half-open, as the specification's
    [[startTime, endTime)] is: the minute at which the window ends is not
    inside it. *)
Definition HalfOpenWindow (T : Timing) : Prop :=
  forall (startTime endTime checkTime : string) (minute : Z),
    isWithinInterval startTime endTime checkTime = true ->
    SpecTiming.minuteOfDay checkTime = Some minute ->
    SpecTiming.minuteOfDay endTime <> Some minute.

(** The step types that have a processor. *)
Definition implemented (type : StepType) : bool :=
  match processorMap type with
  | inl _ => true
  | inr _ => false
  end.

(** ** Further observations *)

(** The state [s] with the location of its job replaced. *)
Definition relocate (s : State) (l : JourneyLocation) : State :=
  {| job := set_location (job s) l; world := world s |}.

(** The state after the free plan has been charged one email. *)
Definition spent (s : State) : State := snd (decrementFreeEmails s).

(** The free emails the workspace of the job has left. *)
Definition freeEmailsLeft (s : State) : Z :=
  freeEmailsCount (workspace (owner (job s))).

(** A computation does not read the location of the job and carries it
    along: started with another location it returns the same and ends in
    the same state, but for that location. *)
Definition oblivious {A : Type} (m : M A) : Prop :=
  forall s l, m (relocate s l) = (fst (m s), relocate (snd (m s)) l).

(** The calls that end the hold of the location lock by this run: its
    release, or the hand-over of the job to the queue of the next step. *)
Definition lockMove (e : Effect) : bool :=
  match e with
  | Unlock _ _ | QueueAdd _ _ _ => true
  | _ => false
  end.

Definition lockMoves (l : list Effect) : nat := length (filter lockMove l).

(** The calls added to the trace between two states. *)
Definition added (before after : State) : list Effect :=
  skipn (length (trace (world before))) (trace (world after)).

(** The platforms the push branch has a case for. *)
Definition knownPlatform (platform : string) : bool :=
  String.eqb platform "All" || String.eqb platform "iOS"
  || String.eqb platform "Android".

(** The templates whose branch of the [switch] calls nothing for this
    job: the values without a case (the types [slack] and [firebase], and
    any string outside the enumeration), a webhook without data, and the
    case of [TemplateType.PUSH] on a platform without a case. *)
Definition channelless (j : JobData) (t : Template) : bool :=
  let type := template_type t in
  if strictEq type EMAIL || strictEq type SMS then false
  else if strictEq type WEBHOOK then no_webhookData t
  else if strictEq type TemplateType_PUSH
  then negb (knownPlatform (selectedPlatform (metadata (step j))))
  else true.

(** The calls of a push: a request to the sender for a device, and the
    record of its delivery. *)
Definition pushCall (e : Effect) : bool :=
  match e with
  | SenderProcess SendAndroid _ _ _ | SenderProcess SendIos _ _ _
  | InsertDeliveryStatus SendAndroid | InsertDeliveryStatus SendIos => true
  | _ => false
  end.

Definition isQueueAdd (e : Effect) : bool :=
  match e with
  | QueueAdd _ _ _ => true
  | _ => false
  end.

(** What of the state decides where the customer goes next and for whom. *)
Definition routing (s : State)
  : Step * Customer * Journey * string * option string * (string -> option Step) :=
  (step (job s), customer (job s), journey (job s), session (job s),
   event (job s), steps (world s)).

(** What a job put on a step queue looks like. *)
Definition wellRouted (e : Effect) : Prop :=
  match e with
  | QueueAdd queue type nj =>
      processorMap type = inl queue /\
      is_time_based type = false /\
      step_type (next_step nj) = type
  | _ => True
  end.

(** ** More scenarios *)

Module Scenario.

(** The sample job with a push platform and journey settings of choice. *)
Definition jobOn (platform : string) (provider : string) (free : Z)
           (s : option JourneySettings) : JobData :=
  {| step :=
       {| step_id := "step-message"; step_type := MESSAGE;
          metadata := {| template := "template-1"; destination := "step-next";
                         humanReadableName := "Welcome";
                         selectedPlatform := platform |} |};
     owner := Sample.theOwner provider free;
     journey := {| journey_id := "journey-1"; journeySettings := s |};
     customer := {| customer_id := "customer-1" |};
     location := Sample.theLocation; session := "session-1";
     event := None; branch := None |}.

(** A world at 10:30:30 UTC that returns [tpl] for the template, whose
    sender resolves or not, and whose destination is an exit step. *)
Definition worldWith (tpl : option Template) (resolves : bool)
           (mock : option string) (customers : Z) : World :=
  {| clock := fun _ => Sample.at_time 10 30 30; clock_reads := 0; zone := JSDate.fixedZone 0;
     MOCK_MESSAGE_SEND := mock; MOCK_MESSAGE_SEND_URL := None;
     minuteCount := 0; customersMessaged := customers;
     templates := fun _ => tpl;
     steps := fun _ => Some (Sample.stepOf EXIT);
     senderResolves := fun _ => resolves;
     urlProtocol := fun _ => None;
     requestFails := fun _ => false;
     trace := [] |}.

Definition noLimits : option JourneySettings :=
  Some (Sample.settings None Sample.unlimited Sample.unlimited).

Definition templateOf (type : TemplateType) (hook : option string) : Template :=
  {| template_id := "template-1"; template_type := type; webhookData := hook |}.

(** A journey capped at two distinct customers, both already messaged. *)
Definition capReached : State :=
  Sample.state
    (jobOn "All" "mailgun" 3
       (Some (Sample.settings None (Sample.atMost 2) (Sample.atMost 1))))
    (worldWith (Some Sample.emailTemplate) true None 2).

(** Mock mode with a webhook template. *)
Definition mockedWebhook : State :=
  Sample.state (jobOn "All" "mailgun" 3 noLimits)
    (worldWith (Some (templateOf WEBHOOK (Some "https://example.com/hook")))
       true (Some "true") 0).

(** The template is gone. *)
Definition templateGone : State :=
  Sample.state (jobOn "All" "mailgun" 3 noLimits) (worldWith None true None 0).

(** The free plan with two emails left. *)
Definition freePlan (resolves : bool) : State :=
  Sample.state (jobOn "All" "free3" 2 noLimits)
    (worldWith (Some Sample.emailTemplate) resolves None 0).

(** A Slack template. *)
Definition slack : State :=
  Sample.state (jobOn "All" "mailgun" 3 noLimits)
    (worldWith (Some (templateOf SLACK None)) true None 0).

(** A template of type [push], a string the enumeration does not have,
    on a step that selects every platform. *)
Definition pushTemplate : State :=
  Sample.state (jobOn "All" "mailgun" 3 noLimits)
    (worldWith (Some (templateOf (Some "push") None)) true None 0).

(** The zone of New York in 2022: five hours behind UTC, and four from
    13 March, 07:00 UTC, to 6 November, 06:00 UTC. *)
Definition newYork : JSDate.Zone :=
  JSDate.dstZone (-5 * JSDate.msPerHour) (-4 * JSDate.msPerHour)
    (JSDate.MakeDate 19064 (JSDate.MakeTime 7 0 0 0))
    (JSDate.MakeDate 19302 (JSDate.MakeTime 6 0 0 0)).

(** The sample world on a server in New York whose clock stands at
    [now]. *)
Definition newYorkWorld (now perMinute : Z) : World :=
  {| clock := fun _ => now; clock_reads := 0; zone := newYork;
     MOCK_MESSAGE_SEND := None; MOCK_MESSAGE_SEND_URL := None;
     minuteCount := perMinute; customersMessaged := 0;
     templates := fun _ => Some Sample.emailTemplate;
     steps := fun _ => Some (Sample.stepOf EXIT);
     senderResolves := fun _ => true;
     urlProtocol := fun _ => None;
     requestFails := fun _ => false;
     trace := [] |}.

(** 23:30 UTC on 13 March 2022, the day the clocks of New York went
    forward, inside the quiet window from 22:00 to 06:00 UTC. *)
Definition springForward : State :=
  Sample.state
    (Sample.theJob "mailgun" 3
       (Some (Sample.settings (Some (Sample.quiet None))
                Sample.unlimited Sample.unlimited)))
    (newYorkWorld (JSDate.MakeDate 19064 (JSDate.MakeTime 23 30 0 0)) 0).

(** 05:59:30 UTC on 6 November 2022, which is 01:59:30 in New York, half
    a minute before its clocks went back; one message has been sent this
    minute under a cap of one. *)
Definition fallBack : State :=
  Sample.state
    (Sample.theJob "mailgun" 3
       (Some (Sample.settings None Sample.unlimited (Sample.atMost 1))))
    (newYorkWorld (JSDate.MakeDate 19302 (JSDate.MakeTime 5 59 30 0)) 1).

(** The address of a diagnostic endpoint on which nothing listens. *)
Definition pingAddress : string := "http://127.0.0.1:9/".

(** Mock mode with that address for the ping: the request is started
    and fails. *)
Definition unreachablePing : State :=
  Sample.state (jobOn "All" "mailgun" 3 noLimits)
    {| clock := fun _ => Sample.at_time 10 30 30; clock_reads := 0;
       zone := JSDate.fixedZone 0;
       MOCK_MESSAGE_SEND := Some "true";
       MOCK_MESSAGE_SEND_URL := Some pingAddress;
       minuteCount := 0; customersMessaged := 0;
       templates := fun _ => Some Sample.emailTemplate;
       steps := fun _ => Some (Sample.stepOf EXIT);
       senderResolves := fun _ => true;
       urlProtocol := fun _ => Some "http:";
       requestFails := fun _ => true;
       trace := [] |}.

End Scenario.

(** ** The cursor search of the custom events

    [EventsService.getCustomEventsCursorSearch] and the helpers it calls:
    [computeCustomEventsQueryVariables], [prepareCustomEventsQuery],
    [parseCustomEventsQueryResult] and [filterCustomEventsAttributes]. *)

Module CustomEvents.

(** An event document as the store returns it: its [_id], its
    [workspaceId], and its other attributes in order. *)
Record EventDocument : Type := {
  _id : string;
  workspaceId : string;
  attributes : list (string * string)
}.

(** The bound the filter puts on [_id]. *)
Inductive IdBound : Type :=
| lt_id (cursor : string)     (* { $lt: ObjectId(cursor) } *)
| gt_id (cursor : string).    (* { $gt: ObjectId(cursor) } *)

Record Filter : Type := {
  filter_workspaceId : string;
  (** the search text of the case-insensitive pattern on [event] *)
  filter_event : option string;
  filter_id : option IdBound
}.

Record Query : Type := {
  filter : Filter;
  (** the sort order on [_id]: -1 or 1 *)
  sort : Z;
  limit : Z
}.

(** What a call throws. *)
Inductive Thrown : Type :=
| TypeErrorThrown
| SyntaxErrorThrown
| BSONErrorThrown.

Inductive Outcome (A : Type) : Type :=
| Returned (a : A)
| Threw (what : Thrown).
Arguments Returned {A} a.
Arguments Threw {A} what.

(** The event store and the two constructors of the platform that can
    refuse their argument. *)
Record Store : Type := {
  (** [EventModel.find(filter, {}).sort(sort).limit(limit).lean().exec()] *)
  find : Query -> list EventDocument;
  (** whether [new RegExp('.*' + search + '.*', 'i')] is accepted *)
  validPattern : string -> bool;
  (** whether [new mongoose.Types.ObjectId(cursor)] is accepted *)
  validObjectId : string -> bool
}.

(** [{ anchor, direction, cursorEventId }]; an [undefined] direction is
    [None]. *)
Record QueryVariables : Type := {
  anchor : string;
  direction : option Z;
  cursorEventId : string
}.

Definition computeCustomEventsQueryVariables (anchor0 : string)
           (direction0 : option Z) (cursorEventId0 : string) : QueryVariables :=
  (* initial load of events_tracker page *)
  let anchor1 :=
    if String.eqb cursorEventId0 "" && String.eqb anchor0 ""
    then "first_page" else anchor0 in
  if String.eqb anchor1 "first_page" then
    {| anchor := anchor1; direction := Some 1; cursorEventId := "" |}
  else if String.eqb anchor1 "last_page" then
    {| anchor := anchor1; direction := Some (-1); cursorEventId := "" |}
  else if String.eqb anchor1 "next" then
    {| anchor := anchor1; direction := Some 1; cursorEventId := cursorEventId0 |}
  else if String.eqb anchor1 "previous" then
    {| anchor := anchor1; direction := Some (-1); cursorEventId := cursorEventId0 |}
  else
    {| anchor := anchor1; direction := direction0; cursorEventId := cursorEventId0 |}.

(** [direction == n] *)
Definition direction_is (d : option Z) (n : Z) : bool :=
  match d with
  | Some v => v =? n
  | None => false
  end.

Definition prepareCustomEventsQuery (store : Store) (account : Account)
           (pageSize : Z) (search : string) (v : QueryVariables) : Outcome Query :=
  let ws := workspace account in
  if negb (String.eqb search "") && negb (validPattern store search)
  then Threw SyntaxErrorThrown
  else
    let event := if String.eqb search "" then None else Some search in
    let bounded := negb (String.eqb (cursorEventId v) "") in
    if bounded && negb (validObjectId store (cursorEventId v))
    then Threw BSONErrorThrown
    else
      (* default sort is most recent events first (_id desc) *)
      let forward := direction_is (direction v) 1 in
      Returned
        {| filter :=
             {| filter_workspaceId := workspace_id ws;
                filter_event := event;
                filter_id :=
                  if bounded
                  then Some (if forward then lt_id (cursorEventId v)
                             else gt_id (cursorEventId v))
                  else None |};
           sort := if forward then -1 else 1;
           (* fetch one more to find out if there is a next page *)
           limit := pageSize + 1 |}.

(** [customEvents[i]._id], a [TypeError] when there is no such row. *)
Definition id_at (rows : list EventDocument) (i : option nat) : Outcome string :=
  match i with
  | Some n =>
      match nth_error rows n with
      | Some row => Returned (_id row)
      | None => Threw TypeErrorThrown
      end
  | None => Threw TypeErrorThrown
  end.

(** The index [customEvents.length - 1], which is no index of an empty
    array. *)
Definition last_index (rows : list EventDocument) : option nat :=
  match rows with
  | [] => None
  | _ :: rest => Some (length rest)
  end.

(** [filterCustomEventsAttributes]: every row without its [_id] and its
    [workspaceId]. *)
Definition filterCustomEventsAttributes (rows : list EventDocument)
  : list (list (string * string)) :=
  map attributes rows.

Record Page : Type := {
  data : list (list (string * string));
  showPrev : bool;
  showNext : bool;
  showPrevCursorEventId : string;
  showNextCursorEventId : string;
  showLast : bool;
  page_anchor : string
}.

(** Whether the store returned more rows than a page holds. *)
Definition hasMore (pageSize : Z) (fetched : list EventDocument) : bool :=
  Z.of_nat (length fetched) >? pageSize.

(** The rows of the page in the order they are shown: the extra row
    popped, and the rows of a backward search reversed. *)
Definition displayed (pageSize : Z) (v : QueryVariables)
           (fetched : list EventDocument) : list EventDocument :=
  (* since we always fetch pageSize + 1 events, pop the last element *)
  let customEvents :=
    if hasMore pageSize fetched then removelast fetched else fetched in
  if direction_is (direction v) (-1) then rev customEvents else customEvents.

(** The part of [getCustomEventsCursorSearch] that follows the query. *)
Definition pageOf (pageSize : Z) (v : QueryVariables)
           (fetched : list EventDocument) : Outcome Page :=
  let more := hasMore pageSize fetched in
  let customEvents := displayed pageSize v fetched in
  let next :=
    direction_is (direction v) 1 && more
    || direction_is (direction v) (-1) && String.eqb (anchor v) "previous" in
  let prev :=
    direction_is (direction v) (-1) && more
    || direction_is (direction v) 1 && String.eqb (anchor v) "next" in
  let last :=
    String.eqb (anchor v) "first_page" && more
    || negb (String.eqb (anchor v) "last_page")
    || direction_is (direction v) 1 && more in
  match (if next then id_at customEvents (last_index customEvents)
         else Returned "") with
  | Threw e => Threw e
  | Returned nextId =>
      match (if prev then id_at customEvents (Some 0%nat) else Returned "") with
      | Threw e => Threw e
      | Returned prevId =>
          Returned
            {| data := filterCustomEventsAttributes customEvents;
               showPrev := prev;
               showNext := next;
               showPrevCursorEventId := prevId;
               showNextCursorEventId := nextId;
               showLast := last;
               page_anchor := anchor v |}
      end
  end.

(** [getCustomEventsCursorSearch]; its [direction] starts [undefined]. *)
Definition getCustomEventsCursorSearch (store : Store) (account : Account)
           (pageSize : Z) (search anchor0 cursorEventId0 : string)
  : Outcome Page :=
  let v := computeCustomEventsQueryVariables anchor0 None cursorEventId0 in
  match prepareCustomEventsQuery store account pageSize search v with
  | Threw e => Threw e
  | Returned q => pageOf pageSize v (find store q)
  end.

(** The anchors the search knows. *)
Definition knownAnchor (a : string) : bool :=
  String.eqb a "first_page" || String.eqb a "last_page"
  || String.eqb a "next" || String.eqb a "previous".

(** The store honours the limit of a query. *)
Definition honoursLimit (store : Store) : Prop :=
  forall q, 0 < limit q -> Z.of_nat (length (find store q)) <= limit q.

(** A row with the given id. *)
Definition row (id : string) : EventDocument :=
  {| _id := id; workspaceId := "workspace-1"; attributes := [("event", id)] |}.

(** A store that answers every query with [rows]. *)
Definition serving (rows : list EventDocument) : Store :=
  {| find := fun _ => rows;
     validPattern := fun _ => true;
     validObjectId := fun _ => true |}.

(** A store that holds [rows] and returns as many of them as the limit
    of the query allows. *)
Definition limited (rows : list EventDocument) : Store :=
  {| find := fun q => firstn (Z.to_nat (limit q)) rows;
     validPattern := fun _ => true;
     validObjectId := fun _ => true |}.

Definition threeRows : list EventDocument := [row "c"; row "b"; row "a"].

(** The first page of two rows out of three. *)
Definition firstPage : Page :=
  {| data := [[("event", "c")]; [("event", "b")]];
     showPrev := false;
     showNext := true;
     showPrevCursorEventId := "";
     showNextCursorEventId := "b";
     showLast := true;
     page_anchor := "first_page" |}.

(** The query of a next page after the row "a". *)
Definition nextQuery : Query :=
  {| filter := {| filter_workspaceId := "workspace-1"; filter_event := None;
                  filter_id := Some (lt_id "a") |};
     sort := -1;
     limit := 3 |}.

(** The query of an anchor the search does not know. *)
Definition sidewaysQuery : Query :=
  {| filter := {| filter_workspaceId := "workspace-1"; filter_event := None;
                  filter_id := None |};
     sort := 1;
     limit := 3 |}.

End CustomEvents.

(** * Properties *)

(** ** Time values *)

Module JSDateFacts.
Import JSDate.

(** A time value is its day, hour, minute, second and millisecond. *)
Lemma time_decomposition (tv : Z) :
  tv = MakeDate (Day tv)
         (MakeTime (HourFromTime tv) (MinFromTime tv) (SecFromTime tv)
            (msFromTime tv)).
Proof.
  unfold MakeDate, MakeTime, Day, HourFromTime, MinFromTime, SecFromTime,
    msFromTime, msPerDay, msPerHour, msPerMinute, msPerSecond.
  Z.div_mod_to_equations. lia.
Qed.

Lemma TimeClip_in_range (tv : Z) :
  Z.abs tv <= maxTime -> TimeClip tv = Instant tv.
Proof.
  intros H. unfold TimeClip.
  destruct (Z.leb_spec (Z.abs tv) maxTime); [reflexivity | lia].
Qed.

(** Setting the minutes to the next one moves the local clock on by a
    minute. *)
Lemma setMinutes_next (zone : Zone) (now : Z) :
  setMinutes zone (Instant now)
    (option_map (fun m => m + 1) (getMinutes zone (Instant now)))
  = TimeClip (localShift zone now msPerMinute).
Proof.
  cbn [setMinutes getMinutes option_map]. unfold localShift. do 2 f_equal.
  pose proof (time_decomposition (LocalTime zone now)) as D.
  unfold MakeDate, MakeTime in *. lia.
Qed.

(** Setting the date to the next one moves the local clock on by a day. *)
Lemma setDate_nextDay_instant (zone : Zone) (tv : Z) :
  setDate_nextDay zone (Instant tv) = TimeClip (localShift zone tv msPerDay).
Proof.
  cbn [setDate_nextDay]. unfold localShift. do 2 f_equal.
  unfold MakeDate, Day, TimeWithinDay, msPerDay.
  Z.div_mod_to_equations. lia.
Qed.

(** With no transition between, moving the local clock on by [d] moves
    the instant by [d]. *)
Lemma localShift_steady (zone : Zone) (tv d : Z) :
  steady zone tv d -> localShift zone tv d = tv + d.
Proof.
  unfold steady, localShift, UTC, LocalTime. intros H. rewrite H. lia.
Qed.

(** A zone without transitions is steady everywhere. *)
Lemma fixedZone_steady (tza tv d : Z) : steady (fixedZone tza) tv d.
Proof. reflexivity. Qed.

Lemma Day_bounds (tv : Z) :
  Day tv * msPerDay <= tv < Day tv * msPerDay + msPerDay.
Proof.
  unfold Day, msPerDay. Z.div_mod_to_equations. lia.
Qed.

Lemma HourFromTime_range (tv : Z) : 0 <= HourFromTime tv < 24.
Proof. unfold HourFromTime. apply Z.mod_pos_bound. lia. Qed.

Lemma MinFromTime_range (tv : Z) : 0 <= MinFromTime tv < 60.
Proof. unfold MinFromTime. apply Z.mod_pos_bound. lia. Qed.

(** An instant that is the start of minute [m] of hour [h] of its day
    shows that hour and that minute. *)
Lemma start_of_minute (tv h m : Z) :
  0 <= h < 24 -> 0 <= m < 60 ->
  tv = MakeDate (Day tv) (MakeTime h m 0 0) ->
  HourFromTime tv = h /\ MinFromTime tv = m.
Proof.
  intros Hh Hm E.
  unfold MakeDate, MakeTime, Day, HourFromTime, MinFromTime,
    msPerDay, msPerHour, msPerMinute, msPerSecond in *.
  Z.div_mod_to_equations. lia.
Qed.

(** One minute later is in the next minute. *)
Lemma next_minute_index (tv : Z) :
  (tv + msPerMinute) / msPerMinute = tv / msPerMinute + 1.
Proof.
  unfold msPerMinute. Z.div_mod_to_equations. lia.
Qed.

End JSDateFacts.

(** ** Clock strings *)

Module JSStringFacts.
Import JSString.

Lemma reads_back_all :
  forallb (fun a => forallb (reads_back a) (seq 0 100)) (seq 0 100) = true.
Proof. vm_compute. reflexivity. Qed.

(** Two two-digit numbers printed as [HH:MM] parse back. *)
Lemma parseInt_hhmm (h m : Z) :
  0 <= h < 100 -> 0 <= m < 100 ->
  parseInt_piece (hhmm h m) 0 = Some h /\ parseInt_piece (hhmm h m) 1 = Some m.
Proof.
  intros Hh Hm.
  pose proof reads_back_all as A.
  rewrite forallb_forall in A.
  specialize (A (Z.to_nat h)).
  rewrite forallb_forall in A.
  assert (In (Z.to_nat h) (seq 0 100)) as Ih by (apply in_seq; lia).
  assert (In (Z.to_nat m) (seq 0 100)) as Im by (apply in_seq; lia).
  specialize (A Ih (Z.to_nat m) Im).
  unfold reads_back in A.
  rewrite !Z2Nat.id in A by lia.
  destruct (parseInt_piece (hhmm h m) 0) as [x|]; [|discriminate].
  destruct (parseInt_piece (hhmm h m) 1) as [y|]; [|discriminate].
  apply andb_true_iff in A. destruct A as [A1 A2].
  apply Z.eqb_eq in A1, A2. subst. split; reflexivity.
Qed.

End JSStringFacts.

(** ** The timing helpers of the specification *)

Module SpecTimingFacts.
Import SpecTiming.

(** The formatted clock denotes the minute of the day of the instant,
    also in the hour after midnight, which prints as 24. *)
Lemma minuteOfDay_formatUTC (now : Z) :
  minuteOfDay (formatUTC now)
  = Some (JSDate.HourFromTime now * 60 + JSDate.MinFromTime now).
Proof.
  pose proof (JSDateFacts.HourFromTime_range now) as Hh.
  pose proof (JSDateFacts.MinFromTime_range now) as Hm.
  unfold formatUTC, minuteOfDay.
  set (h := JSDate.HourFromTime now) in *.
  set (m := JSDate.MinFromTime now) in *.
  destruct (JSStringFacts.parseInt_hhmm (if h =? 0 then 24 else h) m)
    as [P0 P1].
  { destruct (Z.eqb_spec h 0); lia. }
  { lia. }
  rewrite P0, P1. f_equal. unfold minutesPerDay.
  destruct (Z.eqb_spec h 0) as [E|E].
  - rewrite E. Z.div_mod_to_equations. lia.
  - apply Z.mod_small. lia.
Qed.

(** A time of day printed as [HH:MM] denotes its minute of the day. *)
Lemma minuteOfDay_hhmm (h m : Z) :
  0 <= h < 24 -> 0 <= m < 60 ->
  minuteOfDay (JSString.hhmm h m) = Some (h * 60 + m).
Proof.
  intros Hh Hm. unfold minuteOfDay.
  destruct (JSStringFacts.parseInt_hhmm h m) as [P0 P1]; [lia | lia |].
  rewrite P0, P1. f_equal. apply Z.mod_small. unfold minutesPerDay. lia.
Qed.

(** The conversion of a configured time gives the minute of the UTC day
    at which that local time falls. *)
Lemma minuteOfDay_convertTimeToUTC (h m offset : Z) :
  0 <= h < 24 -> 0 <= m < 60 ->
  minuteOfDay (convertTimeToUTC (JSString.hhmm h m) offset)
  = Some (utcMinuteOf h m offset).
Proof.
  intros Hh Hm. unfold convertTimeToUTC.
  rewrite (minuteOfDay_hhmm h m Hh Hm).
  fold (utcMinuteOf h m offset).
  assert (0 <= utcMinuteOf h m offset < 1440) as R
      by (unfold utcMinuteOf; apply Z.mod_pos_bound; lia).
  unfold minutesPerDay.
  change ((h * 60 + m - offset) mod 1440) with (utcMinuteOf h m offset).
  set (u := utcMinuteOf h m offset) in *.
  rewrite minuteOfDay_hhmm.
  - f_equal. Z.div_mod_to_equations. lia.
  - Z.div_mod_to_equations. lia.
  - apply Z.mod_pos_bound. lia.
Qed.

Lemma inWindow_inside (s e c : Z) : insideWindow s e c -> inWindow s e c = true.
Proof.
  unfold insideWindow, inWindow.
  intros [[H1 H2]|[H1 H2]].
  - destruct (Z.leb_spec s e); [|lia].
    apply andb_true_iff. split; [apply Z.leb_le | apply Z.ltb_lt]; lia.
  - destruct (Z.leb_spec s e); [lia|].
    apply orb_true_iff.
    destruct H2; [left; apply Z.leb_le | right; apply Z.ltb_lt]; lia.
Qed.

(** The helpers of the specification find the window. *)
Lemma specTiming_finds_window : FindsWindow specTiming.
Proof.
  intros sh sm eh em offset c checkTime Hsh Hsm Heh Hem Hc In.
  change (SpecTiming.isWithinInterval
            (convertTimeToUTC (JSString.hhmm sh sm) offset)
            (convertTimeToUTC (JSString.hhmm eh em) offset) checkTime = true).
  unfold isWithinInterval.
  rewrite !minuteOfDay_convertTimeToUTC, Hc by assumption.
  apply inWindow_inside. exact In.
Qed.

Lemma inWindow_excludes_end (s e c : Z) : inWindow s e c = true -> c <> e.
Proof.
  unfold inWindow. intros H E. subst c.
  rewrite Z.ltb_irrefl, andb_false_r, orb_false_r in H.
  destruct (Z.leb_spec s e); discriminate.
Qed.

(** The window of the specification is half-open. *)
Lemma specTiming_half_open : HalfOpenWindow specTiming.
Proof.
  intros s e c minute H Hc He.
  change (SpecTiming.isWithinInterval s e c = true) in H.
  unfold SpecTiming.isWithinInterval in H.
  rewrite Hc, He in H.
  destruct (minuteOfDay s) as [sm|]; [|discriminate].
  exact (inWindow_excludes_end _ _ _ H eq_refl).
Qed.

End SpecTimingFacts.

(** ** Reasoning about computations *)

Section Frames.

Context {A B X : Type}.
Variable f : State -> X.

Lemma keeps_ret (a : A) : keeps f (ret a).
Proof. intro s. reflexivity. Qed.

Lemma keeps_throw (e : Fault) : keeps f (@throw A e).
Proof. intro s. reflexivity. Qed.

Lemma keeps_bind (m : M A) (k : A -> M B) :
  keeps f m -> (forall a, keeps f (k a)) -> keeps f (bind m k).
Proof.
  intros Hm Hk s. unfold bind.
  specialize (Hm s).
  destruct (m s) as [[a|e] s1]; cbn [snd] in *.
  - rewrite Hk. exact Hm.
  - exact Hm.
Qed.

Lemma keeps_try_catch (m : M unit) (h : Fault -> M unit) :
  keeps f m -> (forall e, keeps f (h e)) -> keeps f (try_catch m h).
Proof.
  intros Hm Hh s. unfold try_catch.
  specialize (Hm s).
  destruct (m s) as [[a|e] s1]; cbn [snd] in *.
  - exact Hm.
  - rewrite Hh. exact Hm.
Qed.

End Frames.

Section Logs.

Context {A B : Type}.
Variable P : Effect -> Prop.

Lemma logs_silent (m : M A) :
  (forall s, trace (world (snd (m s))) = trace (world s)) -> logs P m.
Proof.
  intros H s. exists []. rewrite H, app_nil_r. split; [reflexivity | constructor].
Qed.

Lemma logs_ret (a : A) : logs P (ret a).
Proof. apply logs_silent. reflexivity. Qed.

Lemma logs_throw (e : Fault) : logs P (@throw A e).
Proof. apply logs_silent. reflexivity. Qed.

Lemma logs_emit (e : Effect) : P e -> logs P (emit e).
Proof.
  intros H s. exists [e]. split; [reflexivity | repeat constructor; exact H].
Qed.

Lemma logs_bind (m : M A) (k : A -> M B) :
  logs P m -> (forall a, logs P (k a)) -> logs P (bind m k).
Proof.
  intros Hm Hk s. unfold bind.
  destruct (Hm s) as [l1 [E1 F1]].
  destruct (m s) as [[a|e] s1]; cbn [snd] in *.
  - destruct (Hk a s1) as [l2 [E2 F2]].
    exists (l1 ++ l2)%list. split.
    + rewrite E2, E1, app_assoc. reflexivity.
    + apply Forall_app. split; assumption.
  - exists l1. split; assumption.
Qed.

Lemma logs_try_catch (m : M unit) (h : Fault -> M unit) :
  logs P m -> (forall e, logs P (h e)) -> logs P (try_catch m h).
Proof.
  intros Hm Hh s. unfold try_catch.
  destruct (Hm s) as [l1 [E1 F1]].
  destruct (m s) as [[a|e] s1]; cbn [snd] in *.
  - exists l1. split; assumption.
  - destruct (Hh e s1) as [l2 [E2 F2]].
    exists (l1 ++ l2)%list. split.
    + rewrite E2, E1, app_assoc. reflexivity.
    + apply Forall_app. split; assumption.
Qed.

End Logs.

(** The calls added between two states, when the trace of the second
    extends that of the first. *)
Lemma added_app (s s' : State) (l : list Effect) :
  trace (world s') = (trace (world s) ++ l)%list -> added s s' = l.
Proof.
  intros E. unfold added. rewrite E.
  rewrite skipn_app, skipn_all, Nat.sub_diag. reflexivity.
Qed.

(** A step of a frame proof: split a sequence, decide a branch, or close a
    primitive by computation. *)
Ltac frame_step :=
  first
    [ apply keeps_bind; [| intro]
    | apply keeps_try_catch; [| intro]
    | apply keeps_ret
    | apply keeps_throw
    | (intro; reflexivity)
    | match goal with
      | |- keeps _ (if ?b then _ else _) => destruct b
      | |- keeps _ (match ?x with _ => _ end) => destruct x
      end ].

Ltac frame := repeat frame_step.

(** The same for the calls a computation may add to the trace; [tac]
    proves that an emitted call is allowed. *)
Ltac logs_step tac :=
  first
    [ apply logs_bind; [| intro]
    | apply logs_try_catch; [| intro]
    | apply logs_ret
    | apply logs_throw
    | apply logs_emit; tac
    | (apply logs_silent; intro; reflexivity)
    | match goal with
      | |- logs _ (if ?b then _ else _) => destruct b
      | |- logs _ (match ?x with _ => _ end) => destruct x
      end ].

Ltac logs_with tac := repeat (logs_step tac).

Ltac no_send := repeat split; (reflexivity || discriminate).

(** ** The Send Gate *)

Section GateFacts.

Context {timing : Timing}.

(** What the quiet-hours check returns, case by case. *)
Lemma checkQuietHours_run (s : State) :
  checkQuietHours s =
  match journeySettings (journey (job s)) with
  | Some settings =>
      match quietHours settings with
      | Some qh =>
          if enabled qh then
            if isQuietHour qh (workspace (owner (job s))) (nextReading s)
            then (Ok {| messageSendType := quietFallback qh;
                        requeueTime :=
                          Some (quietRequeueTime (zone (world s)) qh
                                  (workspace (owner (job s))) (nextReading s)) |},
                  ticked s)
            else (Ok {| messageSendType := SEND; requeueTime := None |}, ticked s)
          else (Ok {| messageSendType := SEND; requeueTime := None |}, s)
      | None => (Ok {| messageSendType := SEND; requeueTime := None |}, s)
      end
  | None => (Ok {| messageSendType := SEND; requeueTime := None |}, s)
  end.
Proof.
  unfold checkQuietHours, bind, getJob. cbn beta iota.
  destruct (journeySettings (journey (job s))) as [settings|]; [|reflexivity].
  destruct (quietHours settings) as [qh|]; [|reflexivity].
  destruct (enabled qh); [|reflexivity].
  unfold newDate, getWorld, nextReading. cbn beta iota zeta.
  destruct (isQuietHour qh (workspace (owner (job s)))
              (clock (world s) (clock_reads (world s)))); reflexivity.
Qed.

Lemma checkCustomersMessaged_run (g : Gate) (s : State) :
  checkCustomersMessaged g s =
  if is_SEND (messageSendType g)
     && JourneysService.rateLimitByCustomersMessagedEnabled (journey (job s))
  then (Ok (if JourneysService.reached (customersMessaged (world s))
                 (JourneysService.cap customersMessagedLimit (journey (job s)))
            then {| messageSendType := LIMIT_HOLD; requeueTime := requeueTime g |}
            else g),
        logged s [RateLimitByCustomersMessaged])
  else (Ok g, s).
Proof.
  unfold checkCustomersMessaged.
  destruct (is_SEND (messageSendType g)); [|reflexivity].
  unfold bind, getJob. cbn beta iota.
  destruct (JourneysService.rateLimitByCustomersMessagedEnabled (journey (job s)));
    [|reflexivity].
  unfold JourneysService.rateLimitByCustomersMessaged, bind, getJob, getWorld,
    emit, ret. cbn.
  destruct (JourneysService.reached _ _); reflexivity.
Qed.

Lemma checkPerMinute_run (g : Gate) (s : State) :
  checkPerMinute g s =
  if is_SEND (messageSendType g)
     && JourneysService.rateLimitByMinuteEnabled (journey (job s))
  then
    if JourneysService.reached (minuteCount (world s))
         (JourneysService.cap perMinuteLimit (journey (job s)))
    then (Ok {| messageSendType := LIMIT_REQUEUE;
                requeueTime :=
                  Some (JSDate.TimeClip
                          (JSDate.localShift (zone (world s)) (nextReading s)
                             JSDate.msPerMinute)) |},
          ticked (logged s [RateLimitByMinute]))
    else (Ok g, logged s [RateLimitByMinute])
  else (Ok g, s).
Proof.
  unfold checkPerMinute.
  destruct (is_SEND (messageSendType g)); [|reflexivity].
  unfold bind, getJob. cbn beta iota.
  destruct (JourneysService.rateLimitByMinuteEnabled (journey (job s)));
    [|reflexivity].
  unfold JourneysService.rateLimitByMinute, bind, getJob, getWorld,
    emit, ret, newDate. cbn -[JSDate.setMinutes JSDate.getMinutes].
  destruct (JourneysService.reached _ _); [|reflexivity].
  cbn -[JSDate.setMinutes JSDate.getMinutes].
  rewrite JSDateFacts.setMinutes_next. reflexivity.
Qed.

Lemma lookupTemplate_run (s : State) :
  lookupTemplate s =
  (Ok (templates (world s) (template (metadata (step (job s))))),
   logged s [TemplateLookup (template (metadata (step (job s))))]).
Proof. reflexivity. Qed.

Lemma checkMock_run (tpl : option Template) (g : Gate) (s : State) :
  checkMock tpl g s =
  (Ok (if is_SEND (messageSendType g)
          && is_true_string (MOCK_MESSAGE_SEND (world s))
          && match tpl with Some t => no_webhookData t | None => false end
       then {| messageSendType := MOCK_SEND; requeueTime := requeueTime g |}
       else g),
   s).
Proof.
  unfold checkMock, bind, getWorld. cbn beta iota.
  destruct (is_SEND (messageSendType g) && _ && _); reflexivity.
Qed.

(** The gate is the sequence of its five stages. *)
Lemma sendGate_stages (s s1 s2 s3 s4 : State) (g1 g2 g3 g4 : Gate)
      (tpl : option Template) :
  checkQuietHours s = (Ok g1, s1) ->
  checkCustomersMessaged g1 s1 = (Ok g2, s2) ->
  checkPerMinute g2 s2 = (Ok g3, s3) ->
  lookupTemplate s3 = (Ok tpl, s4) ->
  checkMock tpl g3 s4 = (Ok g4, s4) ->
  sendGate s = (Ok (g4, tpl), s4).
Proof.
  intros H1 H2 H3 H4 H5. unfold sendGate, bind.
  rewrite H1, H2, H3, H4, H5. reflexivity.
Qed.

Lemma not_SEND (m : MessageSendType) : m <> SEND -> is_SEND m = false.
Proof. destruct m; [congruence | reflexivity ..]. Qed.

End GateFacts.

Section GateOrder.

Context {timing : Timing}.

Lemma checkQuietHours_total (s : State) :
  exists g1 s1,
    checkQuietHours s = (Ok g1, s1) /\
    (messageSendType g1 = SEND \/ messageSendType g1 = QUIET_REQUEUE
     \/ messageSendType g1 = QUIET_ABORT).
Proof.
  rewrite checkQuietHours_run.
  destruct (journeySettings (journey (job s))) as [settings|]; [|eauto 6].
  destruct (quietHours settings) as [qh|]; [|eauto 6].
  destruct (enabled qh); [|eauto 6].
  destruct (isQuietHour _ _ _); [|eauto 6].
  do 2 eexists. split; [reflexivity|]. cbn [messageSendType].
  unfold quietFallback. destruct (fallbackBehavior qh) as [[|]|]; auto.
Qed.

Lemma checkCustomersMessaged_total (g : Gate) (s : State) :
  exists g2 s2, checkCustomersMessaged g s = (Ok g2, s2).
Proof.
  rewrite checkCustomersMessaged_run. destruct (_ && _); eauto.
Qed.

Lemma checkPerMinute_total (g : Gate) (s : State) :
  exists g3 s3, checkPerMinute g s = (Ok g3, s3).
Proof.
  rewrite checkPerMinute_run.
  destruct (_ && _); [destruct (JourneysService.reached _ _)|]; eauto.
Qed.

(** C2.  The Send Gate runs the quiet-hours check, the distinct-customers
    check, the per-minute check and the mock check in this order (with
    the template fetched before the last), and a check whose input
    decision is no longer [SEND] is skipped: it returns the decision and
    the state unchanged, so it consults nothing.  Each check can only
    move [SEND] to its own outcomes.  In particular, when the
    distinct-customers limit trips, the result is [LIMIT_HOLD] and the
    per-minute limit is never consulted, whatever it would answer. *)
Theorem gate_guards_in_order (s : State) :
  exists g1 s1 g2 s2 g3 s3 tpl s4 g4,
    checkQuietHours s = (Ok g1, s1) /\
    checkCustomersMessaged g1 s1 = (Ok g2, s2) /\
    checkPerMinute g2 s2 = (Ok g3, s3) /\
    lookupTemplate s3 = (Ok tpl, s4) /\
    checkMock tpl g3 s4 = (Ok g4, s4) /\
    sendGate s = (Ok (g4, tpl), s4) /\
    (messageSendType g1 <> SEND -> g2 = g1 /\ s2 = s1) /\
    (messageSendType g2 <> SEND -> g3 = g2 /\ s3 = s2) /\
    (messageSendType g3 <> SEND -> g4 = g3) /\
    (messageSendType g1 = SEND \/ messageSendType g1 = QUIET_REQUEUE
     \/ messageSendType g1 = QUIET_ABORT) /\
    (g2 = g1 \/ messageSendType g1 = SEND /\ messageSendType g2 = LIMIT_HOLD) /\
    (g3 = g2 \/ messageSendType g2 = SEND /\ messageSendType g3 = LIMIT_REQUEUE) /\
    (g4 = g3 \/ messageSendType g3 = SEND /\ messageSendType g4 = MOCK_SEND) /\
    (messageSendType g1 = SEND ->
     JourneysService.rateLimitByCustomersMessagedEnabled (journey (job s1)) = true ->
     JourneysService.reached (customersMessaged (world s1))
       (JourneysService.cap customersMessagedLimit (journey (job s1))) = true ->
     messageSendType g4 = LIMIT_HOLD /\
     trace (world s4)
     = (trace (world s1)
        ++ [RateLimitByCustomersMessaged;
            TemplateLookup (template (metadata (step (job s1))))])%list).
Proof.
  destruct (checkQuietHours_total s) as (g1 & s1 & H1 & K1).
  destruct (checkCustomersMessaged_total g1 s1) as (g2 & s2 & H2).
  destruct (checkPerMinute_total g2 s2) as (g3 & s3 & H3).
  pose proof (lookupTemplate_run s3) as H4.
  pose proof (checkMock_run (templates (world s3) (template (metadata (step (job s3)))))
                g3 (logged s3 [TemplateLookup (template (metadata (step (job s3))))]))
    as H5.
  do 9 eexists.
  split; [exact H1|]. split; [exact H2|]. split; [exact H3|].
  split; [exact H4|]. split; [exact H5|].
  split; [exact (sendGate_stages _ _ _ _ _ _ _ _ _ _ H1 H2 H3 H4 H5)|].
  pose proof H2 as R2. rewrite checkCustomersMessaged_run in R2.
  pose proof H3 as R3. rewrite checkPerMinute_run in R3.
  assert (messageSendType g1 <> SEND -> g2 = g1 /\ s2 = s1) as S2.
  { intros N. rewrite (not_SEND _ N) in R2. cbn in R2.
    injection R2 as <- <-. auto. }
  assert (messageSendType g2 <> SEND -> g3 = g2 /\ s3 = s2) as S3.
  { intros N. rewrite (not_SEND _ N) in R3. cbn in R3.
    injection R3 as <- <-. auto. }
  split; [exact S2|]. split; [exact S3|].
  split.
  { intros N. rewrite (not_SEND _ N). reflexivity. }
  split; [exact K1|].
  split.
  { destruct (is_SEND (messageSendType g1)) eqn:E1; cbn in R2.
    - destruct (JourneysService.rateLimitByCustomersMessagedEnabled _);
        cbn in R2; [|injection R2 as <- <-; auto].
      destruct (JourneysService.reached (customersMessaged (world s1)) _);
        injection R2 as <- <-; auto.
      right. split; [|reflexivity].
      destruct (messageSendType g1); try discriminate; reflexivity.
    - injection R2 as <- <-. auto. }
  split.
  { destruct (is_SEND (messageSendType g2)) eqn:E2; cbn in R3.
    - destruct (JourneysService.rateLimitByMinuteEnabled _);
        cbn in R3; [|injection R3 as <- <-; auto].
      destruct (JourneysService.reached (minuteCount (world s2)) _);
        injection R3 as <- <-; auto.
      right. split; [|reflexivity].
      destruct (messageSendType g2); try discriminate; reflexivity.
    - injection R3 as <- <-. auto. }
  split.
  { destruct (is_SEND (messageSendType g3)) eqn:E3; cbn [andb]; [|auto].
    destruct (is_true_string _ && _); [|auto].
    right. split; [|reflexivity].
    destruct (messageSendType g3); try discriminate; reflexivity. }
  intros E1 En Re.
  rewrite E1, En, Re in R2. cbn in R2. injection R2 as <- <-.
  cbn [messageSendType is_SEND andb] in R3. injection R3 as <- <-.
  cbn. split; [reflexivity|]. rewrite <- app_assoc. reflexivity.
Qed.

End GateOrder.

(** ** The resolution of the next step *)

Section DispatchFacts.

Lemma logged_logged (s : State) (l1 l2 : list Effect) :
  logged (logged s l1) l2 = logged s (l1 ++ l2).
Proof.
  unfold logged. cbn. rewrite <- app_assoc. reflexivity.
Qed.

(** The destination is missing: the lock is released on the current
    step and nothing is enqueued. *)
Lemma dispatchNext_missing (s : State) :
  steps (world s) (destination (metadata (step (job s)))) = None ->
  dispatchNext s =
  (Ok tt, logged s [StepLookup (destination (metadata (step (job s))));
                    Unlock (location (job s)) (step_id (step (job s)))]).
Proof.
  intros H. unfold dispatchNext, lookupNextStep, bind, getJob, getWorld, emit.
  cbn. rewrite H. cbn. unfold logged. cbn. rewrite <- app_assoc. reflexivity.
Qed.

(** The destination is time based: the lock is released on it and
    nothing is enqueued. *)
Lemma dispatchNext_time_based (s : State) (ns : Step) :
  steps (world s) (destination (metadata (step (job s)))) = Some ns ->
  is_time_based (step_type ns) = true ->
  dispatchNext s =
  (Ok tt, logged s [StepLookup (destination (metadata (step (job s))));
                    Unlock (location (job s)) (step_id ns)]).
Proof.
  intros H T. unfold dispatchNext, lookupNextStep, bind, getJob, getWorld, emit.
  cbn. rewrite H. cbn. rewrite T. cbn.
  unfold logged. cbn. rewrite <- app_assoc. reflexivity.
Qed.

(** The destination has a processor and is not time based: its job is
    enqueued and the lock stays held. *)
Lemma dispatchNext_enqueue (s : State) (ns : Step) (queue : QueueName) :
  steps (world s) (destination (metadata (step (job s)))) = Some ns ->
  is_time_based (step_type ns) = false ->
  processorMap (step_type ns) = inl queue ->
  dispatchNext s =
  (Ok tt, logged s [StepLookup (destination (metadata (step (job s))));
                    QueueAdd queue (step_type ns) (makeNextJob (job s) ns)]).
Proof.
  intros H T Q. unfold dispatchNext, lookupNextStep, bind, getJob, getWorld, emit.
  cbn. rewrite H. cbn. rewrite T. cbn. unfold runProcessor. rewrite Q.
  unfold logged, emit. cbn. rewrite <- app_assoc. reflexivity.
Qed.

(** The destination has no processor: the call throws, with nothing
    enqueued and the lock still held. *)
Lemma dispatchNext_not_implemented (s : State) (ns : Step) (e : Fault) :
  steps (world s) (destination (metadata (step (job s)))) = Some ns ->
  processorMap (step_type ns) = inr e ->
  dispatchNext s =
  (Throw e, logged s [StepLookup (destination (metadata (step (job s))))]).
Proof.
  intros H Q. unfold dispatchNext, lookupNextStep, bind, getJob, getWorld, emit.
  cbn. rewrite H. cbn.
  assert (is_time_based (step_type ns) = false) as T
      by (destruct (step_type ns); cbn in Q |- *; congruence).
  rewrite T. cbn. unfold runProcessor. rewrite Q. reflexivity.
Qed.

Lemma time_based_has_queue (type : StepType) :
  is_time_based type = true -> implemented type = true.
Proof. destruct type; cbn; congruence. Qed.

Lemma runProcessor_logs (type : StepType) (nj : NextJob) :
  logs noSendEffect (runProcessor type nj).
Proof.
  unfold runProcessor. logs_with no_send.
Qed.

Lemma dispatchNext_logs : logs noSendEffect dispatchNext.
Proof.
  unfold dispatchNext, lookupNextStep, unlock.
  apply logs_bind; [logs_with no_send|]. intros nextStep.
  apply logs_bind; [logs_with no_send|]. intros j.
  apply logs_bind; [logs_with no_send|]. intros nextJob.
  destruct nextStep; [destruct nextJob|].
  - apply runProcessor_logs.
  - apply logs_ret.
  - apply logs_ret.
Qed.

Lemma runProcessor_keeps {X} (f : State -> X) (type : StepType) (nj : NextJob) :
  (forall s l, f (logged s l) = f s) -> keeps f (runProcessor type nj).
Proof.
  intros Hf. unfold runProcessor.
  destruct (processorMap type); [|apply keeps_throw].
  intro s. exact (Hf s _).
Qed.

(** The resolution of the next step only adds to the trace. *)
Lemma dispatchNext_keeps {X} (f : State -> X) :
  (forall s l, f (logged s l) = f s) -> keeps f dispatchNext.
Proof.
  intros Hf.
  assert (forall e, keeps f (emit e)) as He by (intros e s; exact (Hf s [e])).
  unfold dispatchNext, lookupNextStep, unlock, getJob, getWorld.
  apply keeps_bind.
  { apply keeps_bind; [intro; reflexivity|]. intro.
    apply keeps_bind; [intro; reflexivity|]. intro.
    apply keeps_bind; [apply He|]. intro. apply keeps_ret. }
  intros nextStep.
  apply keeps_bind; [intro; reflexivity|]. intros j.
  apply keeps_bind.
  { destruct nextStep as [ns|].
    - destruct (negb _); [apply keeps_ret|].
      apply keeps_bind; [|intro; apply keeps_ret].
      apply keeps_bind; [intro; reflexivity|]. intro. apply He.
    - apply keeps_bind; [|intro; apply keeps_ret].
      apply keeps_bind; [intro; reflexivity|]. intro. apply He. }
  intros nextJob.
  destruct nextStep; [destruct nextJob|]; try apply keeps_ret.
  apply runProcessor_keeps. exact Hf.
Qed.

End DispatchFacts.

(** ** Quiet hours *)

Section QuietHoursFacts.

Context {timing : Timing}.

Lemma process_run (s : State) :
  process s =
  match sendGate s with
  | (Ok r, s1) => afterGate r s1
  | (Throw e, s1) => (Throw e, s1)
  end.
Proof. reflexivity. Qed.

(** Once the quiet-hours check has left [SEND], the gate only fetches
    the template. *)
Lemma sendGate_after_quiet (s s1 : State) (g1 : Gate) :
  checkQuietHours s = (Ok g1, s1) ->
  messageSendType g1 <> SEND ->
  sendGate s =
  (Ok (g1, templates (world s1) (template (metadata (step (job s1))))),
   logged s1 [TemplateLookup (template (metadata (step (job s1))))]).
Proof.
  intros H1 N. apply not_SEND in N.
  apply (sendGate_stages s s1 s1 s1 _ g1 g1 g1 g1 _ H1).
  - rewrite checkCustomersMessaged_run, N. reflexivity.
  - rewrite checkPerMinute_run, N. reflexivity.
  - apply lookupTemplate_run.
  - rewrite checkMock_run, N. reflexivity.
Qed.

Lemma quietFallback_cases (qh : QuietHours) :
  quietFallback qh
  = match fallbackBehavior qh with
    | Some Abort => QUIET_ABORT
    | _ => QUIET_REQUEUE
    end.
Proof. unfold quietFallback. destruct (fallbackBehavior qh) as [[|]|]; reflexivity. Qed.

Lemma quietFallback_not_SEND (qh : QuietHours) : quietFallback qh <> SEND.
Proof. unfold quietFallback. destruct (fallbackBehavior qh) as [[|]|]; discriminate. Qed.

Lemma quietFallback_not_MOCK_SEND (qh : QuietHours) : quietFallback qh <> MOCK_SEND.
Proof. unfold quietFallback. destruct (fallbackBehavior qh) as [[|]|]; discriminate. Qed.

(** The gate of a job inside its quiet window. *)
Lemma sendGate_in_quiet_hours (s : State) (settings : JourneySettings)
      (qh : QuietHours) :
  journeySettings (journey (job s)) = Some settings ->
  quietHours settings = Some qh ->
  enabled qh = true ->
  isQuietHour qh (workspace (owner (job s))) (nextReading s) = true ->
  sendGate s =
  (Ok ({| messageSendType := quietFallback qh;
          requeueTime :=
            Some (quietRequeueTime (zone (world s)) qh
                    (workspace (owner (job s))) (nextReading s)) |},
       templates (world s) (template (metadata (step (job s))))),
   logged (ticked s) [TemplateLookup (template (metadata (step (job s))))]).
Proof.
  intros Hs Hq He Hw.
  apply (sendGate_after_quiet s (ticked s)).
  - rewrite checkQuietHours_run, Hs, Hq, He, Hw. reflexivity.
  - apply quietFallback_not_SEND.
Qed.

Lemma handleRequeue_run (g : Gate) (s : State) :
  handleRequeue g s =
  (Ok tt,
   logged s [RequeueMessage (step_id (step (job s))) (customer_id (customer (job s)))
               (requeueTime g) (session (job s));
             Unlock (location (job s)) (step_id (step (job s)))]).
Proof.
  unfold handleRequeue, unlock, bind, getJob, emit, logged. cbn.
  rewrite <- app_assoc. reflexivity.
Qed.

Lemma handleQuietAbort_run (s : State) :
  handleQuietAbort s =
  (Ok tt, logged (ticked s)
            [InsertStatusRow (trackerRow (job s) "aborted" (nextReading s))]).
Proof. reflexivity. Qed.

(** After a quiet-hours decision nothing of a send is done. *)
Lemma afterGate_quiet_logs (g : Gate) (tpl : option Template) :
  messageSendType g = QUIET_REQUEUE \/ messageSendType g = QUIET_ABORT ->
  logs noSendEffect (afterGate (g, tpl)).
Proof.
  intros [E|E]; unfold afterGate, handleDecision; cbn [fst snd]; rewrite E;
    unfold handleRequeue, handleQuietAbort, insertTrackerRow, unlock;
    logs_with no_send; apply runProcessor_logs.
Qed.

End QuietHoursFacts.

(** ** What the stages leave alone *)

Section StageFrames.

Context {timing : Timing}.

Ltac unfold_gate :=
  unfold sendGate, checkQuietHours, checkCustomersMessaged, checkPerMinute,
    lookupTemplate, checkMock, JourneysService.rateLimitByCustomersMessaged,
    JourneysService.rateLimitByMinute.

(** The gate does not touch the job. *)
Lemma sendGate_keeps_job : keeps job sendGate.
Proof. unfold_gate. frame. Qed.

(** The gate only looks at the counters. *)
Lemma sendGate_keeps_perMinuteCount : keeps perMinuteCount sendGate.
Proof. unfold_gate. frame. Qed.

Lemma sendGate_keeps_distinctCustomers : keeps distinctCustomers sendGate.
Proof. unfold_gate. frame. Qed.

(** The gate makes no call of a send and credits nothing. *)
Lemma sendGate_logs : logs noSendEffect sendGate.
Proof. unfold_gate. logs_with no_send. Qed.

Ltac unfold_send :=
  unfold sendByTemplateType, sendEmail, sendPushPlatforms, sendWebhook,
    sendPush, pushQuietHours, sendAndRecord, senderProcess.

(** The send itself credits nothing and does not mark the location. *)
Lemma send_keeps_perMinuteCount (tpl : option Template) :
  keeps perMinuteCount (sendByTemplateType tpl).
Proof. unfold_send. frame. Qed.

Lemma send_keeps_distinctCustomers (tpl : option Template) :
  keeps distinctCustomers (sendByTemplateType tpl).
Proof. unfold_send. frame. Qed.

Lemma send_keeps_sentFlag (tpl : option Template) :
  keeps sentFlag (sendByTemplateType tpl).
Proof. unfold_send. frame. Qed.

(** No branch writes the distinct-customers counter. *)
Lemma afterGate_keeps_distinctCustomers (r : Gate * option Template) :
  keeps distinctCustomers (afterGate r).
Proof.
  unfold afterGate. apply keeps_bind.
  - unfold handleDecision, handleSend, handleQuietAbort, handleMockSend,
      handleLimitHold, handleRequeue, insertTrackerRow, mockPing, unlock,
      JourneysService.rateLimitByMinuteIncrement.
    destruct (messageSendType (fst r)); frame;
      apply send_keeps_distinctCustomers.
  - intros []; [|apply keeps_ret].
    apply dispatchNext_keeps. reflexivity.
Qed.

(** The branches other than [SEND] and [MOCK_SEND] credit nothing and do
    not mark the location. *)
Lemma afterGate_keeps_perMinuteCount (g : Gate) (tpl : option Template) :
  messageSendType g <> SEND -> messageSendType g <> MOCK_SEND ->
  keeps perMinuteCount (afterGate (g, tpl)).
Proof.
  intros N1 N2. unfold afterGate. cbn [fst snd]. apply keeps_bind.
  - unfold handleDecision, handleQuietAbort, handleLimitHold, handleRequeue,
      insertTrackerRow, unlock.
    destruct (messageSendType g); try congruence; frame.
  - intros []; [|apply keeps_ret].
    apply dispatchNext_keeps. reflexivity.
Qed.

Lemma afterGate_keeps_sentFlag (g : Gate) (tpl : option Template) :
  messageSendType g <> SEND -> messageSendType g <> MOCK_SEND ->
  keeps sentFlag (afterGate (g, tpl)).
Proof.
  intros N1 N2. unfold afterGate. cbn [fst snd]. apply keeps_bind.
  - unfold handleDecision, handleQuietAbort, handleLimitHold, handleRequeue,
      insertTrackerRow, unlock.
    destruct (messageSendType g); try congruence; frame.
  - intros []; [|apply keeps_ret].
    apply dispatchNext_keeps. reflexivity.
Qed.

(** Neither the gate nor the handling of its decision changes what
    decides where the customer goes next and for whom. *)
Lemma sendGate_keeps_routing : keeps routing sendGate.
Proof.
  unfold sendGate, checkQuietHours, checkCustomersMessaged, checkPerMinute,
    lookupTemplate, checkMock, JourneysService.rateLimitByCustomersMessaged,
    JourneysService.rateLimitByMinute.
  frame.
Qed.

Lemma handleDecision_keeps_routing (g : Gate) (tpl : option Template) :
  keeps routing (handleDecision g tpl).
Proof.
  unfold handleDecision, handleSend, handleQuietAbort, handleMockSend,
    handleLimitHold, handleRequeue, insertTrackerRow, mockPing, unlock,
    sendByTemplateType, sendEmail, sendPushPlatforms, sendWebhook, sendPush,
    pushQuietHours, sendAndRecord, senderProcess,
    JourneysService.rateLimitByMinuteIncrement.
  destruct (messageSendType g); frame.
Qed.

(** A run of the gate followed by the rest, for an observation both
    leave alone. *)
Lemma process_keeps {X} (f : State -> X) (s s1 : State)
      (r : Gate * option Template) :
  sendGate s = (Ok r, s1) ->
  keeps f sendGate -> keeps f (afterGate r) ->
  f (snd (process s)) = f s.
Proof.
  intros G K1 K2. rewrite process_run, G, K2.
  specialize (K1 s). rewrite G in K1. exact K1.
Qed.

End StageFrames.

(** ** The claims on quiet hours *)

Section QuietHoursClaims.

Context {timing : Timing}.

(** Whatever the timing helpers, a job whose journey has quiet hours
    enabled and for whose clock reading they answer that it is a quiet
    hour is not sent. *)
Lemma quiet_hour_blocks_sending (s : State) (settings : JourneySettings)
      (qh : QuietHours) :
  journeySettings (journey (job s)) = Some settings ->
  quietHours settings = Some qh ->
  enabled qh = true ->
  isQuietHour qh (workspace (owner (job s))) (nextReading s) = true ->
  exists g tpl s1,
    sendGate s = (Ok (g, tpl), s1) /\
    messageSendType g
    = match fallbackBehavior qh with
      | Some Abort => QUIET_ABORT
      | Some NextAvailableTime | None => QUIET_REQUEUE
      end /\
    messageSendType g <> SEND /\
    messageSendType g <> MOCK_SEND /\
    (exists l : list Effect,
        trace (world (snd (process s))) = (trace (world s) ++ l)%list /\
        Forall noSendEffect l) /\
    sentFlag (snd (process s)) = sentFlag s /\
    perMinuteCount (snd (process s)) = perMinuteCount s /\
    distinctCustomers (snd (process s)) = distinctCustomers s.
Proof.
  intros Hs Hq He Hw.
  pose proof (sendGate_in_quiet_hours s settings qh Hs Hq He Hw) as G.
  pose proof (quietFallback_not_SEND qh) as N1.
  pose proof (quietFallback_not_MOCK_SEND qh) as N2.
  do 3 eexists. split; [exact G|]. cbn [messageSendType].
  split; [apply quietFallback_cases|].
  split; [exact N1|]. split; [exact N2|].
  split.
  { rewrite process_run, G.
    match goal with
    | |- context [afterGate ?r ?s1] =>
        destruct (afterGate_quiet_logs (fst r) (snd r)
                    ltac:(cbn; rewrite quietFallback_cases;
                          destruct (fallbackBehavior qh) as [[|]|]; auto) s1)
          as [l [E F]]
    end.
    cbn [fst snd] in E.
    exists (TemplateLookup (template (metadata (step (job s)))) :: l).
    split.
    - rewrite E. cbn. rewrite <- app_assoc. reflexivity.
    - constructor; [no_send | exact F]. }
  split.
  { apply (process_keeps sentFlag s _ _ G).
    - intro s0. unfold sentFlag. rewrite sendGate_keeps_job. reflexivity.
    - apply afterGate_keeps_sentFlag; assumption. }
  split.
  { apply (process_keeps perMinuteCount s _ _ G).
    - apply sendGate_keeps_perMinuteCount.
    - apply afterGate_keeps_perMinuteCount; assumption. }
  apply (process_keeps distinctCustomers s _ _ G).
  - apply sendGate_keeps_distinctCustomers.
  - apply afterGate_keeps_distinctCustomers.
Qed.

(** C7.  On [QUIET_REQUEUE] or [LIMIT_REQUEUE] the run enqueues a
    re-attempt of the same step for the same customer at [requeueTime],
    releases the lock, and stops there: these are the only two calls
    after the gate, so no destination is looked up, nothing is enqueued
    for a next step and nothing is sent; the job, and with it
    [messageSent], and the counters are as they were. *)
Theorem requeue_then_stop (s s1 : State) (g : Gate) (tpl : option Template) :
  sendGate s = (Ok (g, tpl), s1) ->
  messageSendType g = QUIET_REQUEUE \/ messageSendType g = LIMIT_REQUEUE ->
  process s =
  (Ok tt,
   logged s1
     [RequeueMessage (step_id (step (job s))) (customer_id (customer (job s)))
        (requeueTime g) (session (job s));
      Unlock (location (job s)) (step_id (step (job s)))]) /\
  job (snd (process s)) = job s /\
  sentFlag (snd (process s)) = sentFlag s /\
  perMinuteCount (snd (process s)) = perMinuteCount s /\
  distinctCustomers (snd (process s)) = distinctCustomers s.
Proof.
  intros G D.
  pose proof (sendGate_keeps_job s) as J. rewrite G in J. cbn [snd] in J.
  pose proof (sendGate_keeps_perMinuteCount s) as P. rewrite G in P. cbn [snd] in P.
  pose proof (sendGate_keeps_distinctCustomers s) as C. rewrite G in C. cbn [snd] in C.
  assert (process s =
          (Ok tt,
           logged s1
             [RequeueMessage (step_id (step (job s))) (customer_id (customer (job s)))
                (requeueTime g) (session (job s));
              Unlock (location (job s)) (step_id (step (job s)))])) as R.
  { rewrite process_run, G. unfold afterGate, handleDecision. cbn [fst snd].
    destruct D as [D|D]; rewrite D; unfold bind;
      rewrite handleRequeue_run, J; reflexivity. }
  rewrite R. cbn [snd].
  split; [reflexivity|].
  split; [exact J|].
  split; [unfold sentFlag; cbn; rewrite J; reflexivity|].
  split; [exact P | exact C].
Qed.

End QuietHoursClaims.

Section QuietWindow.

Context {timing : Timing}.

(** A clock reading whose UTC minute of the day lies in the configured
    window, as converted to UTC, is a quiet hour for a helper that finds
    the window: the clock string the source hands it denotes that minute,
    also in the hour after midnight. *)
Lemma isQuietHour_inside (qh : QuietHours) (ws : Workspace)
      (now sh sm eh em : Z) :
  FindsWindow timing ->
  startTime qh = JSString.hhmm sh sm -> 0 <= sh < 24 -> 0 <= sm < 60 ->
  endTime qh = JSString.hhmm eh em -> 0 <= eh < 24 -> 0 <= em < 60 ->
  insideWindow (utcMinuteOf sh sm (timezoneUTCOffset ws))
    (utcMinuteOf eh em (timezoneUTCOffset ws)) (utcMinuteOfDay now) ->
  isQuietHour qh ws now = true.
Proof.
  intros Finds Es Hsh Hsm Ee Heh Hem In.
  unfold isQuietHour. rewrite Es, Ee.
  apply (Finds sh sm eh em _ (utcMinuteOfDay now)); try assumption.
  apply SpecTimingFacts.minuteOfDay_formatUTC.
Qed.


End QuietWindow.


Lemma requeue_then_stop_witness :
  process (Sample.lateEvening None) =
  (Ok tt,
   logged (logged (ticked (Sample.lateEvening None)) [TemplateLookup "template-1"])
     [RequeueMessage "step-message" "customer-1"
        (Some (JSDate.Instant (JSDate.MakeDate 19001 (JSDate.MakeTime 6 0 0 0))))
        "session-1";
      Unlock Sample.theLocation "step-message"]) /\
  job (snd (process (Sample.lateEvening None))) = job (Sample.lateEvening None) /\
  sentFlag (snd (process (Sample.lateEvening None))) = false /\
  perMinuteCount (snd (process (Sample.lateEvening None))) = 0 /\
  distinctCustomers (snd (process (Sample.lateEvening None))) = 0.
Proof.
  exact (requeue_then_stop (Sample.lateEvening None) _ _ _ eq_refl
           (or_introl eq_refl)).
Defined.

Section QuietRequeueTime.

Context {timing : Timing}.

(** The end of the window on the day of [now] is within a day of [now]. *)
Lemma windowEndOn_near (now h m : Z) :
  0 <= h < 24 -> 0 <= m < 60 ->
  now - JSDate.msPerDay < windowEndOn now h m < now + JSDate.msPerDay.
Proof.
  intros Hh Hm. pose proof (JSDateFacts.Day_bounds now) as D.
  unfold windowEndOn, JSDate.MakeDate, JSDate.MakeTime, JSDate.msPerDay,
    JSDate.msPerHour, JSDate.msPerMinute, JSDate.msPerSecond in *.
  lia.
Qed.

(** Inside a half-open window, [now] is not the instant the window ends
    at on its day. *)
Lemma windowEndOn_not_now (qh : QuietHours) (ws : Workspace) (now h m : Z) :
  HalfOpenWindow timing ->
  isQuietHour qh ws now = true ->
  JSString.parseInt_piece
    (convertTimeToUTC (endTime qh) (timezoneUTCOffset ws)) 0 = Some h ->
  JSString.parseInt_piece
    (convertTimeToUTC (endTime qh) (timezoneUTCOffset ws)) 1 = Some m ->
  0 <= h < 24 -> 0 <= m < 60 ->
  windowEndOn now h m <> now.
Proof.
  intros Open Q P0 P1 Hh Hm E.
  destruct (JSDateFacts.start_of_minute now h m Hh Hm) as [EH EM].
  { symmetry. exact E. }
  apply (Open _ _ _ _ Q (SpecTimingFacts.minuteOfDay_formatUTC now)).
  unfold SpecTiming.minuteOfDay. rewrite P0, P1, EH, EM. f_equal.
  apply Z.mod_small. unfold SpecTiming.minutesPerDay. lia.
Qed.

(** The wake time of the quiet-hours check, in the words of the source:
    the end of the window today or, when that is before now, what the
    local clock shows then, on the next local date. *)
Lemma quietRequeueTime_local (zone : JSDate.Zone) (qh : QuietHours)
      (ws : Workspace) (now h m : Z) :
  JSString.parseInt_piece
    (convertTimeToUTC (endTime qh) (timezoneUTCOffset ws)) 0 = Some h ->
  JSString.parseInt_piece
    (convertTimeToUTC (endTime qh) (timezoneUTCOffset ws)) 1 = Some m ->
  0 <= h < 24 -> 0 <= m < 60 ->
  Z.abs now <= JSDate.maxTime - 2 * JSDate.msPerDay ->
  quietRequeueTime zone qh ws now
  = if windowEndOn now h m <? now
    then JSDate.TimeClip
           (JSDate.localShift zone (windowEndOn now h m) JSDate.msPerDay)
    else JSDate.Instant (windowEndOn now h m).
Proof.
  intros P0 P1 Hh Hm R.
  pose proof (windowEndOn_near now h m Hh Hm) as N.
  unfold quietRequeueTime. rewrite P0, P1.
  cbn [JSDate.copy JSDate.setUTCHours].
  fold (windowEndOn now h m).
  rewrite JSDateFacts.TimeClip_in_range
    by (unfold JSDate.maxTime, JSDate.msPerDay in *; lia).
  cbn [JSDate.lt].
  destruct (Z.ltb_spec (windowEndOn now h m) now); [|reflexivity].
  apply JSDateFacts.setDate_nextDay_instant.
Qed.

(** In a zone with no transition between the end of the window and the
    same local time a day later, that is the end of the window on the
    next UTC date. *)
Lemma quietRequeueTime_run (zone : JSDate.Zone) (qh : QuietHours)
      (ws : Workspace) (now h m : Z) :
  JSString.parseInt_piece
    (convertTimeToUTC (endTime qh) (timezoneUTCOffset ws)) 0 = Some h ->
  JSString.parseInt_piece
    (convertTimeToUTC (endTime qh) (timezoneUTCOffset ws)) 1 = Some m ->
  0 <= h < 24 -> 0 <= m < 60 ->
  Z.abs now <= JSDate.maxTime - 2 * JSDate.msPerDay ->
  JSDate.steady zone (windowEndOn now h m) JSDate.msPerDay ->
  quietRequeueTime zone qh ws now
  = JSDate.Instant (if windowEndOn now h m <? now
                    then windowEndOn now h m + JSDate.msPerDay
                    else windowEndOn now h m).
Proof.
  intros P0 P1 Hh Hm R St.
  pose proof (windowEndOn_near now h m Hh Hm) as N.
  rewrite (quietRequeueTime_local zone qh ws now h m P0 P1 Hh Hm R).
  destruct (Z.ltb_spec (windowEndOn now h m) now); [|reflexivity].
  rewrite (JSDateFacts.localShift_steady _ _ _ St).
  apply JSDateFacts.TimeClip_in_range.
  unfold JSDate.maxTime, JSDate.msPerDay in *. lia.
Qed.


End QuietRequeueTime.



(** ** The per-minute limit *)

Section PerMinuteLimit.

Context {timing : Timing}.

Lemma checkQuietHours_keeps_job : keeps job checkQuietHours.
Proof. unfold checkQuietHours. frame. Qed.

Lemma checkQuietHours_keeps_perMinuteCount : keeps perMinuteCount checkQuietHours.
Proof. unfold checkQuietHours. frame. Qed.

Lemma checkCustomersMessaged_keeps_job (g : Gate) :
  keeps job (checkCustomersMessaged g).
Proof.
  unfold checkCustomersMessaged, JourneysService.rateLimitByCustomersMessaged.
  frame.
Qed.

Lemma checkCustomersMessaged_keeps_perMinuteCount (g : Gate) :
  keeps perMinuteCount (checkCustomersMessaged g).
Proof.
  unfold checkCustomersMessaged, JourneysService.rateLimitByCustomersMessaged.
  frame.
Qed.

Lemma checkQuietHours_keeps_zone :
  keeps (fun s => zone (world s)) checkQuietHours.
Proof. unfold checkQuietHours. frame. Qed.

Lemma checkCustomersMessaged_keeps_zone (g : Gate) :
  keeps (fun s => zone (world s)) (checkCustomersMessaged g).
Proof.
  unfold checkCustomersMessaged, JourneysService.rateLimitByCustomersMessaged.
  frame.
Qed.

(** An instant and the instant a minute later: the latter is the start
    of a minute only when the former is. *)
Lemma minute_later_start (now : Z) :
  now + JSDate.msPerMinute = (minuteIndex now + 1) * JSDate.msPerMinute <->
  JSDate.SecFromTime now = 0 /\ JSDate.msFromTime now = 0.
Proof.
  unfold minuteIndex, JSDate.SecFromTime, JSDate.msFromTime,
    JSDate.msPerMinute, JSDate.msPerSecond.
  split; [intros H | intros [H1 H2]]; Z.div_mod_to_equations; lia.
Qed.

(** C4, as the code has it.  When the quiet-hours check and the
    distinct-customers check leave the decision at [SEND], the per-minute
    limit is enabled and the count of the current minute has reached the
    cap, the gate decides [LIMIT_REQUEUE] and [requeueTime] is the clock
    reading with the minute of the local clock moved on by one, seconds
    and milliseconds kept.  With no transition of the server's zone in
    that minute this is the reading plus sixty seconds: an instant of the
    next minute, and its start only when the reading is the start of a
    minute. *)
Theorem per_minute_requeue_one_minute_later
        (s s1 s2 : State) (g1 g2 : Gate) (settings : JourneySettings) :
  checkQuietHours s = (Ok g1, s1) ->
  checkCustomersMessaged g1 s1 = (Ok g2, s2) ->
  messageSendType g2 = SEND ->
  journeySettings (journey (job s)) = Some settings ->
  limit_enabled (perMinuteLimit settings) = true ->
  limit_max (perMinuteLimit settings) <= minuteCount (world s) ->
  exists tpl s4,
    sendGate s =
    (Ok ({| messageSendType := LIMIT_REQUEUE;
            requeueTime :=
              Some (JSDate.TimeClip
                      (JSDate.localShift (zone (world s)) (nextReading s2)
                         JSDate.msPerMinute)) |},
         tpl), s4) /\
    (JSDate.steady (zone (world s)) (nextReading s2) JSDate.msPerMinute ->
     Z.abs (nextReading s2) <= JSDate.maxTime - JSDate.msPerMinute ->
     JSDate.TimeClip
       (JSDate.localShift (zone (world s)) (nextReading s2) JSDate.msPerMinute)
     = JSDate.Instant (nextReading s2 + JSDate.msPerMinute)) /\
    minuteIndex (nextReading s2 + JSDate.msPerMinute)
    = minuteIndex (nextReading s2) + 1 /\
    (nextReading s2 + JSDate.msPerMinute
     = (minuteIndex (nextReading s2) + 1) * JSDate.msPerMinute <->
     JSDate.SecFromTime (nextReading s2) = 0 /\
     JSDate.msFromTime (nextReading s2) = 0).
Proof.
  intros H1 H2 D Hs En Cap.
  assert (zone (world s2) = zone (world s)) as Zn.
  { pose proof (checkCustomersMessaged_keeps_zone g1 s1) as K2.
    pose proof (checkQuietHours_keeps_zone s) as K1.
    rewrite H2 in K2. rewrite H1 in K1. cbn [snd] in *. congruence. }
  assert (job s2 = job s) as J.
  { pose proof (checkCustomersMessaged_keeps_job g1 s1) as K2.
    pose proof (checkQuietHours_keeps_job s) as K1.
    rewrite H2 in K2. rewrite H1 in K1. cbn [snd] in *. congruence. }
  assert (minuteCount (world s2) = minuteCount (world s)) as C.
  { pose proof (checkCustomersMessaged_keeps_perMinuteCount g1 s1) as K2.
    pose proof (checkQuietHours_keeps_perMinuteCount s) as K1.
    rewrite H2 in K2. rewrite H1 in K1. unfold perMinuteCount in *.
    cbn [snd] in *. congruence. }
  assert (checkPerMinute g2 s2 =
          (Ok {| messageSendType := LIMIT_REQUEUE;
                 requeueTime :=
                   Some (JSDate.TimeClip
                           (JSDate.localShift (zone (world s)) (nextReading s2)
                              JSDate.msPerMinute)) |},
           ticked (logged s2 [RateLimitByMinute]))) as H3.
  { rewrite checkPerMinute_run, D, J, C.
    unfold JourneysService.rateLimitByMinuteEnabled, JourneysService.cap.
    rewrite Hs, En. cbn [is_SEND andb JourneysService.reached].
    destruct (Z.leb_spec (limit_max (perMinuteLimit settings))
                (minuteCount (world s))); [|lia].
    rewrite Zn. reflexivity. }
  do 2 eexists. split; [|split; [|split]].
  - apply (sendGate_stages s s1 s2 _ _ g1 g2 _ _ _ H1 H2 H3).
    + apply lookupTemplate_run.
    + rewrite checkMock_run. reflexivity.
  - intros St R. rewrite (JSDateFacts.localShift_steady _ _ _ St).
    apply JSDateFacts.TimeClip_in_range.
    unfold JSDate.maxTime, JSDate.msPerMinute in *. lia.
  - unfold minuteIndex. apply JSDateFacts.next_minute_index.
  - apply minute_later_start.
Qed.

End PerMinuteLimit.

Lemma per_minute_requeue_one_minute_later_witness :
  exists tpl s4,
    sendGate Sample.busyMinute =
    (Ok ({| messageSendType := LIMIT_REQUEUE;
            requeueTime := Some (JSDate.Instant (Sample.at_time 10 31 30)) |},
         tpl), s4) /\
    minuteIndex (Sample.at_time 10 31 30) = minuteIndex (Sample.at_time 10 30 30) + 1.
Proof.
  destruct (per_minute_requeue_one_minute_later Sample.busyMinute _ _ _ _
              (Sample.settings None Sample.unlimited (Sample.atMost 1))
              eq_refl eq_refl eq_refl eq_refl eq_refl ltac:(cbn; lia))
    as (tpl & s4 & G & _ & I & _).
  exists tpl, s4. exact (conj G I).
Defined.

(** C4, as stated, fails: at 10:30:30 the wake time is 10:31:30, while the
    start of the next minute, [now + (60 - now.seconds)], is 10:31:00. *)
Lemma per_minute_requeue_not_start_of_minute :
  nextReading Sample.busyMinute = Sample.at_time 10 30 30 /\
  fst (sendGate Sample.busyMinute)
  = Ok ({| messageSendType := LIMIT_REQUEUE;
           requeueTime := Some (JSDate.Instant (Sample.at_time 10 31 30)) |},
        Some Sample.emailTemplate) /\
  startOfNextMinute (Sample.at_time 10 30 30) = Sample.at_time 10 31 0 /\
  Sample.at_time 10 31 30 <> Sample.at_time 10 31 0.
Proof.
  split; [reflexivity|]. split; [reflexivity|]. split; [reflexivity|].
  vm_compute. discriminate.
Qed.

(** Across a transition of the zone the minute of the local clock is
    not sixty seconds long: in New York, at 01:59:30 before the clocks
    went back, the wake time is 02:00:30 of the winter time, sixty-one
    minutes later. *)
Example minute_requeue_across_a_transition :
  nextReading Scenario.fallBack
  = JSDate.MakeDate 19302 (JSDate.MakeTime 5 59 30 0) /\
  fst (sendGate Scenario.fallBack)
  = Ok ({| messageSendType := LIMIT_REQUEUE;
           requeueTime :=
             Some (JSDate.Instant
                     (JSDate.MakeDate 19302 (JSDate.MakeTime 7 0 30 0))) |},
        Some Sample.emailTemplate).
Proof. split; [reflexivity | vm_compute; reflexivity]. Qed.

(** ** After the send attempt *)

Section NextStep.

Context {timing : Timing}.

(** Only the three completed attempts fall through to the resolution of
    the next step. *)
Lemma fallThrough_decisions (g : Gate) (tpl : option Template) (s1 s2 : State) :
  handleDecision g tpl s1 = (Ok FallThrough, s2) ->
  messageSendType g = SEND \/ messageSendType g = MOCK_SEND
  \/ messageSendType g = QUIET_ABORT.
Proof.
  unfold handleDecision, bind, ret.
  destruct (messageSendType g); auto.
  - destruct (handleRequeue g s1) as [[[]|e] s']; discriminate.
  - destruct (handleRequeue g s1) as [[[]|e] s']; discriminate.
  - destruct (handleLimitHold s1) as [[[]|e] s']; discriminate.
Qed.

Lemma process_falls_through (s s1 s2 : State) (g : Gate) (tpl : option Template) :
  sendGate s = (Ok (g, tpl), s1) ->
  handleDecision g tpl s1 = (Ok FallThrough, s2) ->
  process s = dispatchNext s2.
Proof.
  intros G H. rewrite process_run, G. unfold afterGate, bind. cbn [fst snd].
  rewrite H. reflexivity.
Qed.

(** C8, as the code has it.  After a completed send attempt (the
    decision is [SEND], [MOCK_SEND] or [QUIET_ABORT] and its branch has
    returned), the run looks the destination up and then: releases the
    lock and enqueues nothing when the destination is missing or is a
    [TimeDelay], [TimeWindow] or [WaitUntilBranch] step; enqueues the job
    of the destination on its queue, without releasing the lock, when the
    destination is of another type that has a processor; and throws
    "Function not implemented.", with nothing enqueued and the lock not
    released, when the destination is of a type without processor.  The
    job enqueued has the destination for its step and the journey,
    customer, session and event of the job at hand, with the owner and
    the location as the branch left them. *)
Theorem next_step_dispatch (s s1 s2 : State) (g : Gate) (tpl : option Template) :
  sendGate s = (Ok (g, tpl), s1) ->
  handleDecision g tpl s1 = (Ok FallThrough, s2) ->
  (messageSendType g = SEND \/ messageSendType g = MOCK_SEND
   \/ messageSendType g = QUIET_ABORT) /\
  (steps (world s) (destination (metadata (step (job s)))) = None ->
   process s =
   (Ok tt, logged s2 [StepLookup (destination (metadata (step (job s))));
                      Unlock (location (job s2)) (step_id (step (job s)))])) /\
  (forall ns,
      steps (world s) (destination (metadata (step (job s)))) = Some ns ->
      is_time_based (step_type ns) = true ->
      process s =
      (Ok tt, logged s2 [StepLookup (destination (metadata (step (job s))));
                         Unlock (location (job s2)) (step_id ns)])) /\
  (forall ns queue,
      steps (world s) (destination (metadata (step (job s)))) = Some ns ->
      is_time_based (step_type ns) = false ->
      processorMap (step_type ns) = inl queue ->
      process s =
      (Ok tt, logged s2 [StepLookup (destination (metadata (step (job s))));
                         QueueAdd queue (step_type ns)
                           {| next_owner := owner (job s2);
                              next_journey := journey (job s);
                              next_step := ns;
                              next_session := session (job s);
                              next_customer := customer (job s);
                              next_location := location (job s2);
                              next_event := event (job s) |}])) /\
  (forall ns,
      steps (world s) (destination (metadata (step (job s)))) = Some ns ->
      implemented (step_type ns) = false ->
      process s =
      (Throw (Error "Function not implemented."),
       logged s2 [StepLookup (destination (metadata (step (job s))))])).
Proof.
  intros G H. rewrite (process_falls_through s s1 s2 g tpl G H).
  pose proof (sendGate_keeps_routing s) as R1. rewrite G in R1. cbn [snd] in R1.
  pose proof (handleDecision_keeps_routing g tpl s1) as R2.
  rewrite H in R2. cbn [snd] in R2.
  rewrite R1 in R2. unfold routing in R2.
  injection R2 as Est Ecu Ejo Ese Eev Eso.
  rewrite <- Est, <- Ecu, <- Ejo, <- Ese, <- Eev, <- Eso.
  split; [exact (fallThrough_decisions g tpl s1 s2 H)|].
  split; [apply dispatchNext_missing|].
  split; [apply dispatchNext_time_based|].
  split; [apply dispatchNext_enqueue|].
  intros ns Hn I. apply (dispatchNext_not_implemented s2 ns _ Hn).
  unfold implemented in I.
  destruct (step_type ns); cbn in I |- *; congruence.
Qed.

(** What the resolution of the next step adds to the trace starts with
    the lookup of the destination; the rest is no call of a send. *)
Lemma dispatchNext_trace (s : State) :
  exists l : list Effect,
    trace (world (snd (dispatchNext s)))
    = (trace (world s)
       ++ StepLookup (destination (metadata (step (job s)))) :: l)%list /\
    Forall noSendEffect l.
Proof.
  destruct (steps (world s) (destination (metadata (step (job s)))))
    as [ns|] eqn:Hn.
  - destruct (processorMap (step_type ns)) as [queue|e] eqn:Q.
    + destruct (is_time_based (step_type ns)) eqn:T.
      * rewrite (dispatchNext_time_based s ns Hn T).
        eexists. split; [reflexivity|]. repeat constructor; no_send.
      * rewrite (dispatchNext_enqueue s ns queue Hn T Q).
        eexists. split; [reflexivity|]. repeat constructor; no_send.
    + rewrite (dispatchNext_not_implemented s ns e Hn Q).
      exists []. split; [reflexivity | constructor].
  - rewrite (dispatchNext_missing s Hn).
    eexists. split; [reflexivity|]. repeat constructor; no_send.
Qed.


End NextStep.

Lemma next_step_dispatch_witness :
  process (Sample.plainSend (Some (Sample.stepOf EXIT)))
  = (Ok tt,
     logged
       (credited (marked
          (logged (Sample.plainSend (Some (Sample.stepOf EXIT)))
             [TemplateLookup "template-1";
              SenderProcess SendEmail "step-message" "customer-1" "template-1";
              InsertDeliveryStatus SendEmail])))
       [StepLookup "step-next";
        QueueAdd exitStepQueue EXIT
          {| next_owner := Sample.theOwner "mailgun" 3;
             next_journey :=
               journey (job (Sample.plainSend (Some (Sample.stepOf EXIT))));
             next_step := Sample.stepOf EXIT;
             next_session := "session-1";
             next_customer := {| customer_id := "customer-1" |};
             next_location :=
               {| location_journey := "journey-1";
                  location_customer := "customer-1";
                  messageSent := true |};
             next_event := None |}]).
Proof.
  assert (sendGate (Sample.plainSend (Some (Sample.stepOf EXIT)))
          = (Ok ({| messageSendType := SEND; requeueTime := None |},
                 Some Sample.emailTemplate),
             logged (Sample.plainSend (Some (Sample.stepOf EXIT)))
               [TemplateLookup "template-1"])) as G by reflexivity.
  assert (handleDecision {| messageSendType := SEND; requeueTime := None |}
            (Some Sample.emailTemplate)
            (logged (Sample.plainSend (Some (Sample.stepOf EXIT)))
               [TemplateLookup "template-1"])
          = (Ok FallThrough,
             credited (marked
               (logged (Sample.plainSend (Some (Sample.stepOf EXIT)))
                  [TemplateLookup "template-1";
                   SenderProcess SendEmail "step-message" "customer-1"
                     "template-1";
                   InsertDeliveryStatus SendEmail])))) as H by reflexivity.
  destruct (next_step_dispatch _ _ _ _ _ G H) as (_ & _ & _ & E & _).
  exact (E (Sample.stepOf EXIT) exitStepQueue eq_refl eq_refl eq_refl).
Defined.

(** C8, as stated, fails: a destination of type [AB_TEST] is none of the
    three time-based types, and yet its job is not enqueued; the run throws
    after the lookup. *)
Lemma reserved_destination_is_not_enqueued :
  is_time_based (step_type (Sample.stepOf AB_TEST)) = false /\
  fst (process (Sample.plainSend (Some (Sample.stepOf AB_TEST))))
  = Throw (Error "Function not implemented.") /\
  trace (world (snd (process (Sample.plainSend (Some (Sample.stepOf AB_TEST))))))
  = [TemplateLookup "template-1";
     SenderProcess SendEmail "step-message" "customer-1" "template-1";
     InsertDeliveryStatus SendEmail;
     RateLimitByMinuteIncrement;
     StepLookup "step-next"].
Proof. repeat split. Qed.


(** ** The mock send and its ping *)

Section MockPing.

Lemma logged_nil (s : State) : logged s [] = s.
Proof.
  destruct s as [j w]. destruct w. unfold logged, with_trace. cbn.
  rewrite app_nil_r. reflexivity.
Qed.

(** Whatever the address, the [try] around the ping returns: the fault
    of [new URL] is caught and logged, and a request that is started is
    not waited for. *)
Lemma mockPing_caught (url : string) (s : State) :
  try_catch (mockPing url) (fun e => emit (LogError e)) s
  = (Ok tt,
     logged s
       match urlProtocol (world s) url with
       | None => [LogError TypeError]
       | Some protocol =>
           if String.eqb protocol "http:" then [HttpGet url]
           else if String.eqb protocol "https:" then [HttpsGet url]
           else []
       end).
Proof.
  unfold try_catch, mockPing, bind, getWorld. cbn beta iota.
  destruct (urlProtocol (world s) url) as [protocol|]; [|reflexivity].
  destruct (String.eqb protocol "http:"); [reflexivity|].
  destruct (String.eqb protocol "https:"); [reflexivity|].
  rewrite logged_nil. reflexivity.
Qed.

Lemma handleMockSend_run (s : State) :
  handleMockSend s
  = (Ok tt,
     credited (marked (logged (ticked (logged s (pingCalls (world s))))
       [InsertStatusRow (trackerRow (job s) "sent" (nextReading s))]))).
Proof.
  unfold handleMockSend, pingCalls. unfold bind at 1. unfold getWorld.
  cbn beta iota.
  destruct (truthy (MOCK_MESSAGE_SEND_URL (world s))) as [url|].
  - unfold bind at 1. rewrite mockPing_caught. reflexivity.
  - rewrite logged_nil. reflexivity.
Qed.

(** The ping makes no other calls than its own. *)
Lemma pingCalls_pingEffect (w : World) :
  Forall (fun e => pingEffect e = true) (pingCalls w).
Proof.
  unfold pingCalls.
  destruct (truthy _) as [url|]; [|constructor].
  destruct (urlProtocol w url) as [protocol|]; [|repeat constructor].
  destruct (String.eqb protocol "http:"); [repeat constructor|].
  destruct (String.eqb protocol "https:"); repeat constructor.
Qed.

Lemma pingEffect_no_real_send (e : Effect) :
  pingEffect e = true -> realSendEffect e = false.
Proof. destruct e; cbn; congruence. Qed.

Lemma noSendEffect_no_real_send (e : Effect) :
  noSendEffect e -> realSendEffect e = false.
Proof. intros [H _]. exact H. Qed.

End MockPing.

(** ** Sending and crediting *)

(** The case of an email template. *)
Lemma sendByTemplateType_email (t : Template) :
  template_type t = EMAIL -> sendByTemplateType (Some t) = sendEmail t.
Proof. intros E. unfold sendByTemplateType. rewrite E. reflexivity. Qed.

Section Crediting.

Context {timing : Timing}.

Lemma handleSend_completes (g : Gate) (tpl : option Template) (s1 s2 : State) :
  messageSendType g = SEND ->
  sendByTemplateType tpl s1 = (Ok tt, s2) ->
  handleDecision g tpl s1 = (Ok FallThrough, credited (marked s2)).
Proof.
  intros D H. unfold handleDecision. rewrite D.
  unfold handleSend, bind. rewrite H. reflexivity.
Qed.

Lemma handleSend_throws (g : Gate) (tpl : option Template) (s1 s2 : State)
      (e : Fault) :
  messageSendType g = SEND ->
  sendByTemplateType tpl s1 = (Throw e, s2) ->
  afterGate (g, tpl) s1 = (Throw e, s2).
Proof.
  intros D H. unfold afterGate, handleDecision. cbn [fst snd]. rewrite D.
  unfold handleSend, bind. rewrite H. reflexivity.
Qed.


(** C9, as the code has it.  When the decision is [SEND], the template
    is an email and the workspace is on the free plan with no email
    left, the run throws the payment-required fault and ends there, in
    the state the gate left: nothing is sent, no counter is credited,
    [messageSent] is not set, no destination is looked up, nothing is
    enqueued and the lock is not released. *)
Theorem quota_fault_ends_the_run (s s1 : State) (g : Gate) (t : Template) :
  sendGate s = (Ok (g, Some t), s1) ->
  messageSendType g = SEND ->
  template_type t = EMAIL ->
  emailProvider (workspace (owner (job s))) = "free3" ->
  freeEmailsCount (workspace (owner (job s))) = 0 ->
  process s
  = (Throw (HttpException PAYMENT_REQUIRED "You exceeded limit of 3 emails"), s1) /\
  job s1 = job s /\
  perMinuteCount s1 = perMinuteCount s /\
  distinctCustomers s1 = distinctCustomers s.
Proof.
  intros G D Ty Pr Fr.
  pose proof (sendGate_keeps_job s) as J. rewrite G in J. cbn [snd] in J.
  pose proof (sendGate_keeps_perMinuteCount s) as P. rewrite G in P. cbn [snd] in P.
  pose proof (sendGate_keeps_distinctCustomers s) as C. rewrite G in C. cbn [snd] in C.
  split.
  { rewrite process_run, G.
    apply (handleSend_throws g (Some t) s1 s1 _ D).
    rewrite (sendByTemplateType_email t Ty).
    unfold sendEmail, bind, getJob, is_free3. cbn beta iota.
    rewrite J, Pr, Fr. reflexivity. }
  auto.
Qed.

End Crediting.

(** ** The mock send *)

Section MockSend.

Context {timing : Timing}.


End MockSend.



Lemma quota_fault_ends_the_run_witness :
  process Sample.quotaExhausted
  = (Throw (HttpException PAYMENT_REQUIRED "You exceeded limit of 3 emails"),
     logged Sample.quotaExhausted [TemplateLookup "template-1"]).
Proof.
  assert (sendGate Sample.quotaExhausted
          = (Ok ({| messageSendType := SEND; requeueTime := None |},
                 Some Sample.emailTemplate),
             logged Sample.quotaExhausted [TemplateLookup "template-1"]))
    as G by reflexivity.
  exact (proj1 (quota_fault_ends_the_run _ _ _ _ G eq_refl eq_refl eq_refl eq_refl)).
Defined.

(** C9, as stated, fails: with the quota exhausted the run throws and the
    destination, which exists, is never looked up. *)
Lemma quota_fault_skips_next_step :
  steps (world Sample.quotaExhausted) "step-next" = Some (Sample.stepOf EXIT) /\
  fst (process Sample.quotaExhausted)
  = Throw (HttpException PAYMENT_REQUIRED "You exceeded limit of 3 emails") /\
  trace (world (snd (process Sample.quotaExhausted)))
  = [TemplateLookup "template-1"].
Proof. repeat split. Qed.



(** The ping of the sample fails to parse its address; the fault is logged
    and the mock send goes on. *)
Example mocked_run :
  fst (process Sample.mocked) = Ok tt /\
  trace (world (snd (process Sample.mocked)))
  = [TemplateLookup "template-1";
     LogError TypeError;
     InsertStatusRow
       (trackerRow (job Sample.mocked) "sent" (Sample.at_time 10 30 30));
     RateLimitByMinuteIncrement;
     StepLookup "step-next";
     QueueAdd exitStepQueue EXIT
       (makeNextJob (job (marked Sample.mocked)) (Sample.stepOf EXIT))].
Proof. split; vm_compute; reflexivity. Qed.

(** * Further properties of the processor *)

(** ** The stages of the gate, read backwards *)

Section GateInversion.

Context {timing : Timing}.

Lemma checkQuietHours_keeps_distinctCustomers :
  keeps distinctCustomers checkQuietHours.
Proof. unfold checkQuietHours. frame. Qed.

(** A result of the gate comes from a run of its stages; none of the
    first three decides [MOCK_SEND]. *)
Lemma sendGate_inv (s s4 : State) (g : Gate) (tpl : option Template) :
  sendGate s = (Ok (g, tpl), s4) ->
  exists g1 s1 g2 s2 g3 s3,
    checkQuietHours s = (Ok g1, s1) /\
    checkCustomersMessaged g1 s1 = (Ok g2, s2) /\
    checkPerMinute g2 s2 = (Ok g3, s3) /\
    tpl = templates (world s3) (template (metadata (step (job s3)))) /\
    s4 = logged s3 [TemplateLookup (template (metadata (step (job s3))))] /\
    g = (if is_SEND (messageSendType g3)
            && is_true_string (MOCK_MESSAGE_SEND (world s3))
            && match tpl with Some t => no_webhookData t | None => false end
         then {| messageSendType := MOCK_SEND; requeueTime := requeueTime g3 |}
         else g3) /\
    messageSendType g3 <> MOCK_SEND.
Proof.
  intros H. unfold sendGate, bind in H.
  destruct (checkQuietHours s) as [[g1|e1] s1] eqn:H1; [|discriminate].
  destruct (checkCustomersMessaged g1 s1) as [[g2|e2] s2] eqn:H2; [|discriminate].
  destruct (checkPerMinute g2 s2) as [[g3|e3] s3] eqn:H3; [|discriminate].
  rewrite lookupTemplate_run in H. rewrite checkMock_run in H.
  cbn [ret world logged with_trace MOCK_MESSAGE_SEND] in H.
  injection H as Hg Ht Hs.
  exists g1, s1, g2, s2, g3, s3.
  split; [first [exact H1 | reflexivity]|].
  split; [first [exact H2 | reflexivity]|].
  split; [first [exact H3 | reflexivity]|].
  split; [symmetry; exact Ht|]. split; [symmetry; exact Hs|].
  split; [rewrite <- Ht; symmetry; exact Hg|].
  destruct (checkQuietHours_total s) as (g1' & s1' & E1 & K1).
  rewrite H1 in E1. injection E1 as <- <-.
  rewrite checkCustomersMessaged_run in H2.
  rewrite checkPerMinute_run in H3.
  assert (messageSendType g2 <> MOCK_SEND) as N2.
  { destruct (is_SEND (messageSendType g1)
              && JourneysService.rateLimitByCustomersMessagedEnabled _).
    - destruct (JourneysService.reached (customersMessaged (world s1)) _);
        injection H2 as <- <-; [discriminate|].
      destruct K1 as [K|[K|K]]; rewrite K; discriminate.
    - injection H2 as <- <-.
      destruct K1 as [K|[K|K]]; rewrite K; discriminate. }
  destruct (is_SEND (messageSendType g2)
            && JourneysService.rateLimitByMinuteEnabled _).
  - destruct (JourneysService.reached (minuteCount (world s2)) _);
      injection H3 as <- <-; [discriminate | exact N2].
  - injection H3 as <- <-. exact N2.
Qed.

End GateInversion.

(** ** The hold, the mock flag and the missing template *)

Section HoldAndMock.

Context {timing : Timing}.

(** X1.  When the quiet-hours check leaves [SEND] and the
    distinct-customers limit is enabled with its cap reached, the run
    consults that limit, fetches the template, releases the lock on the
    current step and returns: nothing is requeued, the per-minute limit is
    not consulted, no destination is looked up, and the job is as it
    was. *)
Theorem limit_hold_parks_customer (s s1 : State) (g1 : Gate)
        (settings : JourneySettings) :
  checkQuietHours s = (Ok g1, s1) ->
  messageSendType g1 = SEND ->
  journeySettings (journey (job s)) = Some settings ->
  limit_enabled (customersMessagedLimit settings) = true ->
  limit_max (customersMessagedLimit settings) <= customersMessaged (world s) ->
  process s =
  (Ok tt,
   logged s1
     [RateLimitByCustomersMessaged;
      TemplateLookup (template (metadata (step (job s))));
      Unlock (location (job s)) (step_id (step (job s)))]) /\
  job s1 = job s.
Proof.
  intros H1 D Hs En Cap.
  pose proof (checkQuietHours_keeps_job s) as J. rewrite H1 in J. cbn [snd] in J.
  pose proof (checkQuietHours_keeps_distinctCustomers s) as C.
  rewrite H1 in C. unfold distinctCustomers in C. cbn [snd] in C.
  split; [|exact J].
  assert (checkCustomersMessaged g1 s1 =
          (Ok {| messageSendType := LIMIT_HOLD; requeueTime := requeueTime g1 |},
           logged s1 [RateLimitByCustomersMessaged])) as H2.
  { rewrite checkCustomersMessaged_run, D, J, C.
    unfold JourneysService.rateLimitByCustomersMessagedEnabled, JourneysService.cap.
    rewrite Hs, En. cbn [is_SEND andb JourneysService.reached].
    destruct (Z.leb_spec (limit_max (customersMessagedLimit settings))
                (customersMessaged (world s))); [reflexivity | lia]. }
  rewrite process_run.
  erewrite sendGate_stages;
    [ | exact H1 | exact H2
      | rewrite checkPerMinute_run; reflexivity
      | apply lookupTemplate_run
      | rewrite checkMock_run; reflexivity ].
  unfold afterGate, handleDecision, handleLimitHold, unlock, bind, getJob,
    emit, ret, logged.
  cbn. rewrite J, <- !app_assoc. reflexivity.
Qed.

(** X2.  The gate decides [MOCK_SEND] only when the environment variable
    is exactly "true" and the template was found and carries no webhook
    data. *)
Theorem mock_needs_flag_and_plain_template (s s1 : State) (g : Gate)
        (tpl : option Template) :
  sendGate s = (Ok (g, tpl), s1) ->
  messageSendType g = MOCK_SEND ->
  MOCK_MESSAGE_SEND (world s) = Some "true" /\
  exists t, tpl = Some t /\ webhookData t = None.
Proof.
  intros G D.
  destruct (sendGate_inv s s1 g tpl G)
    as (g1 & t1 & g2 & t2 & g3 & t3 & H1 & H2 & H3 & Ht & Hs & Hg & N).
  assert (MOCK_MESSAGE_SEND (world t3) = MOCK_MESSAGE_SEND (world s)) as E.
  { assert (keeps (fun s => MOCK_MESSAGE_SEND (world s)) checkQuietHours) as K1
        by (unfold checkQuietHours; frame).
    assert (keeps (fun s => MOCK_MESSAGE_SEND (world s)) (checkCustomersMessaged g1))
      as K2
        by (unfold checkCustomersMessaged,
              JourneysService.rateLimitByCustomersMessaged; frame).
    assert (keeps (fun s => MOCK_MESSAGE_SEND (world s)) (checkPerMinute g2)) as K3
        by (unfold checkPerMinute, JourneysService.rateLimitByMinute; frame).
    specialize (K1 s). specialize (K2 t1). specialize (K3 t2).
    rewrite H1 in K1. rewrite H2 in K2. rewrite H3 in K3.
    cbn [snd] in *. congruence. }
  rewrite E in Hg.
  destruct (is_SEND (messageSendType g3)); cbn [andb] in Hg;
    [|subst g; contradiction].
  unfold is_true_string in Hg.
  destruct (MOCK_MESSAGE_SEND (world s)) as [flag|]; cbn [andb] in Hg;
    [|subst g; contradiction].
  destruct (String.eqb_spec flag "true") as [Ef|]; cbn [andb] in Hg;
    [|subst g; contradiction].
  split; [rewrite Ef; reflexivity|].
  destruct tpl as [t|]; [|subst g; contradiction].
  exists t. split; [reflexivity|].
  unfold no_webhookData in Hg.
  destruct (webhookData t); [subst g; contradiction | reflexivity].
Qed.

(** X3.  When the template is not found, the gate never mocks, and a
    decision of [SEND] ends the run with a [TypeError] in the state the
    gate left: nothing is sent or credited, [messageSent] is not set, no
    destination is looked up and the lock is not released. *)
Theorem missing_template_faults_send (s s1 : State) (g : Gate) :
  sendGate s = (Ok (g, None), s1) ->
  messageSendType g <> MOCK_SEND /\
  (messageSendType g = SEND -> process s = (Throw TypeError, s1)).
Proof.
  intros G.
  destruct (sendGate_inv s s1 g None G)
    as (g1 & t1 & g2 & t2 & g3 & t3 & _ & _ & _ & _ & _ & Hg & N).
  rewrite !andb_false_r in Hg. subst g.
  split; [exact N|].
  intros D. rewrite process_run, G.
  apply (handleSend_throws g3 None s1 s1 TypeError D). reflexivity.
Qed.

End HoldAndMock.

Lemma limit_hold_parks_customer_witness :
  process Scenario.capReached =
  (Ok tt,
   logged Scenario.capReached
     [RateLimitByCustomersMessaged;
      TemplateLookup "template-1";
      Unlock Sample.theLocation "step-message"]).
Proof.
  refine (proj1 (limit_hold_parks_customer Scenario.capReached _ _
                   (Sample.settings None (Sample.atMost 2) (Sample.atMost 1))
                   eq_refl eq_refl eq_refl eq_refl _)).
  cbn. lia.
Defined.

Lemma mock_needs_flag_and_plain_template_witness :
  MOCK_MESSAGE_SEND (world Sample.mocked) = Some "true" /\
  exists t, Some Sample.emailTemplate = Some t /\ webhookData t = None.
Proof.
  assert (sendGate Sample.mocked
          = (Ok ({| messageSendType := MOCK_SEND; requeueTime := None |},
                 Some Sample.emailTemplate),
             logged Sample.mocked [TemplateLookup "template-1"]))
    as G by reflexivity.
  exact (mock_needs_flag_and_plain_template _ _ _ _ G eq_refl).
Defined.

Lemma missing_template_faults_send_witness :
  process Scenario.templateGone
  = (Throw TypeError, logged Scenario.templateGone [TemplateLookup "template-1"]).
Proof.
  assert (sendGate Scenario.templateGone
          = (Ok ({| messageSendType := SEND; requeueTime := None |}, None),
             logged Scenario.templateGone [TemplateLookup "template-1"]))
    as G by reflexivity.
  exact (proj2 (missing_template_faults_send _ _ _ G) eq_refl).
Defined.

(** ** The branches of the send *)

Section SendBranches.

Context {timing : Timing}.

(** X4.  On the free plan with an email left (any count other than 0),
    the count of the job is lowered by one before the sender is called.
    When the sender returns, its status is recorded, the owner and the
    workspace are saved, and the run goes on to credit the send; when the
    sender fails, the run ends with its fault, nothing having been saved
    or credited, and the job keeps the lowered count. *)
Theorem free_plan_spends_one_email (s s1 : State) (g : Gate) (t : Template) :
  sendGate s = (Ok (g, Some t), s1) ->
  messageSendType g = SEND ->
  template_type t = EMAIL ->
  emailProvider (workspace (owner (job s))) = "free3" ->
  freeEmailsLeft s <> 0 ->
  (senderResolves (world s1) SendEmail = true ->
   handleDecision g (Some t) s1 =
   (Ok FallThrough,
    credited (marked (logged (spent s1)
      [SenderProcess SendEmail (step_id (step (job s)))
         (customer_id (customer (job s))) (template_id t);
       InsertDeliveryStatus SendEmail; SaveOwner; SaveWorkspace]))) /\
   freeEmailsLeft (snd (process s)) = freeEmailsLeft s - 1) /\
  (senderResolves (world s1) SendEmail = false ->
   process s =
   (Throw SenderFault,
    logged (spent s1)
      [SenderProcess SendEmail (step_id (step (job s)))
         (customer_id (customer (job s))) (template_id t)]) /\
   freeEmailsLeft (snd (process s)) = freeEmailsLeft s - 1 /\
   sentFlag (snd (process s)) = sentFlag s /\
   perMinuteCount (snd (process s)) = perMinuteCount s).
Proof.
  intros G D Ty Pr Fr.
  pose proof (sendGate_keeps_job s) as J. rewrite G in J. cbn [snd] in J.
  pose proof (sendGate_keeps_perMinuteCount s) as P. rewrite G in P. cbn [snd] in P.
  unfold freeEmailsLeft in *.
  assert ((freeEmailsCount (workspace (owner (job s))) =? 0) = false) as Fz
      by (apply Z.eqb_neq; exact Fr).
  split.
  - intros R.
    assert (sendByTemplateType (Some t) s1 =
            (Ok tt, logged (spent s1)
               [SenderProcess SendEmail (step_id (step (job s)))
                  (customer_id (customer (job s))) (template_id t);
                InsertDeliveryStatus SendEmail; SaveOwner; SaveWorkspace])) as H.
    { rewrite (sendByTemplateType_email t Ty).
      unfold sendEmail, sendAndRecord, senderProcess, bind, getJob, getWorld,
        is_free3, emit, ret.
      cbn beta iota. rewrite J, Pr, Fz. cbn. rewrite ?J. cbn in R. rewrite R.
      cbn. unfold logged, spent. cbn. rewrite ?J, <- !app_assoc. reflexivity. }
    pose proof (handleSend_completes g (Some t) s1 _ D H) as HD.
    split; [exact HD|].
    rewrite (process_falls_through s s1 _ g (Some t) G HD).
    rewrite (dispatchNext_keeps
               (fun s => freeEmailsCount (workspace (owner (job s))))) by reflexivity.
    cbn. rewrite J. reflexivity.
  - intros R.
    assert (sendByTemplateType (Some t) s1 =
            (Throw SenderFault,
             logged (spent s1)
               [SenderProcess SendEmail (step_id (step (job s)))
                  (customer_id (customer (job s))) (template_id t)])) as H.
    { rewrite (sendByTemplateType_email t Ty).
      unfold sendEmail, sendAndRecord, senderProcess, bind, getJob, getWorld,
        is_free3, emit, ret.
      cbn beta iota. rewrite J, Pr, Fz. cbn. rewrite ?J. cbn in R. rewrite R.
      cbn. unfold logged, spent. cbn. rewrite ?J. reflexivity. }
    rewrite process_run, G, (handleSend_throws g (Some t) s1 _ _ D H).
    split; [reflexivity|]. cbn. rewrite ?J.
    split; [reflexivity|].
    split; [reflexivity | exact P].
Qed.

(** X5.  A [SEND] with a template that has no channel for this job (a
    template of type [slack] or [firebase] or of a type outside the
    enumeration, a webhook without data, the case of [TemplateType.PUSH]
    on a platform other than All, iOS and Android) calls no sender and
    records nothing, and is credited all the same: the first call after
    the gate is the per-minute increment, [messageSent] is set, and the
    run goes on to the destination. *)
Theorem send_without_channel_still_counts (s s1 : State) (g : Gate)
        (t : Template) :
  sendGate s = (Ok (g, Some t), s1) ->
  messageSendType g = SEND ->
  channelless (job s) t = true ->
  handleDecision g (Some t) s1 = (Ok FallThrough, credited (marked s1)) /\
  (exists l : list Effect,
      trace (world (snd (process s)))
      = (trace (world s1)
         ++ RateLimitByMinuteIncrement
         :: StepLookup (destination (metadata (step (job s)))) :: l)%list /\
      Forall noSendEffect l) /\
  sentFlag (snd (process s)) = true /\
  perMinuteCount (snd (process s)) = perMinuteCount s + 1.
Proof.
  intros G D Ch.
  pose proof (sendGate_keeps_job s) as J. rewrite G in J. cbn [snd] in J.
  pose proof (sendGate_keeps_perMinuteCount s) as P. rewrite G in P. cbn [snd] in P.
  assert (sendByTemplateType (Some t) s1 = (Ok tt, s1)) as H.
  { unfold channelless in Ch. unfold sendByTemplateType.
    destruct (template_type t) as [name|];
      cbn [strictEq EMAIL SMS WEBHOOK TemplateType_PUSH] in *.
    - destruct (String.eqb name "email"); [discriminate|].
      destruct (String.eqb name "sms"); [discriminate|].
      destruct (String.eqb name "webhook"); [|reflexivity].
      unfold sendWebhook, bind, getJob. cbn beta iota.
      unfold no_webhookData in Ch. cbn [orb] in Ch.
      destruct (webhookData t); [discriminate | reflexivity].
    - cbn [orb] in Ch.
      unfold sendPushPlatforms, bind, getJob. cbn beta iota. rewrite J.
      unfold knownPlatform in Ch.
      destruct (String.eqb _ "All"); [discriminate|].
      destruct (String.eqb _ "iOS"); [discriminate|].
      destruct (String.eqb _ "Android"); [discriminate | reflexivity]. }
  pose proof (handleSend_completes g (Some t) s1 s1 D H) as HD.
  split; [exact HD|].
  rewrite (process_falls_through s s1 _ g (Some t) G HD).
  split.
  { destruct (dispatchNext_trace (credited (marked s1))) as [l [E F]].
    exists l. split; [|exact F].
    rewrite E. cbn. rewrite J, <- app_assoc. reflexivity. }
  split.
  - rewrite (dispatchNext_keeps sentFlag) by reflexivity. reflexivity.
  - rewrite (dispatchNext_keeps perMinuteCount) by reflexivity.
    rewrite <- P. reflexivity.
Qed.

(** The [switch] on a type that is a string: the case of
    [TemplateType.PUSH] is out of reach. *)
Lemma sendByTemplateType_string (t : Template) (name : string) :
  template_type t = Some name ->
  sendByTemplateType (Some t)
  = if String.eqb name "email" then sendEmail t
    else if String.eqb name "sms" then sendAndRecord SendSms t
    else if String.eqb name "webhook" then sendWebhook t
    else ret tt.
Proof. intros E. unfold sendByTemplateType. rewrite E. reflexivity. Qed.

Lemma sendGate_no_push : logs (fun e => pushCall e = false) sendGate.
Proof.
  unfold sendGate, checkQuietHours, checkCustomersMessaged, checkPerMinute,
    lookupTemplate, checkMock, JourneysService.rateLimitByCustomersMessaged,
    JourneysService.rateLimitByMinute.
  logs_with reflexivity.
Qed.

Lemma dispatchNext_no_push : logs (fun e => pushCall e = false) dispatchNext.
Proof.
  unfold dispatchNext, lookupNextStep, unlock, runProcessor.
  logs_with reflexivity.
Qed.

Lemma handleDecision_no_push (g : Gate) (t : Template) (name : string) :
  template_type t = Some name ->
  logs (fun e => pushCall e = false) (handleDecision g (Some t)).
Proof.
  intros E.
  unfold handleDecision, handleSend.
  rewrite (sendByTemplateType_string t name E).
  unfold handleQuietAbort, handleMockSend,
    handleLimitHold, handleRequeue, insertTrackerRow, mockPing, unlock,
    sendEmail, sendWebhook, sendAndRecord, senderProcess, markMessageSent,
    decrementFreeEmails, JourneysService.rateLimitByMinuteIncrement.
  destruct (messageSendType g); logs_with reflexivity.
Qed.

(** X6.  The case of [TemplateType.PUSH] is out of reach of a template
    whose type is a string: the enumeration of the template entity has
    no member [PUSH], so the label is [undefined].  Whatever the gate
    decides and whatever platform the step selects, a run on such a
    template, of type [push] included, calls no push sender and records
    no push delivery. *)
Theorem push_sender_is_out_of_reach (s s1 : State) (g : Gate) (t : Template)
        (name : string) :
  sendGate s = (Ok (g, Some t), s1) ->
  template_type t = Some name ->
  Forall (fun e => pushCall e = false) (added s (snd (process s))).
Proof.
  intros G E.
  destruct (sendGate_no_push s) as [lg [Eg Fg]]. rewrite G in Eg. cbn [snd] in Eg.
  destruct (handleDecision_no_push g t name E s1) as [lh [Eh Fh]].
  rewrite process_run, G. unfold afterGate, bind. cbn [fst snd].
  destruct (handleDecision g (Some t) s1) as [[[|]|e] s2]; cbn [fst snd] in *.
  - destruct (dispatchNext_no_push s2) as [ld [Ed Fd]].
    rewrite (added_app s _ (lg ++ lh ++ ld)).
    + repeat (apply Forall_app; split); assumption.
    + rewrite Ed, Eh, Eg, <- !app_assoc. reflexivity.
  - rewrite (added_app s _ (lg ++ lh)).
    + apply Forall_app; split; assumption.
    + cbn. rewrite Eh, Eg, <- app_assoc. reflexivity.
  - rewrite (added_app s _ (lg ++ lh)).
    + apply Forall_app; split; assumption.
    + rewrite Eh, Eg, <- app_assoc. reflexivity.
Qed.

End SendBranches.

Lemma free_plan_spends_one_email_witness :
  freeEmailsLeft (Scenario.freePlan true) = 2 /\
  freeEmailsLeft (snd (process (Scenario.freePlan true))) = 2 - 1.
Proof.
  split; [reflexivity|].
  assert (sendGate (Scenario.freePlan true)
          = (Ok ({| messageSendType := SEND; requeueTime := None |},
                 Some Sample.emailTemplate),
             logged (Scenario.freePlan true) [TemplateLookup "template-1"]))
    as G by reflexivity.
  assert (freeEmailsLeft (Scenario.freePlan true) <> 0) as N
      by (cbn; discriminate).
  exact (proj2 (proj1 (free_plan_spends_one_email _ _ _ _ G eq_refl eq_refl
                         eq_refl N) eq_refl)).
Defined.

Lemma send_without_channel_still_counts_witness :
  sentFlag (snd (process Scenario.slack)) = true /\
  perMinuteCount (snd (process Scenario.slack)) = 0 + 1.
Proof.
  assert (sendGate Scenario.slack
          = (Ok ({| messageSendType := SEND; requeueTime := None |},
                 Some (Scenario.templateOf SLACK None)),
             logged Scenario.slack [TemplateLookup "template-1"]))
    as G by reflexivity.
  destruct (send_without_channel_still_counts _ _ _ _ G eq_refl eq_refl)
    as (_ & _ & F & P).
  exact (conj F P).
Defined.

Lemma push_sender_is_out_of_reach_witness :
  selectedPlatform (metadata (step (job Scenario.pushTemplate))) = "All" /\
  Forall (fun e => pushCall e = false)
    (added Scenario.pushTemplate (snd (process Scenario.pushTemplate))) /\
  trace (world (snd (process Scenario.pushTemplate)))
  = [TemplateLookup "template-1";
     RateLimitByMinuteIncrement;
     StepLookup "step-next";
     QueueAdd exitStepQueue EXIT
       {| next_owner := Sample.theOwner "mailgun" 3;
          next_journey := journey (job Scenario.pushTemplate);
          next_step := Sample.stepOf EXIT;
          next_session := "session-1";
          next_customer := {| customer_id := "customer-1" |};
          next_location :=
            {| location_journey := "journey-1";
               location_customer := "customer-1";
               messageSent := true |};
          next_event := None |}].
Proof.
  assert (sendGate Scenario.pushTemplate
          = (Ok ({| messageSendType := SEND; requeueTime := None |},
                 Some (Scenario.templateOf (Some "push") None)),
             logged Scenario.pushTemplate [TemplateLookup "template-1"]))
    as G by reflexivity.
  split; [reflexivity|]. split.
  - exact (push_sender_is_out_of_reach _ _ _ _ "push" G eq_refl).
  - reflexivity.
Defined.

(** ** The lock *)

Section LockDiscipline.

Context {timing : Timing}.

Lemma lockMoves_app (l1 l2 : list Effect) :
  lockMoves (l1 ++ l2) = (lockMoves l1 + lockMoves l2)%nat.
Proof. unfold lockMoves. rewrite filter_app, length_app. reflexivity. Qed.

Lemma lockMoves_none (l : list Effect) :
  Forall (fun e => lockMove e = false) l -> lockMoves l = 0%nat.
Proof.
  unfold lockMoves. induction 1 as [|e l He _ IH]; [reflexivity|].
  cbn. rewrite He. exact IH.
Qed.

Lemma sendGate_lockfree : logs (fun e => lockMove e = false) sendGate.
Proof.
  unfold sendGate, checkQuietHours, checkCustomersMessaged, checkPerMinute,
    lookupTemplate, checkMock, JourneysService.rateLimitByCustomersMessaged,
    JourneysService.rateLimitByMinute.
  logs_with reflexivity.
Qed.

Lemma sendGate_total (s : State) :
  exists g tpl s1, sendGate s = (Ok (g, tpl), s1).
Proof.
  destruct (checkQuietHours_total s) as (g1 & s1 & H1 & _).
  destruct (checkCustomersMessaged_total g1 s1) as (g2 & s2 & H2).
  destruct (checkPerMinute_total g2 s2) as (g3 & s3 & H3).
  do 3 eexists.
  apply (sendGate_stages s s1 s2 s3 _ g1 g2 g3 _ _ H1 H2 H3).
  - apply lookupTemplate_run.
  - apply checkMock_run.
Qed.

Lemma handleSend_lockfree (tpl : option Template) :
  logs (fun e => lockMove e = false) (handleSend tpl).
Proof.
  unfold handleSend, sendByTemplateType, sendEmail, sendPushPlatforms,
    sendWebhook, sendPush, pushQuietHours, sendAndRecord, senderProcess,
    markMessageSent, decrementFreeEmails,
    JourneysService.rateLimitByMinuteIncrement.
  logs_with reflexivity.
Qed.

(** The branch of the decision releases the lock once when it returns for
    good, and leaves it alone when it falls through or throws. *)
Lemma handleDecision_lock (g : Gate) (tpl : option Template) (s1 : State) :
  exists l : list Effect,
    trace (world (snd (handleDecision g tpl s1))) = (trace (world s1) ++ l)%list /\
    lockMoves l = match fst (handleDecision g tpl s1) with
                  | Ok Return => 1%nat
                  | Ok FallThrough | Throw _ => 0%nat
                  end.
Proof.
  unfold handleDecision.
  destruct (messageSendType g).
  - destruct (handleSend_lockfree tpl s1) as [l [E F]].
    exists l. unfold bind.
    destruct (handleSend tpl s1) as [[[]|e] s2]; cbn [fst snd] in *;
      (split; [exact E | apply lockMoves_none; exact F]).
  - unfold bind. rewrite handleRequeue_run. eexists. split; reflexivity.
  - unfold bind. rewrite handleQuietAbort_run. eexists. split; reflexivity.
  - unfold bind. rewrite handleRequeue_run. eexists. split; reflexivity.
  - exists [Unlock (location (job s1)) (step_id (step (job s1)))].
    split; reflexivity.
  - pose proof (pingCalls_pingEffect (world s1)) as F.
    unfold bind. rewrite handleMockSend_run. cbn [fst snd].
    exists (pingCalls (world s1)
            ++ [InsertStatusRow (trackerRow (job s1) "sent" (nextReading s1));
                RateLimitByMinuteIncrement])%list.
    split.
    + cbn. rewrite <- !app_assoc. reflexivity.
    + rewrite lockMoves_app.
      rewrite (lockMoves_none (pingCalls (world s1))); [reflexivity|].
      eapply Forall_impl; [|exact F].
      intros e He. destruct e; cbn in He |- *; congruence.
Qed.

(** The resolution of the next step moves the lock once when it returns,
    and not at all when it throws. *)
Lemma dispatchNext_lock (s : State) :
  exists l : list Effect,
    trace (world (snd (dispatchNext s))) = (trace (world s) ++ l)%list /\
    lockMoves l = match fst (dispatchNext s) with
                  | Ok _ => 1%nat
                  | Throw _ => 0%nat
                  end.
Proof.
  destruct (steps (world s) (destination (metadata (step (job s)))))
    as [ns|] eqn:Hn.
  - destruct (processorMap (step_type ns)) as [queue|e] eqn:Q.
    + destruct (is_time_based (step_type ns)) eqn:T.
      * rewrite (dispatchNext_time_based s ns Hn T).
        eexists. split; reflexivity.
      * rewrite (dispatchNext_enqueue s ns queue Hn T Q).
        eexists. split; reflexivity.
    + rewrite (dispatchNext_not_implemented s ns e Hn Q).
      eexists. split; reflexivity.
  - rewrite (dispatchNext_missing s Hn).
    eexists. split; reflexivity.
Qed.

(** X7.  A run that returns has moved the lock exactly once: it released
    it, or it handed the job to the queue of the next step, never both and
    never twice.  A run that throws has not moved the lock at all: the
    location stays locked. *)
Theorem lock_moved_once_or_kept (s : State) :
  lockMoves (added s (snd (process s)))
  = match fst (process s) with
    | Ok _ => 1%nat
    | Throw _ => 0%nat
    end.
Proof.
  destruct (sendGate_total s) as (g & tpl & s1 & G).
  destruct (sendGate_lockfree s) as [lg [Eg Fg]]. rewrite G in Eg. cbn [snd] in Eg.
  destruct (handleDecision_lock g tpl s1) as [lh [Eh Lh]].
  rewrite process_run, G. unfold afterGate, bind. cbn [fst snd].
  destruct (handleDecision g tpl s1) as [[[|]|e] s2]; cbn [fst snd] in *.
  - destruct (dispatchNext_lock s2) as [ld [Ed Ld]].
    rewrite (added_app s _ (lg ++ lh ++ ld)).
    + rewrite !lockMoves_app, (lockMoves_none lg Fg), Lh, Ld. reflexivity.
    + rewrite Ed, Eh, Eg, <- !app_assoc. reflexivity.
  - rewrite (added_app s _ (lg ++ lh)).
    + rewrite lockMoves_app, (lockMoves_none lg Fg), Lh. reflexivity.
    + cbn. rewrite Eh, Eg, <- app_assoc. reflexivity.
  - rewrite (added_app s _ (lg ++ lh)).
    + rewrite lockMoves_app, (lockMoves_none lg Fg), Lh. reflexivity.
    + rewrite Eh, Eg, <- app_assoc. reflexivity.
Qed.

End LockDiscipline.

(** ** What is enqueued *)

Section Routing.

Context {timing : Timing}.

Lemma sendGate_enqueues_nothing : logs (fun e => isQueueAdd e = false) sendGate.
Proof.
  unfold sendGate, checkQuietHours, checkCustomersMessaged, checkPerMinute,
    lookupTemplate, checkMock, JourneysService.rateLimitByCustomersMessaged,
    JourneysService.rateLimitByMinute.
  logs_with reflexivity.
Qed.

Lemma handleDecision_enqueues_nothing (g : Gate) (tpl : option Template) :
  logs (fun e => isQueueAdd e = false) (handleDecision g tpl).
Proof.
  unfold handleDecision, handleSend, handleQuietAbort, handleMockSend,
    handleLimitHold, handleRequeue, insertTrackerRow, mockPing, unlock,
    sendByTemplateType, sendEmail, sendPushPlatforms, sendWebhook, sendPush,
    pushQuietHours, sendAndRecord, senderProcess, markMessageSent,
    decrementFreeEmails, JourneysService.rateLimitByMinuteIncrement.
  destruct (messageSendType g); logs_with reflexivity.
Qed.

Lemma not_enqueued (l : list Effect) (queue : QueueName) (type : StepType)
      (nj : NextJob) :
  Forall (fun e => isQueueAdd e = false) l -> ~ In (QueueAdd queue type nj) l.
Proof.
  intros F H. rewrite Forall_forall in F. specialize (F _ H). discriminate.
Qed.

(** What the resolution of the next step enqueues. *)
Lemma dispatchNext_enqueued (s : State) (queue : QueueName) (type : StepType)
      (nj : NextJob) :
  In (QueueAdd queue type nj) (added s (snd (dispatchNext s))) ->
  exists ns,
    steps (world s) (destination (metadata (step (job s)))) = Some ns /\
    nj = makeNextJob (job s) ns /\
    type = step_type ns /\
    is_time_based type = false /\
    processorMap type = inl queue.
Proof.
  destruct (steps (world s) (destination (metadata (step (job s)))))
    as [ns|] eqn:Hn.
  - destruct (processorMap (step_type ns)) as [q|e] eqn:Q.
    + destruct (is_time_based (step_type ns)) eqn:T.
      * rewrite (dispatchNext_time_based s ns Hn T).
        erewrite added_app by reflexivity.
        intros [H|[H|[]]]; discriminate.
      * rewrite (dispatchNext_enqueue s ns q Hn T Q).
        erewrite added_app by reflexivity.
        intros [H|[H|[]]]; [discriminate|].
        injection H as <- <- <-. exists ns. auto.
    + rewrite (dispatchNext_not_implemented s ns e Hn Q).
      erewrite added_app by reflexivity.
      intros [H|[]]; discriminate.
  - rewrite (dispatchNext_missing s Hn).
    erewrite added_app by reflexivity.
    intros [H|[H|[]]]; discriminate.
Qed.

(** X8.  Whatever job a run puts on a step queue is the job of the
    destination of the current step, as the step store resolves it, for
    the same customer, journey, session and event; it goes to the queue
    of its step type, and that type is never [TimeDelay], [TimeWindow] or
    [WaitUntilBranch]. *)
Theorem enqueued_job_is_the_destination (s : State) (queue : QueueName)
        (type : StepType) (nj : NextJob) :
  In (QueueAdd queue type nj) (added s (snd (process s))) ->
  steps (world s) (destination (metadata (step (job s)))) = Some (next_step nj) /\
  step_type (next_step nj) = type /\
  processorMap type = inl queue /\
  is_time_based type = false /\
  next_customer nj = customer (job s) /\
  next_journey nj = journey (job s) /\
  next_session nj = session (job s) /\
  next_event nj = event (job s).
Proof.
  destruct (sendGate_total s) as (g & tpl & s1 & G).
  destruct (sendGate_enqueues_nothing s) as [lg [Eg Fg]].
  pose proof (sendGate_keeps_routing s) as Rg.
  rewrite G in Eg, Rg. cbn [snd] in Eg, Rg.
  destruct (handleDecision_enqueues_nothing g tpl s1) as [lh [Eh Fh]].
  pose proof (handleDecision_keeps_routing g tpl s1) as Rh.
  rewrite process_run, G. unfold afterGate, bind. cbn [fst snd].
  destruct (handleDecision g tpl s1) as [[[|]|e] s2]; cbn [fst snd] in *.
  - destruct (dispatchNext_logs s2) as [ld [Ed _]].
    rewrite (added_app s _ (lg ++ lh ++ ld))
      by (rewrite Ed, Eh, Eg, <- !app_assoc; reflexivity).
    intros H. apply in_app_or in H. destruct H as [H|H];
      [exfalso; exact (not_enqueued _ _ _ _ Fg H)|].
    apply in_app_or in H. destruct H as [H|H];
      [exfalso; exact (not_enqueued _ _ _ _ Fh H)|].
    rewrite <- (added_app s2 _ ld Ed) in H.
    destruct (dispatchNext_enqueued s2 queue type nj H)
      as (ns & Hn & -> & -> & T & Q).
    unfold routing in Rg, Rh. rewrite Rg in Rh.
    injection Rh as R1 R2 R3 R4 R5 R6.
    cbn. repeat split; try congruence; auto.
  - rewrite (added_app s _ (lg ++ lh))
      by (cbn; rewrite Eh, Eg, <- app_assoc; reflexivity).
    intros H. apply in_app_or in H. destruct H as [H|H]; exfalso;
      [exact (not_enqueued _ _ _ _ Fg H) | exact (not_enqueued _ _ _ _ Fh H)].
  - rewrite (added_app s _ (lg ++ lh))
      by (rewrite Eh, Eg, <- app_assoc; reflexivity).
    intros H. apply in_app_or in H. destruct H as [H|H]; exfalso;
      [exact (not_enqueued _ _ _ _ Fg H) | exact (not_enqueued _ _ _ _ Fh H)].
Qed.

End Routing.

Lemma enqueued_job_is_the_destination_witness :
  steps (world (Sample.plainSend (Some (Sample.stepOf EXIT)))) "step-next"
  = Some (Sample.stepOf EXIT) /\
  step_type (Sample.stepOf EXIT) = EXIT /\
  processorMap EXIT = inl exitStepQueue /\
  is_time_based EXIT = false /\
  customer (job (Sample.plainSend (Some (Sample.stepOf EXIT))))
  = {| customer_id := "customer-1" |} /\
  journey (job (Sample.plainSend (Some (Sample.stepOf EXIT))))
  = journey (job (Sample.plainSend (Some (Sample.stepOf EXIT)))) /\
  "session-1" = session (job (Sample.plainSend (Some (Sample.stepOf EXIT)))) /\
  None = event (job (Sample.plainSend (Some (Sample.stepOf EXIT)))).
Proof.
  refine (enqueued_job_is_the_destination
            (Sample.plainSend (Some (Sample.stepOf EXIT))) exitStepQueue EXIT
            (makeNextJob (job (marked (Sample.plainSend (Some (Sample.stepOf EXIT)))))
               (Sample.stepOf EXIT)) _).
  vm_compute. do 5 right. left. reflexivity.
Defined.

(** ** The wake time of the quiet hours *)

Section WakeTime.

Context {timing : Timing}.

(** X9.  For a window end that reads as [h] hours and [m] minutes, in a
    server zone that has no transition between that time on the UTC date
    of the clock reading and the same local time a day later, the wake
    time the quiet-hours check computes is a valid date, is never before
    the clock reading and is less than a day after it, and it is the
    start of minute [m] of hour [h] in UTC. *)
Theorem quiet_wake_time_bounds (zone : JSDate.Zone) (qh : QuietHours)
        (ws : Workspace) (now h m : Z) :
  JSString.parseInt_piece
    (convertTimeToUTC (endTime qh) (timezoneUTCOffset ws)) 0 = Some h ->
  JSString.parseInt_piece
    (convertTimeToUTC (endTime qh) (timezoneUTCOffset ws)) 1 = Some m ->
  0 <= h < 24 -> 0 <= m < 60 ->
  Z.abs now <= JSDate.maxTime - 2 * JSDate.msPerDay ->
  JSDate.steady zone (windowEndOn now h m) JSDate.msPerDay ->
  exists wake,
    quietRequeueTime zone qh ws now = JSDate.Instant wake /\
    now <= wake < now + JSDate.msPerDay /\
    JSDate.HourFromTime wake = h /\
    JSDate.MinFromTime wake = m /\
    JSDate.SecFromTime wake = 0 /\
    JSDate.msFromTime wake = 0.
Proof.
  intros P0 P1 Hh Hm R St.
  rewrite (quietRequeueTime_run zone qh ws now h m P0 P1 Hh Hm R St).
  pose proof (windowEndOn_near now h m Hh Hm) as N.
  eexists. split; [reflexivity|].
  assert (forall d,
             let e := d * JSDate.msPerDay + JSDate.MakeTime h m 0 0 in
             JSDate.HourFromTime e = h /\ JSDate.MinFromTime e = m /\
             JSDate.SecFromTime e = 0 /\ JSDate.msFromTime e = 0) as T.
  { intros d e. subst e.
    unfold JSDate.HourFromTime, JSDate.MinFromTime, JSDate.SecFromTime,
      JSDate.msFromTime, JSDate.MakeTime, JSDate.msPerDay, JSDate.msPerHour,
      JSDate.msPerMinute, JSDate.msPerSecond.
    repeat split; Z.div_mod_to_equations; lia. }
  destruct (Z.ltb_spec (windowEndOn now h m) now) as [L|L].
  - split; [lia|].
    replace (windowEndOn now h m + JSDate.msPerDay)
      with ((JSDate.Day now + 1) * JSDate.msPerDay + JSDate.MakeTime h m 0 0)
      by (unfold windowEndOn, JSDate.MakeDate; lia).
    apply T.
  - split; [lia|]. apply (T (JSDate.Day now)).
Qed.

End WakeTime.

Lemma quiet_wake_time_bounds_witness :
  exists wake,
    quietRequeueTime (JSDate.fixedZone 0) (Sample.quiet None)
      (Sample.theWorkspace "mailgun" 3)
      (Sample.at_time 23 30 0) = JSDate.Instant wake /\
    Sample.at_time 23 30 0 <= wake < Sample.at_time 23 30 0 + JSDate.msPerDay /\
    JSDate.HourFromTime wake = 6 /\
    JSDate.MinFromTime wake = 0 /\
    JSDate.SecFromTime wake = 0 /\
    JSDate.msFromTime wake = 0.
Proof.
  refine (quiet_wake_time_bounds (JSDate.fixedZone 0) (Sample.quiet None)
            (Sample.theWorkspace "mailgun" 3) (Sample.at_time 23 30 0) 6 0
            eq_refl eq_refl _ _ _ eq_refl).
  - lia.
  - lia.
  - vm_compute. discriminate.
Defined.

(** ** Credit and flag *)

Section CreditAndFlag.

Context {timing : Timing}.

(** X10.  In every run the per-minute credit and the [messageSent] flag go
    together: either the counter and the flag are as they were, or the
    counter is one higher and the flag is set.  The flag is never
    cleared and the counter never lowered. *)
Theorem credit_and_flag_move_together (s : State) :
  (perMinuteCount (snd (process s)) = perMinuteCount s /\
   sentFlag (snd (process s)) = sentFlag s) \/
  (perMinuteCount (snd (process s)) = perMinuteCount s + 1 /\
   sentFlag (snd (process s)) = true).
Proof.
  destruct (sendGate_total s) as (g & tpl & s1 & G).
  pose proof (sendGate_keeps_job s) as J. rewrite G in J. cbn [snd] in J.
  pose proof (sendGate_keeps_perMinuteCount s) as P. rewrite G in P. cbn [snd] in P.
  assert (sentFlag s1 = sentFlag s) as F by (unfold sentFlag; rewrite J; reflexivity).
  destruct (messageSendType g) eqn:D.
  - destruct (sendByTemplateType tpl s1) as [[[]|e] s2] eqn:H.
    + right.
      rewrite (process_falls_through s s1 _ g tpl G
                 (handleSend_completes g tpl s1 s2 D H)).
      pose proof (send_keeps_perMinuteCount tpl s1) as P2.
      rewrite H in P2. cbn [snd] in P2.
      split.
      * rewrite (dispatchNext_keeps perMinuteCount) by reflexivity.
        change (perMinuteCount (credited (marked s2))) with (perMinuteCount s2 + 1).
        congruence.
      * rewrite (dispatchNext_keeps sentFlag) by reflexivity. reflexivity.
    + left.
      rewrite process_run, G, (handleSend_throws g tpl s1 s2 e D H). cbn [snd].
      pose proof (send_keeps_perMinuteCount tpl s1) as P2.
      pose proof (send_keeps_sentFlag tpl s1) as F2.
      rewrite H in P2, F2. cbn [snd] in P2, F2. split; congruence.
  - left. split.
    + apply (process_keeps perMinuteCount s _ _ G);
        [apply sendGate_keeps_perMinuteCount|].
      apply afterGate_keeps_perMinuteCount; congruence.
    + rewrite process_run, G.
      rewrite afterGate_keeps_sentFlag by congruence. exact F.
  - left. split.
    + apply (process_keeps perMinuteCount s _ _ G);
        [apply sendGate_keeps_perMinuteCount|].
      apply afterGate_keeps_perMinuteCount; congruence.
    + rewrite process_run, G.
      rewrite afterGate_keeps_sentFlag by congruence. exact F.
  - left. split.
    + apply (process_keeps perMinuteCount s _ _ G);
        [apply sendGate_keeps_perMinuteCount|].
      apply afterGate_keeps_perMinuteCount; congruence.
    + rewrite process_run, G.
      rewrite afterGate_keeps_sentFlag by congruence. exact F.
  - left. split.
    + apply (process_keeps perMinuteCount s _ _ G);
        [apply sendGate_keeps_perMinuteCount|].
      apply afterGate_keeps_perMinuteCount; congruence.
    + rewrite process_run, G.
      rewrite afterGate_keeps_sentFlag by congruence. exact F.
  - right.
    assert (handleDecision g tpl s1 =
            (Ok FallThrough,
             credited (marked (logged (ticked (logged s1 (pingCalls (world s1))))
               [InsertStatusRow (trackerRow (job s1) "sent" (nextReading s1))]))))
      as H.
    { unfold handleDecision. rewrite D. unfold bind.
      rewrite handleMockSend_run. reflexivity. }
    rewrite (process_falls_through s s1 _ g tpl G H).
    split.
    + rewrite (dispatchNext_keeps perMinuteCount) by reflexivity.
      rewrite <- P. reflexivity.
    + rewrite (dispatchNext_keeps sentFlag) by reflexivity. reflexivity.
Qed.

End CreditAndFlag.

(** ** The location is not consulted *)

Section Oblivious.

Context {timing : Timing}.

Lemma oblivious_ret {A} (a : A) : oblivious (ret a).
Proof. intros s l. reflexivity. Qed.

Lemma oblivious_throw {A} (e : Fault) : oblivious (@throw A e).
Proof. intros s l. reflexivity. Qed.

Lemma oblivious_bind {A B} (m : M A) (k : A -> M B) :
  oblivious m -> (forall a, oblivious (k a)) -> oblivious (bind m k).
Proof.
  intros Hm Hk s l. unfold bind. rewrite Hm.
  destruct (m s) as [[a|e] s1]; cbn [fst snd].
  - apply Hk.
  - reflexivity.
Qed.

(** A continuation of [getJob] that does not look at the location. *)
Lemma oblivious_with_job {B} (k : JobData -> M B) :
  (forall j, oblivious (k j)) ->
  (forall j l s, k (set_location j l) s = k j s) ->
  oblivious (bind getJob k).
Proof.
  intros Hk Hj s l. unfold bind, getJob. cbn [job relocate].
  rewrite Hj. apply Hk.
Qed.

Ltac oblivious_step :=
  first
    [ apply oblivious_with_job; [intro | intros; reflexivity]
    | apply oblivious_bind; [| intro]
    | apply oblivious_ret
    | apply oblivious_throw
    | (intros ? ?; reflexivity)
    | match goal with
      | |- oblivious (if ?b then _ else _) => destruct b
      | |- oblivious (match ?x with _ => _ end) => destruct x
      end ].

(** X12.  Neither the gate nor the send reads the location of the job.
    Started with any other location, in particular one whose
    [messageSent] is already true, the gate decides the same and the send
    makes the same calls with the same outcome, the location being carried
    along untouched: a job whose message was sent before is gated and sent
    like a new one. *)
Theorem location_is_not_consulted (s : State) (l : JourneyLocation) :
  sendGate (relocate s l) = (fst (sendGate s), relocate (snd (sendGate s)) l) /\
  forall tpl,
    sendByTemplateType tpl (relocate s l)
    = (fst (sendByTemplateType tpl s), relocate (snd (sendByTemplateType tpl s)) l).
Proof.
  split.
  - revert s l. change (oblivious sendGate).
    unfold sendGate, checkQuietHours, checkCustomersMessaged, checkPerMinute,
      lookupTemplate, checkMock, JourneysService.rateLimitByCustomersMessaged,
      JourneysService.rateLimitByMinute.
    repeat oblivious_step.
  - intros tpl. revert s l. change (oblivious (sendByTemplateType tpl)).
    unfold sendByTemplateType, sendEmail, sendPushPlatforms, sendWebhook,
      sendPush, pushQuietHours, sendAndRecord, senderProcess.
    repeat oblivious_step.
Qed.

End Oblivious.

(** ** The requeue time and the clock string *)

Section RequeueTimeSet.

Context {timing : Timing}.

Lemma checkQuietHours_shape (s s1 : State) (g1 : Gate) :
  checkQuietHours s = (Ok g1, s1) ->
  (messageSendType g1 = SEND /\ requeueTime g1 = None) \/
  ((messageSendType g1 = QUIET_REQUEUE \/ messageSendType g1 = QUIET_ABORT) /\
   exists d, requeueTime g1 = Some d).
Proof.
  rewrite checkQuietHours_run.
  destruct (journeySettings (journey (job s))) as [settings|];
    [|intros H; injection H as <- <-; auto].
  destruct (quietHours settings) as [qh|];
    [|intros H; injection H as <- <-; auto].
  destruct (enabled qh); [|intros H; injection H as <- <-; auto].
  destruct (isQuietHour _ _ _); intros H; injection H as <- <-; [|auto].
  right. cbn [messageSendType requeueTime]. split; [|eauto].
  rewrite quietFallback_cases. destruct (fallbackBehavior qh) as [[|]|]; auto.
Qed.

(** X13.  The gate sets [requeueTime] exactly on the decisions that come
    from the quiet hours or from the per-minute limit: on [QUIET_REQUEUE],
    [QUIET_ABORT] and [LIMIT_REQUEUE] it holds a date, so a requeue is
    never scheduled at an undefined time, and on [SEND], [MOCK_SEND] and
    [LIMIT_HOLD] it is undefined. *)
Theorem requeue_time_set_with_decision (s s1 : State) (g : Gate)
        (tpl : option Template) :
  sendGate s = (Ok (g, tpl), s1) ->
  match messageSendType g with
  | QUIET_REQUEUE | QUIET_ABORT | LIMIT_REQUEUE => exists d, requeueTime g = Some d
  | SEND | MOCK_SEND | LIMIT_HOLD => requeueTime g = None
  end.
Proof.
  intros G.
  destruct (sendGate_inv s s1 g tpl G)
    as (g1 & t1 & g2 & t2 & g3 & t3 & H1 & H2 & H3 & _ & _ & Hg & _).
  pose proof (checkQuietHours_shape s t1 g1 H1) as K1.
  rewrite checkCustomersMessaged_run in H2.
  rewrite checkPerMinute_run in H3.
  assert (match messageSendType g2 with
          | QUIET_REQUEUE | QUIET_ABORT | LIMIT_REQUEUE =>
              exists d, requeueTime g2 = Some d
          | SEND | MOCK_SEND | LIMIT_HOLD => requeueTime g2 = None
          end) as K2.
  { destruct (is_SEND (messageSendType g1)) eqn:S1; cbn [andb] in H2.
    - assert (requeueTime g1 = None) as N.
      { destruct K1 as [[_ N]|[[K|K] _]]; [exact N | |];
          rewrite K in S1; discriminate. }
      destruct (JourneysService.rateLimitByCustomersMessagedEnabled _).
      + destruct (JourneysService.reached (customersMessaged (world t1)) _);
          injection H2 as <- <-; [exact N|].
        destruct (messageSendType g1); try discriminate; exact N.
      + injection H2 as <- <-.
        destruct (messageSendType g1); try discriminate; exact N.
    - injection H2 as <- <-.
      destruct K1 as [[K _]|[[K|K] E]]; rewrite K in *;
        [discriminate | exact E | exact E]. }
  assert (match messageSendType g3 with
          | QUIET_REQUEUE | QUIET_ABORT | LIMIT_REQUEUE =>
              exists d, requeueTime g3 = Some d
          | SEND | MOCK_SEND | LIMIT_HOLD => requeueTime g3 = None
          end) as K3.
  { destruct (is_SEND (messageSendType g2)
              && JourneysService.rateLimitByMinuteEnabled _).
    - destruct (JourneysService.reached (minuteCount (world t2)) _);
        injection H3 as <- <-; [cbn; eauto | exact K2].
    - injection H3 as <- <-. exact K2. }
  destruct (is_SEND (messageSendType g3) && _ && _) eqn:M.
  - subst g. cbn [messageSendType requeueTime].
    destruct (messageSendType g3); try discriminate; exact K3.
  - subst g. exact K3.
Qed.

End RequeueTimeSet.

Lemma requeue_time_set_with_decision_witness :
  exists d,
    Some (JSDate.Instant (Sample.at_time 10 31 30)) = Some d.
Proof.
  assert (sendGate Sample.busyMinute
          = (Ok ({| messageSendType := LIMIT_REQUEUE;
                    requeueTime := Some (JSDate.Instant (Sample.at_time 10 31 30)) |},
                 Some Sample.emailTemplate),
             logged (ticked (logged Sample.busyMinute [RateLimitByMinute]))
               [TemplateLookup "template-1"])) as G by reflexivity.
  exact (requeue_time_set_with_decision _ _ _ _ G).
Defined.

(** X11.  The clock string of an instant reads back, through [split] and
    [parseInt], as an hour from 1 to 24 and the UTC minute: the hour is
    the UTC hour, with 24 standing for the hour after midnight, which the
    string never shows as 0. *)
Theorem utcNowString_reads_back (now : Z) :
  exists h m,
    JSString.parseInt_piece (formatUTC now) 0 = Some h /\
    JSString.parseInt_piece (formatUTC now) 1 = Some m /\
    1 <= h <= 24 /\
    h mod 24 = JSDate.HourFromTime now /\
    m = JSDate.MinFromTime now.
Proof.
  pose proof (JSDateFacts.HourFromTime_range now) as Hh.
  pose proof (JSDateFacts.MinFromTime_range now) as Hm.
  unfold formatUTC.
  set (h := JSDate.HourFromTime now) in *.
  set (m := JSDate.MinFromTime now) in *.
  destruct (JSStringFacts.parseInt_hhmm (if h =? 0 then 24 else h) m)
    as [P0 P1].
  { destruct (Z.eqb_spec h 0); lia. }
  { lia. }
  exists (if h =? 0 then 24 else h), m.
  split; [exact P0|]. split; [exact P1|].
  destruct (Z.eqb_spec h 0) as [E|E].
  - rewrite E. repeat split; try lia; reflexivity.
  - repeat split; try lia; apply Z.mod_small; lia.
Qed.

(** * The cursor search of the custom events *)

Module CustomEventsFacts.
Import CustomEvents.

Lemma prepare_returns (store : Store) (account : Account) (pageSize : Z)
      (search : string) (v : QueryVariables) (q : Query) :
  prepareCustomEventsQuery store account pageSize search v = Returned q ->
  limit q = pageSize + 1 /\
  sort q = (if direction_is (direction v) 1 then -1 else 1).
Proof.
  unfold prepareCustomEventsQuery.
  destruct (negb (String.eqb search "") && negb (validPattern store search));
    [discriminate|].
  destruct (negb (String.eqb (cursorEventId v) "")
            && negb (validObjectId store (cursorEventId v)));
    [discriminate|].
  intros H. injection H as <-. split; reflexivity.
Qed.

(** What a page that is returned holds. *)
Lemma pageOf_returns (pageSize : Z) (v : QueryVariables)
      (fetched : list EventDocument) (page : Page) :
  pageOf pageSize v fetched = Returned page ->
  data page = map attributes (displayed pageSize v fetched) /\
  page_anchor page = anchor v /\
  showNext page
  = (direction_is (direction v) 1 && hasMore pageSize fetched
     || direction_is (direction v) (-1) && String.eqb (anchor v) "previous") /\
  showPrev page
  = (direction_is (direction v) (-1) && hasMore pageSize fetched
     || direction_is (direction v) 1 && String.eqb (anchor v) "next") /\
  showLast page
  = (String.eqb (anchor v) "first_page" && hasMore pageSize fetched
     || negb (String.eqb (anchor v) "last_page")
     || direction_is (direction v) 1 && hasMore pageSize fetched) /\
  (if showNext page
   then id_at (displayed pageSize v fetched)
          (last_index (displayed pageSize v fetched))
   else Returned "") = Returned (showNextCursorEventId page) /\
  (if showPrev page
   then id_at (displayed pageSize v fetched) (Some 0%nat)
   else Returned "") = Returned (showPrevCursorEventId page).
Proof.
  unfold pageOf. cbv zeta.
  set (next := direction_is (direction v) 1 && hasMore pageSize fetched
               || direction_is (direction v) (-1)
                  && String.eqb (anchor v) "previous").
  set (prev := direction_is (direction v) (-1) && hasMore pageSize fetched
               || direction_is (direction v) 1 && String.eqb (anchor v) "next").
  destruct (if next then _ else _) as [nextId|e] eqn:EN; [|discriminate].
  destruct (if prev then _ else _) as [prevId|e] eqn:EP; [|discriminate].
  intros H. injection H as <-. cbn. repeat split; assumption.
Qed.

Lemma displayed_length (pageSize : Z) (v : QueryVariables)
      (fetched : list EventDocument) :
  length (displayed pageSize v fetched)
  = if hasMore pageSize fetched then pred (length fetched) else length fetched.
Proof.
  unfold displayed.
  assert (length (if hasMore pageSize fetched then removelast fetched else fetched)
          = if hasMore pageSize fetched then pred (length fetched)
            else length fetched) as E.
  { destruct (hasMore pageSize fetched); [|reflexivity].
    rewrite removelast_firstn_len, length_firstn. lia. }
  destruct (direction_is (direction v) (-1)); [rewrite length_rev|]; exact E.
Qed.

(** X14.  With a store that honours the limit of the query and a page
    size that is not negative, a page that is returned holds at most
    [pageSize] rows: the extra row fetched to detect a further page is
    never shown. *)
Theorem page_holds_at_most_pageSize (store : Store) (account : Account)
        (pageSize : Z) (search anchor0 cursorEventId0 : string) (page : Page) :
  honoursLimit store ->
  0 <= pageSize ->
  getCustomEventsCursorSearch store account pageSize search anchor0 cursorEventId0
  = Returned page ->
  Z.of_nat (length (data page)) <= pageSize.
Proof.
  intros Hl Hp. unfold getCustomEventsCursorSearch.
  destruct (prepareCustomEventsQuery _ _ _ _ _) as [q|e] eqn:Pq; [|discriminate].
  intros H. apply pageOf_returns in H. destruct H as (D & _).
  rewrite D, length_map, displayed_length.
  destruct (prepare_returns _ _ _ _ _ _ Pq) as [Lq _].
  specialize (Hl q). rewrite Lq in Hl.
  unfold hasMore.
  destruct (Z.gtb_spec (Z.of_nat (length (find store q))) pageSize); lia.
Qed.

(** X15.  On a page that is returned, the cursor for the next page is the
    id of the last row shown when [showNext] is set and is empty
    otherwise, and the cursor for the previous page is the id of the first
    row shown when [showPrev] is set and is empty otherwise. *)
Theorem cursors_are_the_ends_of_the_page (pageSize : Z) (v : QueryVariables)
        (fetched : list EventDocument) (page : Page) :
  pageOf pageSize v fetched = Returned page ->
  (if showNext page
   then exists before r,
       displayed pageSize v fetched = (before ++ [r])%list /\
       showNextCursorEventId page = _id r
   else showNextCursorEventId page = "") /\
  (if showPrev page
   then exists r after,
       displayed pageSize v fetched = r :: after /\
       showPrevCursorEventId page = _id r
   else showPrevCursorEventId page = "").
Proof.
  intros H. apply pageOf_returns in H.
  destruct H as (_ & _ & _ & _ & _ & N & P).
  split.
  - destruct (showNext page); [|injection N as <-; reflexivity].
    destruct (displayed pageSize v fetched) as [|r0 rest] eqn:E;
      [discriminate|].
    destruct (exists_last (l := r0 :: rest)) as (before & r & El);
      [discriminate|].
    exists before, r. split; [exact El|].
    unfold id_at, last_index in N.
    replace (length rest) with (length before) in N
      by (apply (f_equal (@length _)) in El; rewrite length_app in El;
          cbn in El; lia).
    rewrite El, nth_error_app2, Nat.sub_diag in N by lia.
    cbn in N. injection N as <-. reflexivity.
  - destruct (showPrev page); [|injection P as <-; reflexivity].
    destruct (displayed pageSize v fetched) as [|r after]; [discriminate|].
    exists r, after. split; [reflexivity|].
    cbn in P. injection P as <-. reflexivity.
Qed.

(** X16.  Asking for the next or the previous page when the store has no
    row for the query ends in a [TypeError]: the search reads the id of a
    row of the empty page. *)
Theorem empty_page_faults (store : Store) (account : Account) (pageSize : Z)
        (search anchor0 cursorEventId0 : string) (q : Query) :
  anchor0 = "next" \/ anchor0 = "previous" ->
  prepareCustomEventsQuery store account pageSize search
    (computeCustomEventsQueryVariables anchor0 None cursorEventId0)
  = Returned q ->
  find store q = [] ->
  getCustomEventsCursorSearch store account pageSize search anchor0 cursorEventId0
  = Threw TypeErrorThrown.
Proof.
  intros A Pq F. unfold getCustomEventsCursorSearch. rewrite Pq, F.
  assert (computeCustomEventsQueryVariables anchor0 None cursorEventId0
          = {| anchor := anchor0;
               direction := Some (if String.eqb anchor0 "next" then 1 else -1);
               cursorEventId := cursorEventId0 |}) as E.
  { unfold computeCustomEventsQueryVariables.
    destruct A as [-> | ->]; rewrite andb_false_r; reflexivity. }
  rewrite E. unfold pageOf, displayed, hasMore. cbn [length Z.of_nat].
  destruct A as [-> | ->]; cbn;
    destruct (0 >? pageSize); reflexivity.
Qed.

(** X17.  On every page the search returns, [showLast] is set exactly
    when the anchor of the page is not "last_page". *)
Theorem showLast_unless_last_page (store : Store) (account : Account)
        (pageSize : Z) (search anchor0 cursorEventId0 : string) (page : Page) :
  getCustomEventsCursorSearch store account pageSize search anchor0 cursorEventId0
  = Returned page ->
  showLast page = negb (String.eqb (page_anchor page) "last_page").
Proof.
  unfold getCustomEventsCursorSearch.
  destruct (prepareCustomEventsQuery _ _ _ _ _) as [q|e]; [|discriminate].
  intros H. apply pageOf_returns in H.
  destruct H as (_ & A & _ & _ & L & _). rewrite L, A. clear.
  unfold computeCustomEventsQueryVariables.
  set (a := if String.eqb cursorEventId0 "" && String.eqb anchor0 ""
            then "first_page" else anchor0).
  destruct (String.eqb_spec a "first_page") as [E|E];
    [rewrite E; cbn; rewrite orb_true_r; reflexivity|].
  destruct (String.eqb_spec a "last_page") as [E1|E1];
    [rewrite E1; reflexivity|].
  apply String.eqb_neq in E1.
  destruct (String.eqb a "next"); [cbn; rewrite E1, orb_true_r; reflexivity|].
  destruct (String.eqb a "previous"); cbn; rewrite E1, orb_true_r; reflexivity.
Qed.

(** X18.  For an anchor the search does not know (other than the empty
    anchor with an empty cursor, which stands for the first page), the
    direction stays undefined: the query sorts oldest first, the rows are
    shown in that order with the extra row popped, and the page offers
    neither a next nor a previous page. *)
Theorem unknown_anchor_has_no_cursors (store : Store) (account : Account)
        (pageSize : Z) (search anchor0 cursorEventId0 : string) (q : Query) :
  knownAnchor anchor0 = false ->
  anchor0 <> "" \/ cursorEventId0 <> "" ->
  prepareCustomEventsQuery store account pageSize search
    (computeCustomEventsQueryVariables anchor0 None cursorEventId0)
  = Returned q ->
  sort q = 1 /\
  getCustomEventsCursorSearch store account pageSize search anchor0 cursorEventId0
  = Returned
      {| data := map attributes
                   (if hasMore pageSize (find store q)
                    then removelast (find store q) else find store q);
         showPrev := false;
         showNext := false;
         showPrevCursorEventId := "";
         showNextCursorEventId := "";
         showLast := true;
         page_anchor := anchor0 |}.
Proof.
  intros K N Pq.
  assert (computeCustomEventsQueryVariables anchor0 None cursorEventId0
          = {| anchor := anchor0; direction := None;
               cursorEventId := cursorEventId0 |}) as E.
  { unfold computeCustomEventsQueryVariables.
    assert (String.eqb cursorEventId0 "" && String.eqb anchor0 "" = false) as Z0.
    { destruct N as [N|N]; apply String.eqb_neq in N; rewrite N;
        [apply andb_false_r | reflexivity]. }
    rewrite Z0. unfold knownAnchor in K.
    destruct (String.eqb anchor0 "first_page"); [discriminate|].
    destruct (String.eqb anchor0 "last_page"); [discriminate|].
    destruct (String.eqb anchor0 "next"); [discriminate|].
    destruct (String.eqb anchor0 "previous"); [discriminate | reflexivity]. }
  split.
  - destruct (prepare_returns _ _ _ _ _ _ Pq) as [_ S]. rewrite S, E. reflexivity.
  - unfold getCustomEventsCursorSearch. rewrite Pq, E.
    unfold pageOf, displayed. cbn.
    unfold knownAnchor in K.
    destruct (String.eqb anchor0 "first_page"); [discriminate|].
    destruct (String.eqb anchor0 "last_page"); [discriminate|].
    reflexivity.
Qed.

End CustomEventsFacts.

Lemma limited_honours (rows : list CustomEvents.EventDocument) :
  CustomEvents.honoursLimit (CustomEvents.limited rows).
Proof.
  intros q Hq. cbn. rewrite length_firstn. lia.
Qed.

Lemma page_holds_at_most_pageSize_witness :
  Z.of_nat (length (CustomEvents.data CustomEvents.firstPage)) <= 2.
Proof.
  refine (CustomEventsFacts.page_holds_at_most_pageSize
            (CustomEvents.limited CustomEvents.threeRows)
            (Sample.theOwner "mailgun" 3) 2 "" "" "" CustomEvents.firstPage
            (limited_honours _) _ eq_refl).
  lia.
Defined.

Lemma cursors_are_the_ends_of_the_page_witness :
  (exists before r,
      CustomEvents.displayed 2
        (CustomEvents.computeCustomEventsQueryVariables "" None "")
        CustomEvents.threeRows = (before ++ [r])%list /\
      "b" = CustomEvents._id r) /\
  "" = "".
Proof.
  exact (CustomEventsFacts.cursors_are_the_ends_of_the_page 2
           (CustomEvents.computeCustomEventsQueryVariables "" None "")
           CustomEvents.threeRows CustomEvents.firstPage eq_refl).
Defined.

Lemma empty_page_faults_witness :
  CustomEvents.getCustomEventsCursorSearch (CustomEvents.limited [])
    (Sample.theOwner "mailgun" 3) 2 "" "next" "a"
  = CustomEvents.Threw CustomEvents.TypeErrorThrown.
Proof.
  exact (CustomEventsFacts.empty_page_faults (CustomEvents.limited [])
           (Sample.theOwner "mailgun" 3) 2 "" "next" "a" CustomEvents.nextQuery
           (or_introl eq_refl) eq_refl eq_refl).
Defined.

Lemma showLast_unless_last_page_witness :
  CustomEvents.showLast CustomEvents.firstPage
  = negb (String.eqb (CustomEvents.page_anchor CustomEvents.firstPage) "last_page").
Proof.
  exact (CustomEventsFacts.showLast_unless_last_page
           (CustomEvents.limited CustomEvents.threeRows)
           (Sample.theOwner "mailgun" 3) 2 "" "" "" CustomEvents.firstPage eq_refl).
Defined.

Lemma unknown_anchor_has_no_cursors_witness :
  CustomEvents.sort CustomEvents.sidewaysQuery = 1 /\
  CustomEvents.getCustomEventsCursorSearch
    (CustomEvents.limited CustomEvents.threeRows)
    (Sample.theOwner "mailgun" 3) 2 "" "sideways" ""
  = CustomEvents.Returned
      {| CustomEvents.data := [[("event", "c")]; [("event", "b")]];
         CustomEvents.showPrev := false;
         CustomEvents.showNext := false;
         CustomEvents.showPrevCursorEventId := "";
         CustomEvents.showNextCursorEventId := "";
         CustomEvents.showLast := true;
         CustomEvents.page_anchor := "sideways" |}.
Proof.
  refine (CustomEventsFacts.unknown_anchor_has_no_cursors
            (CustomEvents.limited CustomEvents.threeRows)
            (Sample.theOwner "mailgun" 3) 2 "" "sideways" ""
            CustomEvents.sidewaysQuery eq_refl (or_introl _) eq_refl).
  discriminate.
Defined.
